(** * ProxBoard: a controllable UDP relay

    A shallow embedding of [src/ProxBoardService.ts] (the Bun service that
    [index.ts] starts) and of its Node sibling, the [dgram]/[ws] based
    implementation of the same service.

    Conventions.
    - A JavaScript number that the code uses as an integer (ports, lengths,
      offsets, close codes) is a [Z]; fractional numbers and NaN are outside
      this model.
    - A JavaScript string is the list of its UTF-16 code units, each a [Z]
      in [0, 65535].
    - An [ArrayBuffer], [Uint8Array] or [Buffer] is the list of its bytes,
      each a [Z] in [0, 255].
    - A function that can throw returns a [result]. *)

From Stdlib Require Import ZArith Lia List Ascii String.
From stdpp Require Import base option list gmap.
Import ListNotations.

Local Open Scope Z_scope.

(** ** Exceptions *)

Inductive result (A : Type) : Type :=
| Ok (a : A)
| Throw (message : string).
Arguments Ok {A} a.
Arguments Throw {A} message.

#[global] Instance result_ret : MRet result := fun A a => Ok a.
#[global] Instance result_bind : MBind result := fun A B k r =>
  match r with
  | Ok a => k a
  | Throw m => Throw m
  end.

Definition is_ok {A : Type} (r : result A) : bool :=
  match r with Ok _ => true | Throw _ => false end.

(** ** Strings and bytes *)

(** A JavaScript string: its UTF-16 code units. *)
Definition jsstring : Type := list Z.

(** A string literal of the source (ASCII only). *)
Definition js (s : string) : jsstring :=
  map (fun c => Z.of_N (N_of_ascii c)) (list_ascii_of_string s).

Definition is_code_unit (u : Z) : bool := (0 <=? u) && (u <=? 0xFFFF).
Definition is_byte (b : Z) : bool := (0 <=? b) && (b <=? 0xFF).

Definition byteLength (buf : list Z) : Z := Z.of_nat (length buf).

(** ** UTF-8, as the Encoding standard defines it *)

Module Utf8.

Definition is_high_surrogate (u : Z) : bool := (0xD800 <=? u) && (u <=? 0xDBFF).
Definition is_low_surrogate (u : Z) : bool := (0xDC00 <=? u) && (u <=? 0xDFFF).
Definition is_surrogate (u : Z) : bool := (0xD800 <=? u) && (u <=? 0xDFFF).

Definition replacement : Z := 0xFFFD.

(** Conversion of a string to scalar values: a surrogate pair is one code
    point, an unpaired surrogate becomes U+FFFD. *)
Fixpoint code_points (s : jsstring) : list Z :=
  match s with
  | [] => []
  | u :: rest =>
      if is_high_surrogate u then
        match rest with
        | v :: rest' =>
            if is_low_surrogate v
            then (0x10000 + Z.shiftl (u - 0xD800) 10 + (v - 0xDC00)) :: code_points rest'
            else replacement :: code_points rest
        | [] => [replacement]
        end
      else if is_low_surrogate u then replacement :: code_points rest
      else u :: code_points rest
  end.

(** The UTF-8 encoder's handler, for one scalar value. *)
Definition continuation (c : Z) (shift : Z) : Z :=
  Z.lor 0x80 (Z.land (Z.shiftr c shift) 0x3F).

Definition encode_code_point (c : Z) : list Z :=
  if c <=? 0x7F then [c]
  else if c <=? 0x7FF then
    [Z.shiftr c 6 + 0xC0; continuation c 0]
  else if c <=? 0xFFFF then
    [Z.shiftr c 12 + 0xE0; continuation c 6; continuation c 0]
  else
    [Z.shiftr c 18 + 0xF0; continuation c 12; continuation c 6; continuation c 0].

Definition encode_code_points (cs : list Z) : list Z :=
  concat (map encode_code_point cs).

(** The UTF-8 decoder's state. *)
Record state : Type := State {
  code_point : Z;
  bytes_seen : Z;
  bytes_needed : Z;
  lower_boundary : Z;
  upper_boundary : Z
}.

Definition initial : state := State 0 0 0 0x80 0xBF.

(** The handler when no continuation byte is awaited. *)
Definition lead (b : Z) : state * list Z :=
  if (0x00 <=? b) && (b <=? 0x7F) then (initial, [b])
  else if (0xC2 <=? b) && (b <=? 0xDF) then
    (State (Z.land b 0x1F) 0 1 0x80 0xBF, [])
  else if (0xE0 <=? b) && (b <=? 0xEF) then
    (State (Z.land b 0xF) 0 2
       (if b =? 0xE0 then 0xA0 else 0x80)
       (if b =? 0xED then 0x9F else 0xBF), [])
  else if (0xF0 <=? b) && (b <=? 0xF4) then
    (State (Z.land b 0x7) 0 3
       (if b =? 0xF0 then 0x90 else 0x80)
       (if b =? 0xF4 then 0x8F else 0xBF), [])
  else (initial, [replacement]).

(** The handler for one byte: the new state and the code points emitted.
    A byte outside the awaited range ends the sequence with U+FFFD and is
    processed again from the initial state. *)
Definition handler (st : state) (b : Z) : state * list Z :=
  if bytes_needed st =? 0 then lead b
  else if (b <? lower_boundary st) || (upper_boundary st <? b) then
    let '(st', out) := lead b in (st', replacement :: out)
  else
    let cp := Z.lor (Z.shiftl (code_point st) 6) (Z.land b 0x3F) in
    if bytes_seen st + 1 =? bytes_needed st then (initial, [cp])
    else (State cp (bytes_seen st + 1) (bytes_needed st) 0x80 0xBF, []).

Fixpoint run (st : state) (bytes : list Z) : list Z :=
  match bytes with
  | [] => if bytes_needed st =? 0 then [] else [replacement]
  | b :: rest => let '(st', out) := handler st b in out ++ run st' rest
  end.

Definition decode_code_points (bytes : list Z) : list Z := run initial bytes.

(** A code point as UTF-16 code units. *)
Definition code_units (c : Z) : jsstring :=
  if c <=? 0xFFFF then [c]
  else [0xD800 + Z.shiftr (c - 0x10000) 10; 0xDC00 + Z.land (c - 0x10000) 0x3FF].

Definition string_of_code_points (cs : list Z) : jsstring :=
  concat (map code_units cs).

(** The string that a run of bytes decodes to; a byte that is not part
    of a UTF-8 sequence gives U+FFFD. *)
Definition decode (bytes : list Z) : jsstring :=
  string_of_code_points (decode_code_points bytes).

(** The byte order mark EF BB BF, which [TextDecoder] removes by default. *)
Definition strip_bom (bytes : list Z) : list Z :=
  match bytes with
  | b1 :: b2 :: b3 :: rest =>
      if (b1 =? 0xEF) && (b2 =? 0xBB) && (b3 =? 0xBF) then rest else bytes
  | _ => bytes
  end.

(** No unpaired surrogate, and every element a code unit. *)
Fixpoint well_formed (s : jsstring) : bool :=
  match s with
  | [] => true
  | u :: rest =>
      is_code_unit u &&
      if is_high_surrogate u then
        match rest with
        | v :: rest' => is_low_surrogate v && well_formed rest'
        | [] => false
        end
      else negb (is_low_surrogate u) && well_formed rest
  end.

End Utf8.

(** [new TextEncoder().encode(s)] *)
Definition TextEncoder_encode (s : jsstring) : list Z :=
  Utf8.encode_code_points (Utf8.code_points s).

(** [new TextDecoder().decode(bytes)]: UTF-8, not fatal, the byte order mark
    removed. *)
Definition TextDecoder_decode (bytes : list Z) : jsstring :=
  Utf8.decode (Utf8.strip_bom bytes).

(** ** Typed arrays and data views over an [ArrayBuffer] *)

Definition RangeError : string := "RangeError: Offset is outside the bounds of the DataView".

(** [new ArrayBuffer(n)]: [n] zero bytes. *)
Definition ArrayBuffer (n : Z) : list Z := replicate (Z.to_nat n) 0.

Definition in_bounds (buf : list Z) (offset size : Z) : bool :=
  (0 <=? offset) && (offset + size <=? byteLength buf).

(** [view.setUint8(offset, value)] *)
Definition setUint8 (buf : list Z) (offset value : Z) : result (list Z) :=
  if in_bounds buf offset 1
  then Ok (<[Z.to_nat offset := value mod 256]> buf)
  else Throw RangeError.

(** [view.setUint16(offset, value, false)]: big-endian. *)
Definition setUint16 (buf : list Z) (offset value : Z) : result (list Z) :=
  if in_bounds buf offset 2
  then Ok (<[S (Z.to_nat offset) := value mod 256]>
            (<[Z.to_nat offset := (value / 256) mod 256]> buf))
  else Throw RangeError.

(** [uint8View.set(source, offset)] *)
Definition Uint8Array_set (buf source : list Z) (offset : Z) : result (list Z) :=
  if in_bounds buf offset (byteLength source)
  then Ok (list_inserts (Z.to_nat offset) source buf)
  else Throw "RangeError: offset is out of bounds".

(** [view.getUint8(offset)] *)
Definition getUint8 (buf : list Z) (offset : Z) : result Z :=
  if in_bounds buf offset 1
  then match buf !! Z.to_nat offset with
       | Some b => Ok b
       | None => Throw RangeError
       end
  else Throw RangeError.

(** [view.getUint16(offset, false)]: big-endian. *)
Definition getUint16 (buf : list Z) (offset : Z) : result Z :=
  if in_bounds buf offset 2
  then match buf !! Z.to_nat offset, buf !! S (Z.to_nat offset) with
       | Some hi, Some lo => Ok (hi * 256 + lo)
       | _, _ => Throw RangeError
       end
  else Throw RangeError.

(** The relative index of [slice]: negative counts from the end, and the
    result is clamped to the length. *)
Definition relative_index (len i : Z) : Z :=
  if i <? 0 then Z.max (len + i) 0 else Z.min i len.

(** [buf.slice(start, end)]: a copy of the bytes from [start] up to [end]. *)
Definition slice (buf : list Z) (start end_ : Z) : list Z :=
  let len := byteLength buf in
  let k := relative_index len start in
  let final := relative_index len end_ in
  take (Z.to_nat (final - k)) (drop (Z.to_nat k) buf).

(** [buf.slice(start)] *)
Definition slice_from (buf : list Z) (start : Z) : list Z :=
  slice buf start (byteLength buf).

(** [isNaN(n)]: the numbers of this model are integers. *)
Definition isNaN (n : Z) : bool := false.

(** What [decodeProxyMessage] returns. *)
Record ProxyMessage : Type := {
  targetHost : jsstring;
  targetPort : Z;
  payload : list Z
}.

(** ** JavaScript values, as [JSON.parse] produces them *)

#[local] Unset Elimination Schemes.
Inductive js_value : Type :=
| JUndefined
| JNull
| JBool (b : bool)
| JNumber (n : Z)
| JString (s : jsstring)
| JArray (items : list js_value)
| JObject (properties : list (jsstring * js_value)).
#[local] Set Elimination Schemes.

(** [!v] is [negb (truthy v)]. *)
Definition truthy (v : js_value) : bool :=
  match v with
  | JUndefined | JNull => false
  | JBool b => b
  | JNumber n => negb (n =? 0)
  | JString s => match s with [] => false | _ :: _ => true end
  | JArray _ | JObject _ => true
  end.

Definition typeof (v : js_value) : string :=
  match v with
  | JUndefined => "undefined"
  | JBool _ => "boolean"
  | JNumber _ => "number"
  | JString _ => "string"
  | JNull | JArray _ | JObject _ => "object"
  end.

(** [a === b]. Two objects are equal when they are the same object, which
    a parsed value and a value of the service never are. *)
Definition strict_equals (a b : js_value) : bool :=
  match a, b with
  | JUndefined, JUndefined => true
  | JNull, JNull => true
  | JBool x, JBool y => Bool.eqb x y
  | JNumber x, JNumber y => x =? y
  | JString x, JString y => bool_decide (x = y)
  | _, _ => false
  end.

(** The properties of an object, each key once. *)
Fixpoint own_property (properties : list (jsstring * js_value)) (key : jsstring)
    : js_value :=
  match properties with
  | [] => JUndefined
  | (k, v) :: rest => if bool_decide (k = key) then v else own_property rest key
  end.

(** [v.key], for the keys the service reads. *)
Definition get (v : js_value) (key : string) : result js_value :=
  match v with
  | JUndefined | JNull => Throw "TypeError: Cannot read properties of null"
  | JObject properties => Ok (own_property properties (js key))
  | JBool _ | JNumber _ | JString _ | JArray _ => Ok JUndefined
  end.

(** A message on the control connection, as [JSON.parse(message.toString())]
    sees it: text that is not JSON, or the value the text denotes. *)
Inductive ws_message : Type :=
| NotJson
| Json (data : js_value).

Definition JSON_parse (message : ws_message) : result js_value :=
  match message with
  | NotJson => Throw "SyntaxError: JSON Parse error"
  | Json data => Ok data
  end.

(** A template literal: its text and the values in its holes. *)
Inductive piece : Type :=
| Text (s : string)
| Hole (v : js_value).

Definition template : Type := list piece.

(** ** Sockets, sessions and the registry *)

(** A UDP socket, known by the port that its bind on [0.0.0.0] is called
    with. That is the port the socket is bound on when it lies in
    [1, 65535]; what the system makes of another number is not modelled. *)
Record Socket : Type := { localPort : Z }.

Module Endpoint.
Record t : Type := { address : js_value; port : js_value }.
End Endpoint.

Record ActiveProxy : Type := {
  proxySocket : Socket;
  proxyHost : Endpoint.t
}.

Record ProxBoardService : Type := {
  wsApiPort : Z;
  minProxyPort : Z;
  maxProxyPort : Z;
  accessToken : jsstring;
  activeProxies : gmap Z ActiveProxy
}.

Definition with_activeProxies (this : ProxBoardService)
    (m : gmap Z ActiveProxy) : ProxBoardService :=
  {| wsApiPort := wsApiPort this; minProxyPort := minProxyPort this;
     maxProxyPort := maxProxyPort this; accessToken := accessToken this;
     activeProxies := m |}.

(** [new ProxBoardService(wsApiPort, minProxyPort, maxProxyPort, token)] *)
Definition new_ProxBoardService (wsApiPort minProxyPort maxProxyPort : Z)
    (token : jsstring) : ProxBoardService :=
  {| wsApiPort := wsApiPort; minProxyPort := minProxyPort;
     maxProxyPort := maxProxyPort; accessToken := token;
     activeProxies := ∅ |}.

(** [map.has(key)] *)
Definition Map_has (m : gmap Z ActiveProxy) (key : Z) : bool :=
  match m !! key with Some _ => true | None => false end.

(** [map.get(key)] for a key that comes from a message: the keys of the
    registry are numbers, so any other value finds nothing. *)
Definition Map_get (m : gmap Z ActiveProxy) (key : js_value) : option ActiveProxy :=
  match key with
  | JNumber n => m !! n
  | _ => None
  end.

(** [map.delete(key)] *)
Definition Map_delete (m : gmap Z ActiveProxy) (key : js_value)
    : gmap Z ActiveProxy :=
  match key with
  | JNumber n => delete n m
  | _ => m
  end.

(** The responses of the control channel. *)
Module Response.
Record t : Type := {
  status : string;
  action : option string;
  message : option template;
  proxyPort : option Z;
  proxies : option (list (Z * Endpoint.t))
}.
End Response.

(** [{ status, action, message }] *)
Definition response (status action : string) (message : template) : Response.t :=
  {| Response.status := status; Response.action := Some action;
     Response.message := Some message; Response.proxyPort := None;
     Response.proxies := None |}.

(** [{ status, message }] *)
Definition reply (status : string) (message : template) : Response.t :=
  {| Response.status := status; Response.action := None;
     Response.message := Some message; Response.proxyPort := None;
     Response.proxies := None |}.

(** What binding a UDP socket on a port comes to. *)
Inductive BindResult : Type :=
| Bound
| BindError (code : string) (message : string).

(** What the service does to the outside. [unhandled_rejection] is a
    promise that is rejected with no handler: the runtime reports the error
    and ends the process, and with it every connection and every session;
    the state that the model returns beside it is of no account. *)
Inductive effect : Type :=
| console_log (text : template)
| console_warn (text : template)
| console_error (text : template)
| udp_bind (port : Z)
| udp_close (socket : Socket)
| udp_send (socket : Socket) (data : list Z) (port address : js_value)
| ws_send (response : Response.t)
| ws_close (code : Z) (reason : string)
| unhandled_rejection (reason : string).

(** The three ways an unauthenticated connection is closed. *)
Definition auth_timeout : Z * string := (4001, "Authentication required"%string).
Definition malformed_auth : Z * string := (4002, "Malformed auth message"%string).
Definition invalid_token : Z * string := (4003, "Invalid token"%string).

(** ** The frame, in the words of the specification *)

(** 1 byte hostname length, the hostname, 2 bytes port (big-endian), the
    payload. *)
Definition frame (hostname : list Z) (port : Z) (payload : list Z) : list Z :=
  [byteLength hostname] ++ hostname ++ [port / 256; port mod 256] ++ payload.

(** The fields that the header of a buffer declares. *)
Definition declared_length (bytes : list Z) : Z := nth 0 bytes 0.

Definition declared_hostname (bytes : list Z) : list Z :=
  take (Z.to_nat (declared_length bytes)) (drop 1 bytes).

Definition declared_port (bytes : list Z) : Z :=
  nth (Z.to_nat (1 + declared_length bytes)) bytes 0 * 256
  + nth (Z.to_nat (2 + declared_length bytes)) bytes 0.

Definition after_header (bytes : list Z) : list Z :=
  drop (Z.to_nat (1 + declared_length bytes + 2)) bytes.

(** A buffer is malformed when it has fewer than 4 bytes, or the header
    that it declares exceeds it, or the hostname decodes to the empty
    string, or the port is outside [1, 65535]; [text] decodes the bytes of
    the hostname. *)
Definition malformed (text : list Z -> jsstring) (bytes : list Z) : Prop :=
  byteLength bytes < 4
  \/ byteLength bytes < 1 + declared_length bytes + 2
  \/ text (declared_hostname bytes) = []
  \/ ~ (1 <= declared_port bytes <= 65535).

(** What decoding comes to, field by field. *)
Definition decode_fields (text : list Z -> jsstring) (bytes : list Z)
    : result ProxyMessage :=
  if byteLength bytes <? 4 then Throw "Malformed message: too short."
  else if byteLength bytes <? 1 + declared_length bytes + 2
  then Throw "Malformed message: incomplete header."
  else if negb (truthy (JString (text (declared_hostname bytes))))
          || (declared_port bytes <? 1) || (65535 <? declared_port bytes)
  then Throw "Malformed message: Invalid host or port."
  else Ok {| targetHost := text (declared_hostname bytes);
             targetPort := declared_port bytes;
             payload := after_header bytes |}.

Definition bytes_ok (bytes : list Z) : Prop :=
  Forall (fun b => is_byte b = true) bytes.

(** ** The Bun service: [src/ProxBoardService.ts] *)

Module Bun.

Definition encodeProxyMessage (targetHost : jsstring) (targetPort : Z)
    (payload : list Z) : result (list Z) :=
  let hostnameBuffer := TextEncoder_encode targetHost in
  let hostnameLength := byteLength hostnameBuffer in
  if 255 <? hostnameLength then Throw "Hostname is too long (max 255 bytes)."
  else if (targetPort <? 1) || (65535 <? targetPort)
  then Throw "Target port must be between 1 and 65535."
  else
    let totalLength := 1 + hostnameLength + 2 + byteLength payload in
    let buffer := ArrayBuffer totalLength in
    buffer ← setUint8 buffer 0 hostnameLength;
    buffer ← Uint8Array_set buffer hostnameBuffer 1;
    buffer ← setUint16 buffer (1 + hostnameLength) targetPort;
    buffer ← Uint8Array_set buffer payload (1 + hostnameLength + 2);
    mret buffer.

Definition decodeProxyMessage (messageBuffer : list Z) : result ProxyMessage :=
  if byteLength messageBuffer <? 4 then Throw "Malformed message: too short."
  else
    hostnameLength ← getUint8 messageBuffer 0;
    if byteLength messageBuffer <? 1 + hostnameLength + 2
    then Throw "Malformed message: incomplete header."
    else
      let hostnameBytes := slice messageBuffer 1 (1 + hostnameLength) in
      let targetHost := TextDecoder_decode hostnameBytes in
      targetPort ← getUint16 messageBuffer (1 + hostnameLength);
      let payload := slice_from messageBuffer (1 + hostnameLength + 2) in
      if negb (truthy (JString targetHost)) || isNaN targetPort
         || (targetPort <? 1) || (65535 <? targetPort)
      then Throw "Malformed message: Invalid host or port."
      else mret {| targetHost := targetHost; targetPort := targetPort;
                   payload := payload |}.

(** *** The port allocator *)

(** The loop of [findAvailablePort], from [port] on, with [candidates]
    ports left up to [maxProxyPort]. [bind port] is what
    [Bun.udpSocket({ port, hostname: '0.0.0.0' })] comes to. *)
Fixpoint findAvailablePort_from (bind : Z -> BindResult)
    (this : ProxBoardService) (port : Z) (candidates : nat)
    : option Z * list effect :=
  match candidates with
  | O => (None, [])
  | S candidates =>
      if Map_has (activeProxies this) port
      then findAvailablePort_from bind this (port + 1) candidates
      else
        match bind port with
        | Bound =>
            (Some port, [udp_bind port; udp_close {| localPort := port |}])
        | BindError _ _ =>
            let '(found, effects) :=
              findAvailablePort_from bind this (port + 1) candidates in
            (found, udp_bind port :: effects)
        end
  end.

Definition findAvailablePort (bind : Z -> BindResult)
    (this : ProxBoardService) : option Z * list effect :=
  findAvailablePort_from bind this (minProxyPort this)
    (Z.to_nat (maxProxyPort this - minProxyPort this + 1)).

(** *** The relay session *)


(** The [error] callback of a session's socket. *)
Definition onError (availablePort : Z) (socket : Socket) (error : string)
    (this : ProxBoardService) : ProxBoardService * list effect :=
  (with_activeProxies this (delete availablePort (activeProxies this)),
   [console_error [Text "Proxy "; Hole (JNumber availablePort);
                   Text " error:"; Text error];
    udp_close socket]).

(** *** The registry *)

(** [createProxy] run from its start to its end with no other handler
    between its awaits. [probe] answers the binds of the allocator,
    [bind] the bind of the session's socket. *)
Definition createProxy (probe bind : Z -> BindResult)
    (proxyHostAddress proxyHostPort : js_value) (this : ProxBoardService)
    : Response.t * ProxBoardService * list effect :=
  if negb (truthy proxyHostAddress)
     || negb (String.eqb (typeof proxyHostPort) "number")
  then (response "error" "create"
          [Text "Invalid proxyHostAddress or proxyHostPort."], this, [])
  else
    let '(availablePort, probes) := findAvailablePort probe this in
    match availablePort with
    | None =>
        (response "error" "create" [Text "No available proxy ports."],
         this, probes)
    | Some availablePort =>
        let proxyHost :=
          {| Endpoint.address := proxyHostAddress;
             Endpoint.port := proxyHostPort |} in
        match bind availablePort with
        | Bound =>
            let proxySocket := {| localPort := availablePort |} in
            ({| Response.status := "success";
                Response.action := Some "create"%string;
                Response.message :=
                  Some [Text "Proxy created on port ";
                        Hole (JNumber availablePort)];
                Response.proxyPort := Some availablePort;
                Response.proxies := None |},
             with_activeProxies this
               (<[availablePort :=
                    {| proxySocket := proxySocket; proxyHost := proxyHost |}]>
                  (activeProxies this)),
             probes ++
             [udp_bind availablePort;
              console_log [Text "Proxy created on port ";
                           Hole (JNumber availablePort);
                           Text " for proxyHost "; Hole proxyHostAddress;
                           Text ":"; Hole proxyHostPort]])
        | BindError _ err_message =>
            (response "error" "create" [Text err_message], this,
             probes ++
             [udp_bind availablePort;
              console_error [Text "Proxy creation failed:"; Text err_message]])
        end
    end.

Definition stopProxy (proxyPort : js_value) (this : ProxBoardService)
    : Response.t * ProxBoardService * list effect :=
  match Map_get (activeProxies this) proxyPort with
  | None => (response "error" "stop" [Text "Proxy not found."], this, [])
  | Some proxy =>
      (response "success" "stop"
         [Text "Proxy on port "; Hole proxyPort; Text " stopped."],
       with_activeProxies this (Map_delete (activeProxies this) proxyPort),
       [udp_close (proxySocket proxy);
        console_log [Text "Proxy "; Hole proxyPort; Text " stopped."]])
  end.

(** The order of the entries is the order of [map_to_list], not the order
    of insertion. *)
Definition listProxies (this : ProxBoardService) : Response.t :=
  let proxies :=
    map (fun '(port, proxy) => (port, proxyHost proxy))
        (map_to_list (activeProxies this)) in
  {| Response.status := "success"; Response.action := Some "list"%string;
     Response.message := None; Response.proxyPort := None;
     Response.proxies := Some proxies |}.

(** The loop of [shutdown] over the entries of the registry. *)
Fixpoint shutdown_loop (entries : list (Z * ActiveProxy))
    (m : gmap Z ActiveProxy) : gmap Z ActiveProxy * list effect :=
  match entries with
  | [] => (m, [])
  | (port, proxy) :: entries =>
      let '(m', effects) := shutdown_loop entries (delete port m) in
      (m', udp_close (proxySocket proxy)
           :: console_log [Text "Closed proxy on port "; Hole (JNumber port)]
           :: effects)
  end.

Definition shutdown (this : ProxBoardService)
    : ProxBoardService * list effect :=
  let '(m, effects) :=
    shutdown_loop (map_to_list (activeProxies this)) (activeProxies this) in
  (with_activeProxies this m,
   console_log [Text "Shutting down ProxBoardService..."] :: effects
   ++ [console_log [Text "Server stopped."]]).

(** *** The control channel *)

(** [authTimeout] is the delay left, in milliseconds, of the pending
    timer; it is [None] when no timer is set, or the timer was cleared or
    has fired. *)
Record WebSocketData : Type := {
  authenticated : bool;
  authTimeout : option Z
}.

(** [closed] is the code and reason the connection was closed with. *)
Record ServerWebSocket : Type := {
  data : WebSocketData;
  closed : option (Z * string)
}.

(** A connection after the upgrade: [data: { authenticated: false }]. *)
Definition upgraded : ServerWebSocket :=
  {| data := {| authenticated := false; authTimeout := None |};
     closed := None |}.

Definition handleWebSocketClose (ws : ServerWebSocket)
    : ServerWebSocket * list effect :=
  ({| data := {| authenticated := authenticated (data ws);
                 authTimeout := None |};
      closed := closed ws |},
   [console_log [Text "WebSocket client disconnected."]]).

(** [ws.close(code, reason)], and the [close] handler that it brings. *)
Definition close (code : Z) (reason : string) (ws : ServerWebSocket)
    : ServerWebSocket * list effect :=
  match closed ws with
  | Some _ => (ws, [])
  | None =>
      let '(ws', effects) :=
        handleWebSocketClose
          {| data := data ws; closed := Some (code, reason) |} in
      (ws', ws_close code reason :: effects)
  end.

(** The callback of the timer of [handleWebSocketOpen]. *)
Definition authTimeout_callback (ws : ServerWebSocket)
    : ServerWebSocket * list effect :=
  if negb (authenticated (data ws)) then
    let '(ws', effects) :=
      close (fst auth_timeout) (snd auth_timeout) ws in
    (ws', console_log [Text "Authentication timeout: closing connection."]
          :: effects)
  else (ws, []).

Definition handleWebSocketOpen (ws : ServerWebSocket)
    : ServerWebSocket * list effect :=
  ({| data := {| authenticated := false; authTimeout := Some 5000 |};
      closed := closed ws |},
   [console_log [Text "WebSocket client connected."]]).

(** [ms] milliseconds pass on the connection with no message: the timer
    fires when its delay is over. *)
Definition elapse (ms : Z) (ws : ServerWebSocket)
    : ServerWebSocket * list effect :=
  match authTimeout (data ws) with
  | Some delay =>
      if delay <=? ms then
        authTimeout_callback
          {| data := {| authenticated := authenticated (data ws);
                        authTimeout := None |};
             closed := closed ws |}
      else
        ({| data := {| authenticated := authenticated (data ws);
                       authTimeout := Some (delay - ms) |};
            closed := closed ws |}, [])
  | None => (ws, [])
  end.

(** The promise of [handleAuthenticatedMessage]: fulfilled, with the
    service and the effects, or rejected. *)
Definition handleAuthenticatedMessage (probe bind : Z -> BindResult)
    (this : ProxBoardService) (data : js_value)
    : result (ProxBoardService * list effect) :=
  action ← get data "action";
  '(response, this', effects) ←
    (if strict_equals action (JString (js "list")) then
       mret (listProxies this, this, [])
     else if strict_equals action (JString (js "create")) then
       proxyHostAddress ← get data "proxyHostAddress";
       proxyHostPort ← get data "proxyHostPort";
       mret (createProxy probe bind proxyHostAddress proxyHostPort this)
     else if strict_equals action (JString (js "stop")) then
       proxyPort ← get data "proxyPort";
       mret (stopProxy proxyPort this)
     else
       mret (reply "error" [Text "Unknown action."], this, []));
  mret (this', effects ++ [ws_send response]).

Definition handleWebSocketMessage (probe bind : Z -> BindResult)
    (this : ProxBoardService) (ws : ServerWebSocket) (message : ws_message)
    : ProxBoardService * ServerWebSocket * list effect :=
  let try : result (ProxBoardService * ServerWebSocket * list effect) :=
    data_ ← JSON_parse message;
    if negb (authenticated (data ws)) then
      action ← get data_ "action";
      accepted ←
        (if strict_equals action (JString (js "auth")) then
           token ← get data_ "token";
           mret (strict_equals token (JString (accessToken this)))
         else mret false);
      if (accepted : bool) then
        mret (this,
              {| data := {| authenticated := true; authTimeout := None |};
                 closed := closed ws |},
              [ws_send (reply "success" [Text "Authenticated"])])
      else
        let '(ws', effects) :=
          close (fst invalid_token) (snd invalid_token) ws in
        mret (this, ws',
              ws_send (reply "error" [Text "Invalid token"]) :: effects)
    else
      (* the promise is not awaited: a rejection is not caught here,
         nor anywhere else *)
      match handleAuthenticatedMessage probe bind this data_ with
      | Ok (this', effects) => mret (this', ws, effects)
      | Throw reason => mret (this, ws, [unhandled_rejection reason])
      end in
  match try with
  | Ok r => r
  | Throw error_message =>
      let logged :=
        console_error [Text "WebSocket message error:"; Text error_message] in
      if negb (authenticated (data ws)) then
        let '(ws', effects) :=
          close (fst malformed_auth) (snd malformed_auth) ws in
        (this, ws',
         logged :: ws_send (reply "error" [Text "Malformed auth message"])
         :: effects)
      else
        (this, ws, [logged; ws_send (reply "error" [Text error_message])])
  end.

End Bun.

(** ** The Node service: the [dgram] and [ws] implementation *)

(** The methods of a Node [Buffer] that the service calls. *)
Module Buffer.

(** [Buffer.from(s, 'utf8')] *)
Definition from_utf8 (s : jsstring) : list Z :=
  Utf8.encode_code_points (Utf8.code_points s).

(** [Buffer.alloc(n)] *)
Definition alloc (n : Z) : list Z := replicate (Z.to_nat n) 0.

Definition out_of_range : string := "ERR_OUT_OF_RANGE".

(** [buf.writeUInt8(value, offset)] *)
Definition writeUInt8 (buf : list Z) (value offset : Z) : result (list Z) :=
  if (value <? 0) || (255 <? value) then Throw out_of_range
  else if in_bounds buf offset 1
  then Ok (<[Z.to_nat offset := value]> buf)
  else Throw out_of_range.

(** [buf.writeUInt16BE(value, offset)] *)
Definition writeUInt16BE (buf : list Z) (value offset : Z) : result (list Z) :=
  if (value <? 0) || (65535 <? value) then Throw out_of_range
  else if in_bounds buf offset 2
  then Ok (<[S (Z.to_nat offset) := Z.land value 0xFF]>
            (<[Z.to_nat offset := Z.shiftr value 8]> buf))
  else Throw out_of_range.

(** [source.copy(target, targetStart)]: what does not fit is not copied. *)
Definition copy (source target : list Z) (targetStart : Z) : result (list Z) :=
  if targetStart <? 0 then Throw out_of_range
  else Ok (list_inserts (Z.to_nat targetStart) source target).

(** [buf.readUInt8(offset)] *)
Definition readUInt8 (buf : list Z) (offset : Z) : result Z :=
  if in_bounds buf offset 1
  then match buf !! Z.to_nat offset with
       | Some b => Ok b
       | None => Throw out_of_range
       end
  else Throw out_of_range.

(** [buf.readUInt16BE(offset)] *)
Definition readUInt16BE (buf : list Z) (offset : Z) : result Z :=
  if in_bounds buf offset 2
  then match buf !! Z.to_nat offset, buf !! S (Z.to_nat offset) with
       | Some hi, Some lo => Ok (hi * 256 + lo)
       | _, _ => Throw out_of_range
       end
  else Throw out_of_range.

(** [buf.toString('utf8', start, end)]: bytes that are not UTF-8 give
    U+FFFD, and the byte order mark stays. *)
Definition toString_utf8 (buf : list Z) (start end_ : Z) : jsstring :=
  let start := Z.max start 0 in
  let end_ := Z.min end_ (byteLength buf) in
  Utf8.decode (take (Z.to_nat (end_ - start)) (drop (Z.to_nat start) buf)).

End Buffer.

Module Node.

Definition encodeProxyMessage (targetHost : jsstring) (targetPort : Z)
    (payload : list Z) : result (list Z) :=
  let hostnameBuffer := Buffer.from_utf8 targetHost in
  let hostnameLength := byteLength hostnameBuffer in
  if 255 <? hostnameLength then Throw "Hostname is too long (max 255 bytes)."
  else if (targetPort <? 1) || (65535 <? targetPort)
  then Throw "Target port must be between 1 and 65535."
  else
    let totalLength := 1 + hostnameLength + 2 + byteLength payload in
    let buffer := Buffer.alloc totalLength in
    buffer ← Buffer.writeUInt8 buffer hostnameLength 0;
    buffer ← Buffer.copy hostnameBuffer buffer 1;
    buffer ← Buffer.writeUInt16BE buffer targetPort (1 + hostnameLength);
    buffer ← Buffer.copy payload buffer (1 + hostnameLength + 2);
    mret buffer.

Definition decodeProxyMessage (messageBuffer : list Z) : result ProxyMessage :=
  if byteLength messageBuffer <? 4 then Throw "Malformed message: too short."
  else
    hostnameLength ← Buffer.readUInt8 messageBuffer 0;
    if byteLength messageBuffer <? 1 + hostnameLength + 2
    then Throw "Malformed message: incomplete header."
    else
      let targetHost :=
        Buffer.toString_utf8 messageBuffer 1 (1 + hostnameLength) in
      targetPort ← Buffer.readUInt16BE messageBuffer (1 + hostnameLength);
      let payload := slice_from messageBuffer (1 + hostnameLength + 2) in
      if negb (truthy (JString targetHost)) || isNaN targetPort
         || (targetPort <? 1) || (65535 <? targetPort)
      then Throw "Malformed message: Invalid host or port."
      else mret {| targetHost := targetHost; targetPort := targetPort;
                   payload := payload |}.

(** *** The port allocator *)

(** [bind port] is what [tempSocket.bind(port, '0.0.0.0')] comes to: the
    [listening] event, or the [error] event with its code. The [error]
    listener resolves the promise when the code is [EADDRINUSE] and
    rejects it otherwise; a resolved promise returns the port. *)
Fixpoint findAvailablePort_from (bind : Z -> BindResult)
    (this : ProxBoardService) (port : Z) (candidates : nat)
    : option Z * list effect :=
  match candidates with
  | O => (None, [])
  | S candidates =>
      if Map_has (activeProxies this) port
      then findAvailablePort_from bind this (port + 1) candidates
      else
        let tempSocket := {| localPort := port |} in
        match bind port with
        | Bound => (Some port, [udp_bind port; udp_close tempSocket])
        | BindError code _ =>
            if String.eqb code "EADDRINUSE"
            then (Some port, [udp_bind port; udp_close tempSocket])
            else
              let '(found, effects) :=
                findAvailablePort_from bind this (port + 1) candidates in
              (found, udp_bind port :: udp_close tempSocket :: effects)
        end
  end.

Definition findAvailablePort (bind : Z -> BindResult)
    (this : ProxBoardService) : option Z * list effect :=
  findAvailablePort_from bind this (minProxyPort this)
    (Z.to_nat (maxProxyPort this - minProxyPort this + 1)).

(** *** The relay session *)

Module rinfo.
Record t : Type := { address : jsstring; port : Z }.
End rinfo.


(** *** The registry *)

(** The service, and the sockets that were closed with a callback that
    has not run yet: [closing] holds the [proxyPort] of each callback. *)
Record Runtime : Type := {
  this : ProxBoardService;
  closing : list js_value
}.

Definition started (service : ProxBoardService) : Runtime :=
  {| this := service; closing := [] |}.

(** [socket.close()] throws on a socket that is closed already. *)
Definition not_running : string := "ERR_SOCKET_DGRAM_NOT_RUNNING".

Definition is_closing (rt : Runtime) (port : Z) : bool :=
  existsb (strict_equals (JNumber port)) (closing rt).

(** The [error] listener of a session's socket. *)
Definition onError (availablePort : Z) (proxySocket : Socket) (err : string)
    (rt : Runtime) : result (Runtime * list effect) :=
  if is_closing rt (localPort proxySocket) then Throw not_running
  else
    mret ({| this := with_activeProxies (this rt)
                       (delete availablePort (activeProxies (this rt)));
             closing := closing rt |},
          [console_error [Text "Proxy "; Hole (JNumber availablePort);
                          Text " error:"; Text err];
           udp_close proxySocket]).

(** A promise that the caller awaits. *)
Inductive promise (A : Type) : Type :=
| Fulfilled (a : A)
| Pending.
Arguments Fulfilled {A} a.
Arguments Pending {A}.

(** [createProxy] from the bind of the session's socket on: what runs
    once [await this.findAvailablePort()] has returned [availablePort].
    [createProxy] awaits the allocator and then the bind, and other
    handlers can run in between, so [rt] need not be the state that the
    allocator has seen. When the bind succeeds the callback of [bind]
    registers the session; when it fails the [error] listener runs,
    which deletes [availablePort] whatever the registry holds there, and
    the promise of the bind is never resolved. *)
Definition createProxy_bind (bind : Z -> BindResult) (availablePort : Z)
    (proxyHostAddress proxyHostPort : js_value) (rt : Runtime)
    : promise Response.t * Runtime * list effect :=
  let proxySocket := {| localPort := availablePort |} in
  let proxyHost :=
    {| Endpoint.address := proxyHostAddress;
       Endpoint.port := proxyHostPort |} in
  match bind availablePort with
  | Bound =>
      (Fulfilled
         {| Response.status := "success";
            Response.action := Some "create"%string;
            Response.message :=
              Some [Text "Proxy created on port ";
                    Hole (JNumber availablePort)];
            Response.proxyPort := Some availablePort;
            Response.proxies := None |},
       {| this := with_activeProxies (this rt)
            (<[availablePort :=
                 {| proxySocket := proxySocket;
                    proxyHost := proxyHost |}]>
               (activeProxies (this rt)));
          closing := closing rt |},
       [udp_bind availablePort;
        console_log [Text "Proxy created on port ";
                     Hole (JNumber availablePort);
                     Text " for proxyHost "; Hole proxyHostAddress;
                     Text ":"; Hole proxyHostPort]])
  | BindError _ err_message =>
      (Pending,
       {| this := with_activeProxies (this rt)
            (delete availablePort (activeProxies (this rt)));
          closing := closing rt |},
       [udp_bind availablePort;
        console_error [Text "Proxy "; Hole (JNumber availablePort);
                       Text " error:"; Text err_message];
        udp_close proxySocket])
  end.

(** [createProxy] run from its start to its end with no other handler
    in between: the allocator, and then [createProxy_bind] on the state
    that the allocator has seen. When the bind of the session's socket
    fails, the [error] listener runs and the promise of the bind is
    never resolved. *)
Definition createProxy (probe bind : Z -> BindResult)
    (proxyHostAddress proxyHostPort : js_value) (rt : Runtime)
    : promise Response.t * Runtime * list effect :=
  if negb (truthy proxyHostAddress)
     || negb (String.eqb (typeof proxyHostPort) "number")
  then (Fulfilled
          (response "error" "create"
             [Text "Invalid proxyHostAddress or proxyHostPort."]), rt, [])
  else
    let '(availablePort, probes) := findAvailablePort probe (this rt) in
    match availablePort with
    | None =>
        (Fulfilled
           (response "error" "create" [Text "No available proxy ports."]),
         rt, probes)
    | Some availablePort =>
        let proxySocket := {| localPort := availablePort |} in
        let proxyHost :=
          {| Endpoint.address := proxyHostAddress;
             Endpoint.port := proxyHostPort |} in
        match bind availablePort with
        | Bound =>
            (Fulfilled
               {| Response.status := "success";
                  Response.action := Some "create"%string;
                  Response.message :=
                    Some [Text "Proxy created on port ";
                          Hole (JNumber availablePort)];
                  Response.proxyPort := Some availablePort;
                  Response.proxies := None |},
             {| this := with_activeProxies (this rt)
                  (<[availablePort :=
                       {| proxySocket := proxySocket;
                          proxyHost := proxyHost |}]>
                     (activeProxies (this rt)));
                closing := closing rt |},
             probes ++
             [udp_bind availablePort;
              console_log [Text "Proxy created on port ";
                           Hole (JNumber availablePort);
                           Text " for proxyHost "; Hole proxyHostAddress;
                           Text ":"; Hole proxyHostPort]])
        | BindError _ err_message =>
            (Pending,
             {| this := with_activeProxies (this rt)
                  (delete availablePort (activeProxies (this rt)));
                closing := closing rt |},
             probes ++
             [udp_bind availablePort;
              console_error [Text "Proxy "; Hole (JNumber availablePort);
                             Text " error:"; Text err_message];
              udp_close proxySocket])
        end
    end.

(** The entry is deleted by the callback of [close], which [tick] runs;
    until then a second [close] on the socket throws. *)
Definition stopProxy (proxyPort : js_value) (rt : Runtime)
    : result (Response.t * Runtime * list effect) :=
  match Map_get (activeProxies (this rt)) proxyPort with
  | None =>
      mret (response "error" "stop" [Text "Proxy not found."], rt, [])
  | Some proxy =>
      if is_closing rt (localPort (proxySocket proxy)) then Throw not_running
      else
        mret (response "success" "stop"
                [Text "Proxy on port "; Hole proxyPort; Text " stopped."],
              {| this := this rt; closing := closing rt ++ [proxyPort] |},
              [udp_close (proxySocket proxy)])
  end.

(** The callbacks of [close] that are due, in the order of the calls. *)
Fixpoint close_callbacks (ports : list js_value) (m : gmap Z ActiveProxy)
    : gmap Z ActiveProxy * list effect :=
  match ports with
  | [] => (m, [])
  | proxyPort :: ports =>
      let '(m', effects) := close_callbacks ports (Map_delete m proxyPort) in
      (m', console_log [Text "Proxy "; Hole proxyPort; Text " stopped."]
           :: effects)
  end.

(** The end of the current turn of the event loop. *)
Definition tick (rt : Runtime) : Runtime * list effect :=
  let '(m, effects) := close_callbacks (closing rt) (activeProxies (this rt)) in
  ({| this := with_activeProxies (this rt) m; closing := [] |}, effects).

Definition listProxies (this : ProxBoardService) : Response.t :=
  let proxies :=
    map (fun '(port, proxy) => (port, proxyHost proxy))
        (map_to_list (activeProxies this)) in
  {| Response.status := "success"; Response.action := Some "list"%string;
     Response.message := None; Response.proxyPort := None;
     Response.proxies := Some proxies |}.

(** The loop of [shutdown]; it ends early when [close] throws. *)
Fixpoint shutdown_loop (entries : list (Z * ActiveProxy)) (rt : Runtime)
    : Runtime * list effect :=
  match entries with
  | [] => (rt, [])
  | (port, proxy) :: entries =>
      if is_closing rt (localPort (proxySocket proxy)) then (rt, [])
      else
        let '(rt', effects) :=
          shutdown_loop entries
            {| this := with_activeProxies (this rt)
                         (delete port (activeProxies (this rt)));
               closing := closing rt |} in
        (rt', udp_close (proxySocket proxy)
              :: console_log [Text "Closed proxy on port ";
                              Hole (JNumber port)]
              :: effects)
  end.

Definition shutdown (rt : Runtime) : Runtime * list effect :=
  let '(rt', effects) :=
    shutdown_loop (map_to_list (activeProxies (this rt))) rt in
  (rt', console_log [Text "Shutting down ProxBoardService..."] :: effects).

(** *** The control channel *)

(** Which listener of [message] the connection has. *)
Inductive Listener : Type :=
| FirstMessage
| Commands
| NoListener.

(** [authenticated] and [authTimeout] are the variables of the
    [connection] listener; [authTimeout] is the delay left of the pending
    timer, as in the Bun service. *)
Record WebSocket : Type := {
  authenticated : bool;
  authTimeout : option Z;
  listener : Listener;
  closed : option (Z * string)
}.

(** [ws.close(code, reason)], and the [close] listener that logs. *)
Definition close (code : Z) (reason : string) (ws : WebSocket)
    : WebSocket * list effect :=
  match closed ws with
  | Some _ => (ws, [])
  | None =>
      ({| authenticated := authenticated ws; authTimeout := authTimeout ws;
          listener := listener ws; closed := Some (code, reason) |},
       [ws_close code reason;
        console_log [Text "WebSocket client disconnected."]])
  end.

(** The [connection] listener. *)
Definition connection : WebSocket * list effect :=
  ({| authenticated := false; authTimeout := Some 5000;
      listener := FirstMessage; closed := None |},
   [console_log [Text "WebSocket client connected."]]).

Definition authTimeout_callback (ws : WebSocket) : WebSocket * list effect :=
  if negb (authenticated ws) then
    let '(ws', effects) := close (fst auth_timeout) (snd auth_timeout) ws in
    (ws', console_log [Text "Authentication timeout: closing connection."]
          :: effects)
  else (ws, []).

Definition elapse (ms : Z) (ws : WebSocket) : WebSocket * list effect :=
  match authTimeout ws with
  | Some delay =>
      if delay <=? ms then
        authTimeout_callback
          {| authenticated := authenticated ws; authTimeout := None;
             listener := listener ws; closed := closed ws |}
      else
        ({| authenticated := authenticated ws;
            authTimeout := Some (delay - ms);
            listener := listener ws; closed := closed ws |}, [])
  | None => (ws, [])
  end.

(** The listener of the first message. *)
Definition firstMessage (accessToken : jsstring) (ws : WebSocket)
    (msg : ws_message) : WebSocket * list effect :=
  let try : result bool :=
    data ← JSON_parse msg;
    action ← get data "action";
    if strict_equals action (JString (js "auth")) then
      token ← get data "token";
      mret (strict_equals token (JString accessToken))
    else mret false in
  match try with
  | Ok true =>
      ({| authenticated := true; authTimeout := None;
          listener := Commands; closed := closed ws |},
       [ws_send (reply "success" [Text "Authenticated"])])
  | Ok false =>
      let '(ws', effects) :=
        close (fst invalid_token) (snd invalid_token) ws in
      (ws', ws_send (reply "error" [Text "Invalid token"]) :: effects)
  | Throw _ =>
      let '(ws', effects) :=
        close (fst malformed_auth) (snd malformed_auth) ws in
      (ws', ws_send (reply "error" [Text "Malformed auth message"]) :: effects)
  end.

(** A command whose promise stays pending sends no response. *)
Definition handleWebSocketMessage (probe bind : Z -> BindResult)
    (rt : Runtime) (message : ws_message) : Runtime * list effect :=
  let try : result (Runtime * list effect) :=
    data ← JSON_parse message;
    action ← get data "action";
    if strict_equals action (JString (js "list")) then
      mret (rt, [ws_send (listProxies (this rt))])
    else if strict_equals action (JString (js "create")) then
      proxyHostAddress ← get data "proxyHostAddress";
      proxyHostPort ← get data "proxyHostPort";
      let '(response, rt', effects) :=
        createProxy probe bind proxyHostAddress proxyHostPort rt in
      match response with
      | Fulfilled response => mret (rt', effects ++ [ws_send response])
      | Pending => mret (rt', effects)
      end
    else if strict_equals action (JString (js "stop")) then
      proxyPort ← get data "proxyPort";
      '(response, rt', effects) ← stopProxy proxyPort rt;
      mret (rt', effects ++ [ws_send response])
    else
      mret (rt, [ws_send (reply "error" [Text "Unknown action."])]) in
  match try with
  | Ok r => r
  | Throw error_message =>
      (rt, [console_error [Text "WebSocket message error:";
                           Text error_message];
            ws_send (reply "error" [Text error_message])])
  end.

(** A [message] event on a connection. A command is taken as the last
    frame of its turn: the callbacks of [close] that it leaves run
    before the next event. The frames that arrive in one chunk are
    handled in one turn, which is [handleWebSocketMessage] for one
    frame after the other with no [tick] in between. *)
Definition message_event (probe bind : Z -> BindResult) (rt : Runtime)
    (ws : WebSocket) (msg : ws_message)
    : Runtime * WebSocket * list effect :=
  match listener ws with
  | FirstMessage =>
      let '(ws', effects) :=
        firstMessage (accessToken (this rt))
          {| authenticated := authenticated ws;
             authTimeout := authTimeout ws;
             listener := NoListener; closed := closed ws |} msg in
      (rt, ws', effects)
  | Commands =>
      let '(rt', effects) := handleWebSocketMessage probe bind rt msg in
      let '(rt'', effects') := tick rt' in
      (rt'', ws, effects ++ effects')
  | NoListener => (rt, ws, [])
  end.

End Node.

(** ** What is observed of a run *)

(** The ports on which the effects attempt a bind, in order. *)
Definition bind_attempts (effects : list effect) : list Z :=
  omap (fun e => match e with udp_bind port => Some port | _ => None end)
       effects.

(** A candidate of the allocator that the registry does not hold. *)
Definition unregistered (this : ProxBoardService) (port : Z) : bool :=
  negb (Map_has (activeProxies this) port).

(** Every key of the registry lies within the configured range. *)
Definition keys_in_range (this : ProxBoardService) : Prop :=
  forall port proxy,
    activeProxies this !! port = Some proxy ->
    minProxyPort this <= port <= maxProxyPort this.

(** The errors of the registry, by the names of the specification. *)
Definition InvalidInput : Response.t :=
  response "error" "create" [Text "Invalid proxyHostAddress or proxyHostPort."].

Definition NoAvailablePort : Response.t :=
  response "error" "create" [Text "No available proxy ports."].

Definition NotFound : Response.t :=
  response "error" "stop" [Text "Proxy not found."].

(** The session that [createProxy] registers on a port. *)
Definition session (port : Z) (proxyHostAddress proxyHostPort : js_value)
    : ActiveProxy :=
  {| proxySocket := {| localPort := port |};
     proxyHost := {| Endpoint.address := proxyHostAddress;
                     Endpoint.port := proxyHostPort |} |}.

(** A bind that the Node allocator takes for a free port: the [listening]
    event, or the [error] event with the code [EADDRINUSE]. *)
Definition Node_takes (r : BindResult) : bool :=
  match r with
  | Bound => true
  | BindError code _ => String.eqb code "EADDRINUSE"
  end.

(** The operations that change the registry of the Bun service. *)
Inductive operation : Type :=
| create (probe bind : Z -> BindResult) (proxyHostAddress proxyHostPort : js_value)
| stop (proxyPort : js_value)
| socket_error (availablePort : Z) (socket : Socket) (error : string)
| shut_down.

Definition Bun_apply (this : ProxBoardService) (op : operation)
    : ProxBoardService :=
  match op with
  | create probe bind proxyHostAddress proxyHostPort =>
      snd (fst (Bun.createProxy probe bind proxyHostAddress proxyHostPort this))
  | stop proxyPort => snd (fst (Bun.stopProxy proxyPort this))
  | socket_error availablePort socket error =>
      fst (Bun.onError availablePort socket error this)
  | shut_down => fst (Bun.shutdown this)
  end.

(** The same in the Node service, each operation in a turn of its own; an
    operation that throws leaves the registry as it is. *)
Definition Node_apply (rt : Node.Runtime) (op : operation) : Node.Runtime :=
  fst (Node.tick
         match op with
         | create probe bind proxyHostAddress proxyHostPort =>
             snd (fst (Node.createProxy probe bind proxyHostAddress
                         proxyHostPort rt))
         | stop proxyPort =>
             match Node.stopProxy proxyPort rt with
             | Ok (_, rt', _) => rt'
             | Throw _ => rt
             end
         | socket_error availablePort socket error =>
             match Node.onError availablePort socket error rt with
             | Ok (rt', _) => rt'
             | Throw _ => rt
             end
         | shut_down => fst (Node.shutdown rt)
         end).

(** ** The demonstration client *)

Module Client.

Definition PROXY_HOST : jsstring := js "127.0.0.1".
Definition PROXY_PORT : Z := 10000.

Definition DNS_SERVER : jsstring := js "8.8.8.8".
Definition DNS_PORT : Z := 53.

(** [s.split(sep)] for a separator of one code unit; [current] is the
  piece that is being read. *)
Fixpoint split_from (sep : Z) (current s : jsstring) : list jsstring :=
match s with
| [] => [current]
| u :: rest =>
    if u =? sep then current :: split_from sep [] rest
    else split_from sep (current ++ [u]) rest
end.

Definition split (s : jsstring) (sep : Z) : list jsstring :=
split_from sep [] s.

(** [buf.write(s, offset, 'ascii')]: the low byte of each code unit, as
  far as the buffer goes. *)
Definition write_ascii (buf : list Z) (s : jsstring) (offset : Z)
  : result (list Z) :=
if (offset <? 0) || (byteLength buf <? offset) then Throw Buffer.out_of_range
else Ok (list_inserts (Z.to_nat offset) (map (fun u => Z.land u 0xFF) s) buf).

(** The loop of [buildDnsQuery] over the labels of the name. *)
Fixpoint write_labels (labels : list jsstring) (buf : list Z) (offset : Z)
  : result (list Z * Z) :=
match labels with
| [] => Ok (buf, offset)
| part :: labels =>
    buf ← Buffer.writeUInt8 buf (byteLength part) offset;
    let offset := offset + 1 in
    buf ← write_ascii buf part offset;
    let offset := offset + byteLength part in
    write_labels labels buf offset
end.

Definition buildDnsQuery : result (list Z) :=
let buf := Buffer.alloc 32 in
buf ← Buffer.writeUInt16BE buf 0x1234 0;
buf ← Buffer.writeUInt16BE buf 0x0100 2;
buf ← Buffer.writeUInt16BE buf 1 4;
buf ← Buffer.writeUInt16BE buf 0 6;
buf ← Buffer.writeUInt16BE buf 0 8;
buf ← Buffer.writeUInt16BE buf 0 10;
let qname := split (js "example.com") 46 in
let offset := 12 in
'(buf, offset) ← write_labels qname buf offset;
buf ← Buffer.writeUInt8 buf 0 offset;
let offset := offset + 1 in
buf ← Buffer.writeUInt16BE buf 1 offset;
let offset := offset + 2 in
buf ← Buffer.writeUInt16BE buf 1 offset;
let offset := offset + 2 in
mret (slice buf 0 offset).

(** The encoder of the client has no guard of its own: the writes of the
  buffer throw on a length over 255 and on a port outside [0, 65535]. *)
Definition encodeProxyMessage (targetHost : jsstring) (targetPort : Z)
  (payload : list Z) : result (list Z) :=
let hostnameBuffer := Buffer.from_utf8 targetHost in
let hostnameLength := byteLength hostnameBuffer in
let totalLength := 1 + hostnameLength + 2 + byteLength payload in
let buffer := Buffer.alloc totalLength in
buffer ← Buffer.writeUInt8 buffer hostnameLength 0;
buffer ← Buffer.copy hostnameBuffer buffer 1;
buffer ← Buffer.writeUInt16BE buffer targetPort (1 + hostnameLength);
buffer ← Buffer.copy payload buffer (1 + hostnameLength + 2);
mret buffer.

(** The decoder of the client has no guard either: the reads of the
  buffer throw outside its bounds (which of the two errors of [Buffer]
  they throw is not told apart). *)
Definition decodeProxyMessage (messageBuffer : list Z) : result ProxyMessage :=
hostnameLength ← Buffer.readUInt8 messageBuffer 0;
let targetHost :=
  Buffer.toString_utf8 messageBuffer 1 (1 + hostnameLength) in
targetPort ← Buffer.readUInt16BE messageBuffer (1 + hostnameLength);
let payload := slice_from messageBuffer (1 + hostnameLength + 2) in
mret {| targetHost := targetHost; targetPort := targetPort;
        payload := payload |}.

(** The datagram that [main] sends once its socket is bound. *)
Definition proxyMessage : result (list Z) :=
dnsQuery ← buildDnsQuery;
encodeProxyMessage DNS_SERVER DNS_PORT dnsQuery.

End Client.

(** ** What is observed of the effects *)

(** The responses sent on the control connection, in order. *)
Definition replies (effects : list effect) : list Response.t :=
  omap (fun e => match e with ws_send r => Some r | _ => None end) effects.

(** The closes of the control connection, in order. *)
Definition closes (effects : list effect) : list (Z * string) :=
  omap (fun e =>
          match e with ws_close code reason => Some (code, reason) | _ => None end)
       effects.

(** The UDP sockets that are closed, in order. *)
Definition socket_closes (effects : list effect) : list Socket :=
  omap (fun e => match e with udp_close socket => Some socket | _ => None end)
       effects.

(** The effects on the UDP side: binds, closes and sends. *)
Definition is_udp (e : effect) : bool :=
  match e with
  | udp_bind _ | udp_close _ | udp_send _ _ _ _ => true
  | _ => false
  end.

(** A port that the Bun allocator can return: the registry does not hold
    it and it binds. *)
Definition free (bind : Z -> BindResult) (this : ProxBoardService)
    (port : Z) : Prop :=
  Map_has (activeProxies this) port = false /\ bind port = Bound.

(** An [auth] message that carries [token]. *)
Definition auth_message (token : jsstring) (message : ws_message) : Prop :=
  exists properties,
    message = Json (JObject properties)
    /\ own_property properties (js "action") = JString (js "auth")
    /\ own_property properties (js "token") = JString token.

(** A message whose [action] cannot be read: text that is not JSON, or the
    JSON [null] ([undefined], which is no JSON value, reads alike). *)
Definition unreadable (message : ws_message) : Prop :=
  message = NotJson \/ message = Json JNull \/ message = Json JUndefined.

(** The test that both services apply to the first message of a
    connection: it throws when the message is unreadable. *)
Definition accepted (token : jsstring) (message : ws_message) : result bool :=
  data ← JSON_parse message;
  action ← get data "action";
  if strict_equals action (JString (js "auth")) then
    tok ← get data "token";
    mret (strict_equals tok (JString token))
  else mret false.

(** The rejections that no handler catches, in order. *)
Definition rejections (effects : list effect) : list string :=
  omap (fun e =>
          match e with unhandled_rejection reason => Some reason | _ => None end)
       effects.

(** Effects that send nothing on the control connection, do not close it
    and hold no rejection. *)
Definition silent (effects : list effect) : Prop :=
  replies effects = [] /\ closes effects = [] /\ rejections effects = [].

(** * Properties *)

(** ** Bit operations as arithmetic *)

Lemma land_shiftl_small (a x n : Z) :
  0 <= n -> 0 <= x < 2 ^ n -> Z.land (Z.shiftl a n) x = 0.
Proof.
  intros Hn Hx.
  rewrite <- (Z.mod_small x (2 ^ n)) by lia.
  rewrite <- Z.land_ones by lia.
  rewrite (Z.land_comm x), Z.land_assoc, Z.land_ones by lia.
  rewrite Z.shiftl_mul_pow2 by lia.
  rewrite Z.mod_mul by lia.
  apply Z.land_0_l.
Qed.

Lemma lor_shiftl_small (a x n : Z) :
  0 <= n -> 0 <= x < 2 ^ n -> Z.lor (Z.shiftl a n) x = a * 2 ^ n + x.
Proof.
  intros Hn Hx.
  pose proof (Z.add_lor_land (Z.shiftl a n) x) as H.
  rewrite land_shiftl_small in H by lia.
  rewrite <- (Z.shiftl_mul_pow2 a n) by lia. lia.
Qed.

Lemma land_low_bits (a : Z) (n : Z) :
  0 <= n -> Z.land a (2 ^ n - 1) = a mod 2 ^ n.
Proof.
  intros Hn. rewrite <- Z.land_ones by lia.
  f_equal. rewrite Z.ones_equiv. lia.
Qed.

Lemma continuation_arith (c shift : Z) :
  0 <= shift ->
  Utf8.continuation c shift = 0x80 + (c / 2 ^ shift) mod 64.
Proof.
  intros Hs. unfold Utf8.continuation.
  rewrite Z.shiftr_div_pow2 by lia.
  change 0x3F with (2 ^ 6 - 1). rewrite land_low_bits by lia.
  change 0x80 with (Z.shiftl 2 6).
  rewrite lor_shiftl_small; [reflexivity | lia |].
  apply Z.mod_pos_bound. lia.
Qed.

Lemma accumulate_arith (cp m : Z) :
  0 <= m < 64 ->
  Z.lor (Z.shiftl cp 6) (Z.land (0x80 + m) 0x3F) = cp * 64 + m.
Proof.
  intros Hm.
  change 0x3F with (2 ^ 6 - 1). rewrite land_low_bits by lia.
  replace ((0x80 + m) mod 2 ^ 6) with m.
  - rewrite lor_shiftl_small; lia.
  - change (2 ^ 6) with 64. change 0x80 with (2 * 64).
    rewrite Z.add_comm, Z.mod_add by lia. symmetry. apply Z.mod_small. lia.
Qed.

Lemma lead_bits (y offset n : Z) :
  0 <= n -> 0 <= y < 2 ^ n -> (offset mod 2 ^ n = 0) ->
  Z.land (y + offset) (2 ^ n - 1) = y.
Proof.
  intros Hn Hy Ho. rewrite land_low_bits by lia.
  rewrite Z.add_mod, Ho, Z.add_0_r, Z.mod_mod by lia.
  apply Z.mod_small. lia.
Qed.

(** ** The UTF-8 decoder on the output of the encoder *)

Ltac zbool :=
  repeat match goal with
  | |- context [?a <=? ?b] => destruct (Z.leb_spec a b); try lia
  | |- context [?a <? ?b] => destruct (Z.ltb_spec a b); try lia
  | |- context [?a =? ?b] => destruct (Z.eqb_spec a b); try lia
  end; cbn [andb orb negb].

Lemma lead_ascii (b : Z) :
  0 <= b <= 0x7F -> Utf8.lead b = (Utf8.initial, [b]).
Proof. intros Hb. unfold Utf8.lead. zbool. reflexivity. Qed.

Lemma lead_two (y : Z) :
  2 <= y <= 31 ->
  Utf8.lead (y + 0xC0) = (Utf8.State y 0 1 0x80 0xBF, []).
Proof.
  intros Hy. unfold Utf8.lead.
  change 0x1F with (2 ^ 5 - 1). rewrite lead_bits by (reflexivity || lia).
  zbool. reflexivity.
Qed.

Lemma lead_three (y : Z) :
  0 <= y <= 15 ->
  Utf8.lead (y + 0xE0) =
  (Utf8.State y 0 2 (if y =? 0 then 0xA0 else 0x80)
     (if y =? 13 then 0x9F else 0xBF), []).
Proof.
  intros Hy. unfold Utf8.lead.
  change 0xF with (2 ^ 4 - 1). rewrite lead_bits by (reflexivity || lia).
  zbool; reflexivity.
Qed.

Lemma lead_four (y : Z) :
  0 <= y <= 4 ->
  Utf8.lead (y + 0xF0) =
  (Utf8.State y 0 3 (if y =? 0 then 0x90 else 0x80)
     (if y =? 4 then 0x8F else 0xBF), []).
Proof.
  intros Hy. unfold Utf8.lead.
  change 0x7 with (2 ^ 3 - 1). rewrite lead_bits by (reflexivity || lia).
  zbool; reflexivity.
Qed.

Lemma handler_continuation (cp seen needed lo hi m : Z) :
  needed <> 0 -> 0 <= m < 64 -> lo <= 0x80 + m <= hi ->
  Utf8.handler (Utf8.State cp seen needed lo hi) (0x80 + m) =
  if seen + 1 =? needed then (Utf8.initial, [cp * 64 + m])
  else (Utf8.State (cp * 64 + m) (seen + 1) needed 0x80 0xBF, []).
Proof.
  intros Hn Hm Hb. unfold Utf8.handler.
  cbn [Utf8.bytes_needed Utf8.lower_boundary Utf8.upper_boundary
       Utf8.code_point Utf8.bytes_seen].
  rewrite accumulate_arith by lia.
  destruct (Z.eqb_spec needed 0); [lia|].
  destruct (Z.ltb_spec (0x80 + m) lo); [lia|].
  destruct (Z.ltb_spec hi (0x80 + m)); [lia|].
  reflexivity.
Qed.

Lemma handler_more (cp seen needed lo hi m : Z) :
  needed <> 0 -> 0 <= m < 64 -> lo <= 0x80 + m <= hi -> seen + 1 <> needed ->
  Utf8.handler (Utf8.State cp seen needed lo hi) (0x80 + m) =
  (Utf8.State (cp * 64 + m) (seen + 1) needed 0x80 0xBF, []).
Proof.
  intros Hn Hm Hb Hs. rewrite handler_continuation by assumption.
  destruct (Z.eqb_spec (seen + 1) needed); [lia | reflexivity].
Qed.

Lemma handler_last (cp seen needed lo hi m : Z) :
  needed <> 0 -> 0 <= m < 64 -> lo <= 0x80 + m <= hi -> seen + 1 = needed ->
  Utf8.handler (Utf8.State cp seen needed lo hi) (0x80 + m) =
  (Utf8.initial, [cp * 64 + m]).
Proof.
  intros Hn Hm Hb Hs. rewrite handler_continuation by assumption.
  destruct (Z.eqb_spec (seen + 1) needed); [reflexivity | lia].
Qed.

Lemma run_cons (st : Utf8.state) (b : Z) (rest : list Z) :
  Utf8.run st (b :: rest) =
  snd (Utf8.handler st b) ++ Utf8.run (fst (Utf8.handler st b)) rest.
Proof. cbn [Utf8.run]. destruct (Utf8.handler st b). reflexivity. Qed.

Lemma handler_initial (b : Z) : Utf8.handler Utf8.initial b = Utf8.lead b.
Proof. reflexivity. Qed.

Ltac div_mod_lia := Z.div_mod_to_equations; lia.

Lemma run_encode_code_point (c : Z) (rest : list Z) :
  0 <= c <= 0x10FFFF -> Utf8.is_surrogate c = false ->
  Utf8.run Utf8.initial (Utf8.encode_code_point c ++ rest) =
  c :: Utf8.run Utf8.initial rest.
Proof.
  intros Hc Hs. unfold Utf8.is_surrogate in Hs.
  apply andb_false_iff in Hs.
  rewrite Z.leb_gt, Z.leb_gt in Hs.
  unfold Utf8.encode_code_point.
  rewrite !continuation_arith by lia.
  rewrite !Z.shiftr_div_pow2 by lia.
  change (2 ^ 0) with 1. change (2 ^ 6) with 64.
  change (2 ^ 12) with 4096. change (2 ^ 18) with 262144.
  rewrite Z.div_1_r.
  destruct (Z.leb_spec c 0x7F).
  - cbn [app]. rewrite run_cons, handler_initial, lead_ascii by lia.
    reflexivity.
  - destruct (Z.leb_spec c 0x7FF).
    + cbn [app].
      rewrite run_cons, handler_initial, lead_two by div_mod_lia.
      cbn [fst snd app].
      rewrite run_cons, handler_last by div_mod_lia.
      cbn [fst snd app]. f_equal. div_mod_lia.
    + destruct (Z.leb_spec c 0xFFFF).
      * cbn [app].
        rewrite run_cons, handler_initial, lead_three by div_mod_lia.
        cbn [fst snd app].
        rewrite run_cons, handler_more;
          [| lia | div_mod_lia
           | destruct (Z.eqb_spec (c / 4096) 0), (Z.eqb_spec (c / 4096) 13);
             div_mod_lia | lia ].
        cbn [fst snd app].
        rewrite run_cons, handler_last by div_mod_lia.
        cbn [fst snd app]. f_equal. div_mod_lia.
      * cbn [app].
        rewrite run_cons, handler_initial, lead_four by div_mod_lia.
        cbn [fst snd app].
        rewrite run_cons, handler_more;
          [| lia | div_mod_lia
           | destruct (Z.eqb_spec (c / 262144) 0), (Z.eqb_spec (c / 262144) 4);
             div_mod_lia | lia ].
        cbn [fst snd app].
        rewrite run_cons, handler_more by div_mod_lia.
        cbn [fst snd app].
        rewrite run_cons, handler_last by div_mod_lia.
        cbn [fst snd app]. f_equal. div_mod_lia.
Qed.

(** ** Strings through the encoder and back *)

Lemma encode_code_points_cons (c : Z) (cs : list Z) :
  Utf8.encode_code_points (c :: cs) =
  Utf8.encode_code_point c ++ Utf8.encode_code_points cs.
Proof. reflexivity. Qed.

Lemma string_of_code_points_cons (c : Z) (cs : list Z) :
  Utf8.string_of_code_points (c :: cs) =
  Utf8.code_units c ++ Utf8.string_of_code_points cs.
Proof. reflexivity. Qed.

Lemma code_units_bmp (c : Z) : c <= 0xFFFF -> Utf8.code_units c = [c].
Proof.
  intros Hc. unfold Utf8.code_units.
  destruct (Z.leb_spec c 0xFFFF); [reflexivity | lia].
Qed.

Lemma surrogate_pair_range (u v : Z) :
  Utf8.is_high_surrogate u = true -> Utf8.is_low_surrogate v = true ->
  0xD800 <= u <= 0xDBFF /\ 0xDC00 <= v <= 0xDFFF.
Proof.
  unfold Utf8.is_high_surrogate, Utf8.is_low_surrogate.
  rewrite !andb_true_iff, !Z.leb_le. tauto.
Qed.

Lemma code_units_pair (u v : Z) :
  Utf8.is_high_surrogate u = true -> Utf8.is_low_surrogate v = true ->
  Utf8.code_units (0x10000 + Z.shiftl (u - 0xD800) 10 + (v - 0xDC00)) = [u; v].
Proof.
  intros Hu Hv. destruct (surrogate_pair_range u v Hu Hv) as [Ru Rv].
  unfold Utf8.code_units.
  rewrite Z.shiftl_mul_pow2 by lia. change (2 ^ 10) with 1024.
  destruct (Z.leb_spec (0x10000 + (u - 0xD800) * 1024 + (v - 0xDC00)) 0xFFFF);
    [lia|].
  rewrite Z.shiftr_div_pow2 by lia.
  change 0x3FF with (2 ^ 10 - 1). rewrite land_low_bits by lia.
  change (2 ^ 10) with 1024.
  f_equal; [| f_equal]; div_mod_lia.
Qed.

Lemma pair_is_scalar (u v : Z) :
  Utf8.is_high_surrogate u = true -> Utf8.is_low_surrogate v = true ->
  0x10000 <= 0x10000 + Z.shiftl (u - 0xD800) 10 + (v - 0xDC00) <= 0x10FFFF.
Proof.
  intros Hu Hv. destruct (surrogate_pair_range u v Hu Hv) as [Ru Rv].
  rewrite Z.shiftl_mul_pow2 by lia. change (2 ^ 10) with 1024. lia.
Qed.

Lemma not_surrogate (u : Z) :
  Utf8.is_high_surrogate u = false -> Utf8.is_low_surrogate u = false ->
  Utf8.is_surrogate u = false.
Proof.
  unfold Utf8.is_high_surrogate, Utf8.is_low_surrogate, Utf8.is_surrogate.
  rewrite !andb_false_iff, !Z.leb_gt. lia.
Qed.

Lemma is_code_unit_range (u : Z) : is_code_unit u = true -> 0 <= u <= 0xFFFF.
Proof. unfold is_code_unit. rewrite andb_true_iff, !Z.leb_le. tauto. Qed.

(** The two shapes of a well-formed string that is not empty. *)
Lemma well_formed_cons (u : Z) (rest : jsstring) :
  Utf8.well_formed (u :: rest) = true ->
  (Utf8.is_high_surrogate u = true /\
   exists v rest', rest = v :: rest' /\ Utf8.is_low_surrogate v = true /\
                   Utf8.well_formed rest' = true) \/
  (Utf8.is_high_surrogate u = false /\ Utf8.is_low_surrogate u = false /\
   0 <= u <= 0xFFFF /\ Utf8.well_formed rest = true).
Proof.
  cbn [Utf8.well_formed]. intros H.
  apply andb_true_iff in H as [Hu H].
  apply is_code_unit_range in Hu.
  destruct (Utf8.is_high_surrogate u) eqn:Hh.
  - left. split; [reflexivity|].
    destruct rest as [|v rest']; [discriminate|].
    apply andb_true_iff in H as [Hv H]. eauto.
  - right. apply andb_true_iff in H as [Hl H].
    apply negb_true_iff in Hl. auto.
Qed.

Lemma decode_encode_code_points (s : jsstring) :
  Utf8.well_formed s = true ->
  Utf8.decode (Utf8.encode_code_points (Utf8.code_points s)) = s.
Proof.
  unfold Utf8.decode, Utf8.decode_code_points.
  enough (H : (Utf8.well_formed s = true ->
               Utf8.string_of_code_points
                 (Utf8.run Utf8.initial
                    (Utf8.encode_code_points (Utf8.code_points s))) = s) /\
              (forall u, Utf8.well_formed (u :: s) = true ->
               Utf8.string_of_code_points
                 (Utf8.run Utf8.initial
                    (Utf8.encode_code_points (Utf8.code_points (u :: s))))
               = u :: s)) by apply H.
  induction s as [|v s [IHs IHv]].
  - split; [reflexivity|].
    intros u Hwf.
    destruct (well_formed_cons _ _ Hwf)
      as [(_ & w & r & Hr & _) | (Hh & Hl & Hu & _)]; [discriminate|].
    cbn [Utf8.code_points]. rewrite Hh, Hl.
    rewrite encode_code_points_cons, run_encode_code_point
      by (lia || auto using not_surrogate).
    rewrite string_of_code_points_cons, code_units_bmp by lia. reflexivity.
  - split; [apply IHv|].
    intros u Hwf.
    destruct (well_formed_cons _ _ Hwf)
      as [(Hh & w & r & Hr & Hw & Hwf') | (Hh & Hl & Hu & Hwf')].
    + injection Hr as <- <-.
      cbn [Utf8.code_points]. rewrite Hh, Hw.
      pose proof (pair_is_scalar u v Hh Hw) as Hcp.
      rewrite encode_code_points_cons, run_encode_code_point;
        [| lia
         | unfold Utf8.is_surrogate; apply andb_false_iff; right;
           apply Z.leb_gt; lia ].
      rewrite string_of_code_points_cons, code_units_pair by assumption.
      cbn [app]. do 2 f_equal. apply IHs, Hwf'.
    + cbn [Utf8.code_points]. rewrite Hh, Hl.
      rewrite encode_code_points_cons, run_encode_code_point
        by (lia || auto using not_surrogate).
      rewrite string_of_code_points_cons, code_units_bmp by lia.
      cbn [app]. f_equal. apply IHv, Hwf'.
Qed.

(** The encoder writes EF BB BF first only for U+FEFF. *)
Lemma strip_bom_first (b : Z) (rest : list Z) :
  b <> 0xEF -> Utf8.strip_bom (b :: rest) = b :: rest.
Proof.
  intros Hb. unfold Utf8.strip_bom.
  destruct rest as [|b2 [|b3 rest]]; try reflexivity.
  destruct (Z.eqb_spec b 0xEF); [contradiction | reflexivity].
Qed.

Lemma strip_bom_encode (s : jsstring) :
  Utf8.well_formed s = true -> head s <> Some 0xFEFF ->
  Utf8.strip_bom (TextEncoder_encode s) = TextEncoder_encode s.
Proof.
  intros Hwf Hhead. unfold TextEncoder_encode.
  destruct s as [|u rest]; [reflexivity|].
  assert (Hu : u <> 0xFEFF) by (intros ->; apply Hhead; reflexivity).
  destruct (well_formed_cons _ _ Hwf)
    as [(Hh & w & r & -> & Hw & Hwf') | (Hh & Hl & Hr & Hwf')].
  - cbn [Utf8.code_points]. rewrite Hh, Hw.
    pose proof (pair_is_scalar u w Hh Hw) as Hcp.
    rewrite encode_code_points_cons. unfold Utf8.encode_code_point.
    repeat match goal with
           | |- context [?a <=? ?b] => destruct (Z.leb_spec a b); try lia
           end.
    cbn [app]. apply strip_bom_first.
    rewrite Z.shiftr_div_pow2 by lia. change (2 ^ 18) with 262144.
    div_mod_lia.
  - cbn [Utf8.code_points]. rewrite Hh, Hl.
    rewrite encode_code_points_cons. unfold Utf8.encode_code_point.
    rewrite !continuation_arith by lia.
    rewrite !Z.shiftr_div_pow2 by lia.
    change (2 ^ 0) with 1. change (2 ^ 6) with 64. change (2 ^ 12) with 4096.
    rewrite Z.div_1_r.
    destruct (Z.leb_spec u 0x7F); [cbn [app]; apply strip_bom_first; lia|].
    destruct (Z.leb_spec u 0x7FF);
      [cbn [app]; apply strip_bom_first; div_mod_lia|].
    destruct (Z.leb_spec u 0xFFFF); [| lia].
    cbn [app]. unfold Utf8.strip_bom.
    destruct (Z.eqb_spec (u / 4096 + 0xE0) 0xEF); [| reflexivity].
    destruct (Z.eqb_spec (0x80 + (u / 64) mod 64) 0xBB); [| reflexivity].
    destruct (Z.eqb_spec (0x80 + u mod 64) 0xBF); [| reflexivity].
    exfalso. apply Hu. div_mod_lia.
Qed.

Lemma TextDecoder_TextEncoder (s : jsstring) :
  Utf8.well_formed s = true -> head s <> Some 0xFEFF ->
  TextDecoder_decode (TextEncoder_encode s) = s.
Proof.
  intros Hwf Hhead. unfold TextDecoder_decode.
  rewrite strip_bom_encode by assumption.
  apply decode_encode_code_points, Hwf.
Qed.

(** ** Buffers *)

Lemma byteLength_nonneg (l : list Z) : 0 <= byteLength l.
Proof. unfold byteLength. lia. Qed.

Lemma byteLength_app (l k : list Z) :
  byteLength (l ++ k) = byteLength l + byteLength k.
Proof. unfold byteLength. rewrite length_app. lia. Qed.

Lemma byteLength_cons (x : Z) (l : list Z) :
  byteLength (x :: l) = 1 + byteLength l.
Proof. unfold byteLength. cbn [length]. lia. Qed.

Lemma byteLength_to_nat (l : list Z) : Z.to_nat (byteLength l) = length l.
Proof. unfold byteLength. apply Nat2Z.id. Qed.

Lemma in_bounds_true (buf : list Z) (offset size : Z) :
  0 <= offset -> offset + size <= byteLength buf ->
  in_bounds buf offset size = true.
Proof.
  intros H1 H2. unfold in_bounds.
  apply andb_true_iff. rewrite !Z.leb_le. lia.
Qed.

Lemma inserts_middle (pre old post source : list Z) :
  length old = length source ->
  list_inserts (length pre) source (pre ++ old ++ post) = pre ++ source ++ post.
Proof.
  intros Hlen.
  rewrite <- (Nat.add_0_r (length pre)).
  rewrite list_inserts_app_r. f_equal.
  apply list_inserts_0_r. symmetry. exact Hlen.
Qed.

Lemma insert_two_middle (pre post : list Z) (a b hi lo : Z) :
  <[S (length pre) := lo]> (<[length pre := hi]> (pre ++ a :: b :: post))
  = pre ++ hi :: lo :: post.
Proof.
  rewrite <- (Nat.add_0_r (length pre)) at 2.
  rewrite insert_app_r. cbn [insert list_insert].
  replace (S (length pre)) with (length pre + 1)%nat by lia.
  rewrite insert_app_r. reflexivity.
Qed.

Lemma ArrayBuffer_frame (hostname payload : list Z) :
  ArrayBuffer (1 + byteLength hostname + 2 + byteLength payload) =
  [0] ++ replicate (length hostname) 0 ++ [0; 0]
      ++ replicate (length payload) 0.
Proof.
  unfold ArrayBuffer, byteLength.
  replace (Z.to_nat (1 + Z.of_nat (length hostname) + 2
                     + Z.of_nat (length payload)))
    with (1 + (length hostname + (2 + length payload)))%nat by lia.
  rewrite !replicate_add. reflexivity.
Qed.

Lemma setUint8_head (x : Z) (l : list Z) (v : Z) :
  0 <= v <= 255 -> setUint8 (x :: l) 0 v = Ok (v :: l).
Proof.
  intros Hv. unfold setUint8.
  rewrite in_bounds_true by (rewrite ?byteLength_cons; pose proof (byteLength_nonneg l); lia).
  cbn [Z.to_nat insert list_insert]. rewrite Z.mod_small by lia. reflexivity.
Qed.

Lemma Uint8Array_set_middle (pre old post source : list Z) :
  length old = length source ->
  Uint8Array_set (pre ++ old ++ post) source (byteLength pre)
  = Ok (pre ++ source ++ post).
Proof.
  intros Hlen. unfold Uint8Array_set.
  rewrite in_bounds_true.
  - rewrite byteLength_to_nat, inserts_middle by exact Hlen. reflexivity.
  - apply byteLength_nonneg.
  - rewrite !byteLength_app. unfold byteLength. rewrite Hlen.
    pose proof (byteLength_nonneg post). unfold byteLength in *. lia.
Qed.

Lemma setUint16_middle (pre post : list Z) (a b v : Z) :
  0 <= v <= 65535 ->
  setUint16 (pre ++ a :: b :: post) (byteLength pre) v
  = Ok (pre ++ v / 256 :: v mod 256 :: post).
Proof.
  intros Hv. unfold setUint16.
  rewrite in_bounds_true.
  - rewrite byteLength_to_nat, insert_two_middle.
    rewrite (Z.mod_small (v / 256)) by div_mod_lia. reflexivity.
  - apply byteLength_nonneg.
  - rewrite byteLength_app, !byteLength_cons.
    pose proof (byteLength_nonneg post). lia.
Qed.

(** ** The layout that [encodeProxyMessage] writes *)

Lemma encode_guards (hostname : list Z) (port : Z) :
  byteLength hostname <= 255 -> 1 <= port <= 65535 ->
  (255 <? byteLength hostname) = false /\
  ((port <? 1) || (65535 <? port)) = false.
Proof.
  intros Hh Hp. split.
  - apply Z.ltb_ge. lia.
  - apply orb_false_iff. rewrite !Z.ltb_ge. lia.
Qed.

Lemma Uint8Array_set_at (buf pre old post source : list Z) (offset : Z) :
  buf = pre ++ old ++ post -> offset = byteLength pre ->
  length old = length source ->
  Uint8Array_set buf source offset = Ok (pre ++ source ++ post).
Proof. intros -> ->. apply Uint8Array_set_middle. Qed.

Lemma setUint16_at (buf pre post : list Z) (a b v offset : Z) :
  buf = pre ++ a :: b :: post -> offset = byteLength pre ->
  0 <= v <= 65535 ->
  setUint16 buf offset v = Ok (pre ++ v / 256 :: v mod 256 :: post).
Proof. intros -> ->. apply setUint16_middle. Qed.

Lemma Bun_encode_frame (host : jsstring) (port : Z) (payload : list Z) :
  byteLength (TextEncoder_encode host) <= 255 -> 1 <= port <= 65535 ->
  Bun.encodeProxyMessage host port payload
  = Ok (frame (TextEncoder_encode host) port payload).
Proof.
  intros Hh Hp. unfold Bun.encodeProxyMessage, frame.
  destruct (encode_guards _ _ Hh Hp) as [-> ->].
  set (hostname := TextEncoder_encode host) in *.
  pose proof (byteLength_nonneg hostname) as Hn.
  rewrite ArrayBuffer_frame. cbn [app].
  rewrite setUint8_head by lia. cbn [mbind result_bind].
  rewrite (Uint8Array_set_at _ [byteLength hostname]
             (replicate (length hostname) 0)
             (0 :: 0 :: replicate (length payload) 0) hostname);
    [| reflexivity | reflexivity | apply length_replicate ].
  cbn [mbind result_bind].
  rewrite (setUint16_at _ ([byteLength hostname] ++ hostname)
             (replicate (length payload) 0) 0 0 port);
    [| rewrite <- app_assoc; reflexivity
     | rewrite byteLength_app; reflexivity | lia ].
  cbn [mbind result_bind].
  rewrite (Uint8Array_set_at _
             (([byteLength hostname] ++ hostname)
                ++ [port / 256; port mod 256])
             (replicate (length payload) 0) [] payload);
    [| rewrite app_nil_r, <- !app_assoc; reflexivity
     | rewrite !byteLength_app; reflexivity | apply length_replicate ].
  cbn [mbind result_bind mret result_ret].
  rewrite app_nil_r, <- !app_assoc. reflexivity.
Qed.

Lemma shiftr_8 (v : Z) : Z.shiftr v 8 = v / 256.
Proof. rewrite Z.shiftr_div_pow2 by lia. reflexivity. Qed.

Lemma land_FF (v : Z) : Z.land v 0xFF = v mod 256.
Proof. change 0xFF with (2 ^ 8 - 1). rewrite land_low_bits by lia. reflexivity. Qed.

Lemma writeUInt8_head (x : Z) (l : list Z) (v : Z) :
  0 <= v <= 255 -> Buffer.writeUInt8 (x :: l) v 0 = Ok (v :: l).
Proof.
  intros Hv. unfold Buffer.writeUInt8.
  destruct (Z.ltb_spec v 0); [lia|]. destruct (Z.ltb_spec 255 v); [lia|].
  cbn [orb].
  rewrite in_bounds_true
    by (rewrite ?byteLength_cons; pose proof (byteLength_nonneg l); lia).
  reflexivity.
Qed.

Lemma copy_at (target pre old post source : list Z) (targetStart : Z) :
  target = pre ++ old ++ post -> targetStart = byteLength pre ->
  length old = length source ->
  Buffer.copy source target targetStart = Ok (pre ++ source ++ post).
Proof.
  intros -> -> Hlen. unfold Buffer.copy.
  pose proof (byteLength_nonneg pre).
  destruct (Z.ltb_spec (byteLength pre) 0); [lia|].
  rewrite byteLength_to_nat, inserts_middle by exact Hlen. reflexivity.
Qed.

Lemma writeUInt16BE_at (buf pre post : list Z) (a b v offset : Z) :
  buf = pre ++ a :: b :: post -> offset = byteLength pre ->
  0 <= v <= 65535 ->
  Buffer.writeUInt16BE buf v offset = Ok (pre ++ v / 256 :: v mod 256 :: post).
Proof.
  intros -> -> Hv. unfold Buffer.writeUInt16BE.
  destruct (Z.ltb_spec v 0); [lia|]. destruct (Z.ltb_spec 65535 v); [lia|].
  cbn [orb].
  rewrite in_bounds_true.
  - rewrite byteLength_to_nat, insert_two_middle, shiftr_8, land_FF.
    reflexivity.
  - apply byteLength_nonneg.
  - rewrite byteLength_app, !byteLength_cons.
    pose proof (byteLength_nonneg post). lia.
Qed.

Lemma Node_encode_frame (host : jsstring) (port : Z) (payload : list Z) :
  byteLength (TextEncoder_encode host) <= 255 -> 1 <= port <= 65535 ->
  Node.encodeProxyMessage host port payload
  = Ok (frame (TextEncoder_encode host) port payload).
Proof.
  intros Hh Hp. unfold Node.encodeProxyMessage, frame.
  change (Buffer.from_utf8 host) with (TextEncoder_encode host).
  destruct (encode_guards _ _ Hh Hp) as [-> ->].
  set (hostname := TextEncoder_encode host) in *.
  pose proof (byteLength_nonneg hostname) as Hn.
  change Buffer.alloc with ArrayBuffer.
  rewrite ArrayBuffer_frame. cbn [app].
  rewrite writeUInt8_head by lia. cbn [mbind result_bind].
  rewrite (copy_at _ [byteLength hostname]
             (replicate (length hostname) 0)
             (0 :: 0 :: replicate (length payload) 0) hostname);
    [| reflexivity | reflexivity | apply length_replicate ].
  cbn [mbind result_bind].
  rewrite (writeUInt16BE_at _ ([byteLength hostname] ++ hostname)
             (replicate (length payload) 0) 0 0 port);
    [| rewrite <- app_assoc; reflexivity
     | rewrite byteLength_app; reflexivity | lia ].
  cbn [mbind result_bind].
  rewrite (copy_at _
             (([byteLength hostname] ++ hostname)
                ++ [port / 256; port mod 256])
             (replicate (length payload) 0) [] payload);
    [| rewrite app_nil_r, <- !app_assoc; reflexivity
     | rewrite !byteLength_app; reflexivity | apply length_replicate ].
  cbn [mbind result_bind mret result_ret].
  rewrite app_nil_r, <- !app_assoc. reflexivity.
Qed.

(** ** What [decodeProxyMessage] reads *)

Lemma lookup_in_range (buf : list Z) (n : nat) :
  (n < length buf)%nat -> buf !! n = Some (nth n buf 0).
Proof.
  intros H. destruct (lookup_lt_is_Some_2 buf n H) as [x Hx].
  rewrite Hx. f_equal. symmetry. apply nth_lookup_Some with (d := 0) in Hx.
  exact Hx.
Qed.

Lemma nth_byte (buf : list Z) (n : nat) :
  bytes_ok buf -> 0 <= nth n buf 0 <= 255.
Proof.
  intros Hb. destruct (Nat.lt_ge_cases n (length buf)) as [Hn | Hn].
  - pose proof (lookup_in_range buf n Hn) as Hl.
    unfold bytes_ok in Hb. rewrite Forall_lookup in Hb.
    specialize (Hb _ _ Hl). unfold is_byte in Hb.
    apply andb_true_iff in Hb. rewrite !Z.leb_le in Hb. exact Hb.
  - rewrite nth_overflow by exact Hn. lia.
Qed.

Lemma declared_length_byte (buf : list Z) :
  bytes_ok buf -> 0 <= declared_length buf <= 255.
Proof. apply nth_byte. Qed.

Lemma declared_port_range (buf : list Z) :
  bytes_ok buf -> 0 <= declared_port buf <= 65535.
Proof.
  intros Hb. unfold declared_port.
  pose proof (nth_byte buf (Z.to_nat (1 + declared_length buf)) Hb).
  pose proof (nth_byte buf (Z.to_nat (2 + declared_length buf)) Hb).
  lia.
Qed.

Lemma getUint8_nth (buf : list Z) (offset : Z) :
  0 <= offset -> offset + 1 <= byteLength buf ->
  getUint8 buf offset = Ok (nth (Z.to_nat offset) buf 0).
Proof.
  intros H0 H1. unfold getUint8. rewrite in_bounds_true by lia.
  rewrite lookup_in_range by (unfold byteLength in H1; lia). reflexivity.
Qed.

Lemma getUint16_nth (buf : list Z) (offset : Z) :
  0 <= offset -> offset + 2 <= byteLength buf ->
  getUint16 buf offset
  = Ok (nth (Z.to_nat offset) buf 0 * 256 + nth (Z.to_nat (1 + offset)) buf 0).
Proof.
  intros H0 H1. unfold getUint16. rewrite in_bounds_true by lia.
  rewrite !lookup_in_range by (unfold byteLength in H1; lia).
  replace (Z.to_nat (1 + offset)) with (S (Z.to_nat offset)) by lia.
  reflexivity.
Qed.

Lemma readUInt8_nth (buf : list Z) (offset : Z) :
  0 <= offset -> offset + 1 <= byteLength buf ->
  Buffer.readUInt8 buf offset = Ok (nth (Z.to_nat offset) buf 0).
Proof.
  intros H0 H1. unfold Buffer.readUInt8. rewrite in_bounds_true by lia.
  rewrite lookup_in_range by (unfold byteLength in H1; lia). reflexivity.
Qed.

Lemma readUInt16BE_nth (buf : list Z) (offset : Z) :
  0 <= offset -> offset + 2 <= byteLength buf ->
  Buffer.readUInt16BE buf offset
  = Ok (nth (Z.to_nat offset) buf 0 * 256 + nth (Z.to_nat (1 + offset)) buf 0).
Proof.
  intros H0 H1. unfold Buffer.readUInt16BE. rewrite in_bounds_true by lia.
  rewrite !lookup_in_range by (unfold byteLength in H1; lia).
  replace (Z.to_nat (1 + offset)) with (S (Z.to_nat offset)) by lia.
  reflexivity.
Qed.

Lemma slice_take_drop (buf : list Z) (start end_ : Z) :
  0 <= start <= end_ -> end_ <= byteLength buf ->
  slice buf start end_ = take (Z.to_nat (end_ - start)) (drop (Z.to_nat start) buf).
Proof.
  intros H0 H1. unfold slice, relative_index.
  destruct (Z.ltb_spec start 0); [lia|]. destruct (Z.ltb_spec end_ 0); [lia|].
  rewrite !Z.min_l by lia. reflexivity.
Qed.

Lemma slice_from_drop (buf : list Z) (start : Z) :
  0 <= start <= byteLength buf ->
  slice_from buf start = drop (Z.to_nat start) buf.
Proof.
  intros H. unfold slice_from. rewrite slice_take_drop by lia.
  apply take_ge. rewrite length_drop. unfold byteLength in *. lia.
Qed.

Lemma Bun_decode_fields (buf : list Z) :
  0 <= declared_length buf ->
  Bun.decodeProxyMessage buf = decode_fields TextDecoder_decode buf.
Proof.
  intros Hl. unfold Bun.decodeProxyMessage, decode_fields.
  destruct (Z.ltb_spec (byteLength buf) 4) as [|H4]; [reflexivity|].
  rewrite getUint8_nth by lia. cbn [mbind result_bind].
  change (nth (Z.to_nat 0) buf 0) with (declared_length buf).
  destruct (Z.ltb_spec (byteLength buf) (1 + declared_length buf + 2))
    as [|Hh]; [reflexivity|].
  rewrite getUint16_nth by lia. cbn [mbind result_bind].
  replace (1 + (1 + declared_length buf)) with (2 + declared_length buf) by lia.
  fold (declared_port buf).
  rewrite slice_take_drop by lia.
  replace (Z.to_nat (1 + declared_length buf - 1))
    with (Z.to_nat (declared_length buf)) by lia.
  change (Z.to_nat 1) with 1%nat. fold (declared_hostname buf).
  rewrite slice_from_drop by lia. fold (after_header buf).
  unfold isNaN. rewrite orb_false_r. reflexivity.
Qed.

Lemma Node_decode_fields (buf : list Z) :
  0 <= declared_length buf ->
  Node.decodeProxyMessage buf = decode_fields Utf8.decode buf.
Proof.
  intros Hl. unfold Node.decodeProxyMessage, decode_fields.
  destruct (Z.ltb_spec (byteLength buf) 4) as [|H4]; [reflexivity|].
  rewrite readUInt8_nth by lia. cbn [mbind result_bind].
  change (nth (Z.to_nat 0) buf 0) with (declared_length buf).
  destruct (Z.ltb_spec (byteLength buf) (1 + declared_length buf + 2))
    as [|Hh]; [reflexivity|].
  rewrite readUInt16BE_nth by lia. cbn [mbind result_bind].
  replace (1 + (1 + declared_length buf)) with (2 + declared_length buf) by lia.
  fold (declared_port buf).
  unfold Buffer.toString_utf8.
  rewrite Z.max_l, Z.min_l by lia.
  replace (Z.to_nat (1 + declared_length buf - 1))
    with (Z.to_nat (declared_length buf)) by lia.
  change (Z.to_nat 1) with 1%nat. fold (declared_hostname buf).
  rewrite slice_from_drop by lia. fold (after_header buf).
  unfold isNaN. rewrite orb_false_r. reflexivity.
Qed.

(** ** The fields of a frame *)

Lemma byteLength_frame (hostname : list Z) (port : Z) (payload : list Z) :
  byteLength (frame hostname port payload)
  = 1 + byteLength hostname + 2 + byteLength payload.
Proof.
  unfold frame. rewrite !byteLength_app.
  change (byteLength [byteLength hostname]) with 1.
  change (byteLength [port / 256; port mod 256]) with 2. lia.
Qed.

Lemma declared_length_frame (hostname : list Z) (port : Z) (payload : list Z) :
  declared_length (frame hostname port payload) = byteLength hostname.
Proof. reflexivity. Qed.

Lemma declared_hostname_frame (hostname : list Z) (port : Z) (payload : list Z) :
  declared_hostname (frame hostname port payload) = hostname.
Proof.
  unfold declared_hostname. rewrite declared_length_frame.
  unfold frame. cbn [app drop]. rewrite byteLength_to_nat.
  apply take_app_length.
Qed.

Lemma nth_after (pre post : list Z) (n : nat) (k : nat) :
  n = (length pre + k)%nat -> nth n (pre ++ post) 0 = nth k post 0.
Proof.
  intros ->. rewrite app_nth2 by lia. f_equal. lia.
Qed.

Lemma declared_port_frame (hostname : list Z) (port : Z) (payload : list Z) :
  0 <= port <= 65535 ->
  declared_port (frame hostname port payload) = port.
Proof.
  intros Hp. unfold declared_port. rewrite declared_length_frame.
  unfold frame. rewrite app_assoc.
  set (pre := [byteLength hostname] ++ hostname).
  assert (Hpre : length pre = S (length hostname)) by reflexivity.
  rewrite (nth_after pre _ (Z.to_nat (1 + byteLength hostname)) 0%nat)
    by (unfold byteLength; lia).
  rewrite (nth_after pre _ (Z.to_nat (2 + byteLength hostname)) 1%nat)
    by (unfold byteLength; lia).
  cbn [nth app]. div_mod_lia.
Qed.

Lemma after_header_frame (hostname : list Z) (port : Z) (payload : list Z) :
  after_header (frame hostname port payload) = payload.
Proof.
  unfold after_header. rewrite declared_length_frame.
  unfold frame. rewrite !app_assoc.
  apply drop_app_length'.
  rewrite !length_app. cbn [length]. unfold byteLength. lia.
Qed.

Lemma decode_fields_frame (text : list Z -> jsstring)
    (hostname : list Z) (port : Z) (payload : list Z) :
  1 <= byteLength hostname -> 1 <= port <= 65535 ->
  text hostname <> [] ->
  decode_fields text (frame hostname port payload)
  = Ok {| targetHost := text hostname; targetPort := port;
          payload := payload |}.
Proof.
  intros Hh Hp Ht. unfold decode_fields.
  rewrite byteLength_frame, declared_length_frame, declared_hostname_frame,
    declared_port_frame, after_header_frame by lia.
  pose proof (byteLength_nonneg payload).
  destruct (Z.ltb_spec (1 + byteLength hostname + 2 + byteLength payload) 4);
    [lia|].
  destruct (Z.ltb_spec (1 + byteLength hostname + 2 + byteLength payload)
              (1 + byteLength hostname + 2)); [lia|].
  destruct (Z.ltb_spec port 1); [lia|].
  destruct (Z.ltb_spec 65535 port); [lia|].
  destruct (text hostname) eqn:E; [contradiction|]. reflexivity.
Qed.

Lemma encode_nonempty (host : jsstring) :
  1 <= byteLength (TextEncoder_encode host) -> host <> [].
Proof.
  intros H ->. change (byteLength (TextEncoder_encode [])) with 0 in H. lia.
Qed.

(** ** The port allocator *)

Lemma seqZ_first (m n : Z) : 0 < n -> seqZ m n = m :: seqZ (m + 1) (n - 1).
Proof. intros H. rewrite seqZ_cons by lia. reflexivity. Qed.

Lemma bind_attempts_bind (port : Z) (effects : list effect) :
  bind_attempts (udp_bind port :: effects) = port :: bind_attempts effects.
Proof. reflexivity. Qed.

Lemma Bun_findAvailablePort_from_spec (bind : Z -> BindResult)
    (this : ProxBoardService) (n : nat) :
  forall port,
    match Bun.findAvailablePort_from bind this port n with
    | (Some p, effects) =>
        port <= p < port + Z.of_nat n
        /\ Map_has (activeProxies this) p = false /\ bind p = Bound
        /\ (forall q, port <= q < p ->
              Map_has (activeProxies this) q = true \/ bind q <> Bound)
        /\ bind_attempts effects
           = List.filter (unregistered this) (seqZ port (p - port + 1))
    | (None, effects) =>
        (forall q, port <= q < port + Z.of_nat n ->
           Map_has (activeProxies this) q = true \/ bind q <> Bound)
        /\ bind_attempts effects
           = List.filter (unregistered this) (seqZ port (Z.of_nat n))
    end.
Proof.
  induction n as [|n IH]; intros port; cbn [Bun.findAvailablePort_from].
  - split; [intros q Hq; lia | reflexivity].
  - destruct (Map_has (activeProxies this) port) eqn:Hhas.
    + specialize (IH (port + 1)).
      destruct (Bun.findAvailablePort_from bind this (port + 1) n)
        as [[p|] effects].
      * destruct IH as (Hr & Hp & Hb & Hq & Ha).
        repeat split; try assumption; try lia.
        -- intros q Hrange. destruct (Z.eq_dec q port) as [->|Hne];
             [left; exact Hhas | apply Hq; lia].
        -- rewrite (seqZ_first port) by lia. cbn [List.filter].
           unfold unregistered at 1. rewrite Hhas. cbn [negb].
           rewrite Ha. do 2 f_equal. lia.
      * destruct IH as (Hq & Ha). split.
        -- intros q Hrange. destruct (Z.eq_dec q port) as [->|Hne];
             [left; exact Hhas | apply Hq; lia].
        -- rewrite (seqZ_first port) by lia. cbn [List.filter].
           unfold unregistered at 1. rewrite Hhas. cbn [negb].
           rewrite Ha. do 2 f_equal. lia.
    + destruct (bind port) as [|code message] eqn:Hbind.
      * repeat split; try assumption; try lia.
        replace (port - port + 1) with 1 by lia.
        rewrite (seqZ_first port), seqZ_nil by lia. cbn [List.filter].
        unfold unregistered. rewrite Hhas. reflexivity.
      * specialize (IH (port + 1)).
        destruct (Bun.findAvailablePort_from bind this (port + 1) n)
          as [[p|] effects].
        -- destruct IH as (Hr & Hp & Hb & Hq & Ha).
           repeat split; try assumption; try lia.
           ++ intros q Hrange. destruct (Z.eq_dec q port) as [->|Hne];
                [right; rewrite Hbind; discriminate | apply Hq; lia].
           ++ rewrite (seqZ_first port) by lia. cbn [List.filter].
              unfold unregistered at 1. rewrite Hhas. cbn [negb].
              rewrite bind_attempts_bind, Ha. do 3 f_equal. lia.
        -- destruct IH as (Hq & Ha). split.
           ++ intros q Hrange. destruct (Z.eq_dec q port) as [->|Hne];
                [right; rewrite Hbind; discriminate | apply Hq; lia].
           ++ rewrite (seqZ_first port) by lia. cbn [List.filter].
              unfold unregistered at 1. rewrite Hhas. cbn [negb].
              rewrite bind_attempts_bind, Ha. do 3 f_equal. lia.
Qed.

(** The Bun allocator returns the first port of the range, in ascending
    order, that the registry does not hold and that binds; it attempts a
    bind on no port that the registry holds, and on no port after the one
    it returns; it returns none when no port of the range is free. *)
Lemma Bun_findAvailablePort_spec (bind : Z -> BindResult)
    (this : ProxBoardService) :
  match Bun.findAvailablePort bind this with
  | (Some p, effects) =>
      minProxyPort this <= p <= maxProxyPort this
      /\ Map_has (activeProxies this) p = false /\ bind p = Bound
      /\ (forall q, minProxyPort this <= q < p ->
            Map_has (activeProxies this) q = true \/ bind q <> Bound)
      /\ bind_attempts effects
         = List.filter (unregistered this)
             (seqZ (minProxyPort this) (p - minProxyPort this + 1))
  | (None, effects) =>
      (forall q, minProxyPort this <= q <= maxProxyPort this ->
         Map_has (activeProxies this) q = true \/ bind q <> Bound)
      /\ bind_attempts effects
         = List.filter (unregistered this)
             (seqZ (minProxyPort this)
                (maxProxyPort this - minProxyPort this + 1))
  end.
Proof.
  unfold Bun.findAvailablePort.
  pose proof (Bun_findAvailablePort_from_spec bind this
                (Z.to_nat (maxProxyPort this - minProxyPort this + 1))
                (minProxyPort this)) as H.
  destruct (Bun.findAvailablePort_from bind this (minProxyPort this) _)
    as [[p|] effects].
  - destruct H as (Hr & Hp & Hb & Hq & Ha).
    repeat split; try assumption; lia.
  - destruct H as (Hq & Ha). split.
    + intros q Hrange. apply Hq. lia.
    + rewrite Ha.
      destruct (Z.le_gt_cases 0 (maxProxyPort this - minProxyPort this + 1)).
      * rewrite Z2Nat.id by lia. reflexivity.
      * rewrite !seqZ_nil by lia. reflexivity.
Qed.

Lemma bind_attempts_close (socket : Socket) (effects : list effect) :
  bind_attempts (udp_close socket :: effects) = bind_attempts effects.
Proof. reflexivity. Qed.

Lemma Node_findAvailablePort_from_spec (bind : Z -> BindResult)
    (this : ProxBoardService) (n : nat) :
  forall port,
    match Node.findAvailablePort_from bind this port n with
    | (Some p, effects) =>
        port <= p < port + Z.of_nat n
        /\ Map_has (activeProxies this) p = false
        /\ Node_takes (bind p) = true
        /\ (forall q, port <= q < p ->
              Map_has (activeProxies this) q = true
              \/ Node_takes (bind q) = false)
        /\ bind_attempts effects
           = List.filter (unregistered this) (seqZ port (p - port + 1))
    | (None, effects) =>
        (forall q, port <= q < port + Z.of_nat n ->
           Map_has (activeProxies this) q = true
           \/ Node_takes (bind q) = false)
        /\ bind_attempts effects
           = List.filter (unregistered this) (seqZ port (Z.of_nat n))
    end.
Proof.
  induction n as [|n IH]; intros port; cbn [Node.findAvailablePort_from].
  - split; [intros q Hq; lia | reflexivity].
  - destruct (Map_has (activeProxies this) port) eqn:Hhas.
    + specialize (IH (port + 1)).
      destruct (Node.findAvailablePort_from bind this (port + 1) n)
        as [[p|] effects].
      * destruct IH as (Hr & Hp & Hb & Hq & Ha).
        repeat split; try assumption; try lia.
        -- intros q Hrange. destruct (Z.eq_dec q port) as [->|Hne];
             [left; exact Hhas | apply Hq; lia].
        -- rewrite (seqZ_first port) by lia. cbn [List.filter].
           unfold unregistered at 1. rewrite Hhas. cbn [negb].
           rewrite Ha. do 2 f_equal. lia.
      * destruct IH as (Hq & Ha). split.
        -- intros q Hrange. destruct (Z.eq_dec q port) as [->|Hne];
             [left; exact Hhas | apply Hq; lia].
        -- rewrite (seqZ_first port) by lia. cbn [List.filter].
           unfold unregistered at 1. rewrite Hhas. cbn [negb].
           rewrite Ha. do 2 f_equal. lia.
    + assert (Hone : bind_attempts
                       [udp_bind port; udp_close {| localPort := port |}]
                     = List.filter (unregistered this)
                         (seqZ port (port - port + 1))).
      { replace (port - port + 1) with 1 by lia.
        rewrite (seqZ_first port), seqZ_nil by lia. cbn [List.filter].
        unfold unregistered. rewrite Hhas. reflexivity. }
      destruct (bind port) as [|code message] eqn:Hbind.
      * repeat split; try assumption; try lia.
        rewrite Hbind. reflexivity.
      * destruct (String.eqb code "EADDRINUSE") eqn:Hcode.
        -- repeat split; try assumption; try lia.
           rewrite Hbind. exact Hcode.
        -- specialize (IH (port + 1)).
           destruct (Node.findAvailablePort_from bind this (port + 1) n)
             as [[p|] effects].
           ++ destruct IH as (Hr & Hp & Hb & Hq & Ha).
              repeat split; try assumption; try lia.
              ** intros q Hrange. destruct (Z.eq_dec q port) as [->|Hne];
                   [right; rewrite Hbind; exact Hcode | apply Hq; lia].
              ** rewrite (seqZ_first port) by lia. cbn [List.filter].
                 unfold unregistered at 1. rewrite Hhas. cbn [negb].
                 rewrite bind_attempts_bind, bind_attempts_close, Ha.
                 do 3 f_equal. lia.
           ++ destruct IH as (Hq & Ha). split.
              ** intros q Hrange. destruct (Z.eq_dec q port) as [->|Hne];
                   [right; rewrite Hbind; exact Hcode | apply Hq; lia].
              ** rewrite (seqZ_first port) by lia. cbn [List.filter].
                 unfold unregistered at 1. rewrite Hhas. cbn [negb].
                 rewrite bind_attempts_bind, bind_attempts_close, Ha.
                 do 3 f_equal. lia.
Qed.

(** The Node allocator does the same as the Bun allocator, but for the
    binds that it takes for free: it returns a port whose bind fails with
    [EADDRINUSE]. *)
Lemma Node_findAvailablePort_spec (bind : Z -> BindResult)
    (this : ProxBoardService) :
  match Node.findAvailablePort bind this with
  | (Some p, effects) =>
      minProxyPort this <= p <= maxProxyPort this
      /\ Map_has (activeProxies this) p = false
      /\ Node_takes (bind p) = true
      /\ (forall q, minProxyPort this <= q < p ->
            Map_has (activeProxies this) q = true
            \/ Node_takes (bind q) = false)
      /\ bind_attempts effects
         = List.filter (unregistered this)
             (seqZ (minProxyPort this) (p - minProxyPort this + 1))
  | (None, effects) =>
      (forall q, minProxyPort this <= q <= maxProxyPort this ->
         Map_has (activeProxies this) q = true
         \/ Node_takes (bind q) = false)
      /\ bind_attempts effects
         = List.filter (unregistered this)
             (seqZ (minProxyPort this)
                (maxProxyPort this - minProxyPort this + 1))
  end.
Proof.
  unfold Node.findAvailablePort.
  pose proof (Node_findAvailablePort_from_spec bind this
                (Z.to_nat (maxProxyPort this - minProxyPort this + 1))
                (minProxyPort this)) as H.
  destruct (Node.findAvailablePort_from bind this (minProxyPort this) _)
    as [[p|] effects].
  - destruct H as (Hr & Hp & Hb & Hq & Ha).
    repeat split; try assumption; lia.
  - destruct H as (Hq & Ha). split.
    + intros q Hrange. apply Hq. lia.
    + rewrite Ha.
      destruct (Z.le_gt_cases 0 (maxProxyPort this - minProxyPort this + 1)).
      * rewrite Z2Nat.id by lia. reflexivity.
      * rewrite !seqZ_nil by lia. reflexivity.
Qed.

Lemma Node_findAvailablePort_range (bind : Z -> BindResult)
    (this : ProxBoardService) (p : Z) (effects : list effect) :
  Node.findAvailablePort bind this = (Some p, effects) ->
  minProxyPort this <= p <= maxProxyPort this
  /\ Map_has (activeProxies this) p = false.
Proof.
  intros H. pose proof (Node_findAvailablePort_spec bind this) as Hspec.
  rewrite H in Hspec. destruct Hspec as (Hr & Hp & _). auto.
Qed.

(** ** The registry *)

Lemma strict_equals_string (s : jsstring) (v : js_value) :
  strict_equals (JString s) v = true <-> v = JString s.
Proof.
  destruct v; cbn [strict_equals]; try (split; [discriminate | discriminate]).
  rewrite bool_decide_eq_true. split; [intros ->; reflexivity | intros [= ->]; reflexivity].
Qed.



Lemma Map_get_Some_number (m : gmap Z ActiveProxy) (key : js_value)
    (proxy : ActiveProxy) :
  Map_get m key = Some proxy -> exists n, key = JNumber n /\ m !! n = Some proxy.
Proof. destruct key; try discriminate. cbn. eauto. Qed.

Lemma Map_has_false (m : gmap Z ActiveProxy) (port : Z) :
  Map_has m port = false <-> m !! port = None.
Proof. unfold Map_has. destruct (m !! port); split; congruence. Qed.

Lemma keys_in_range_with (this : ProxBoardService) (m : gmap Z ActiveProxy) :
  (forall port proxy, m !! port = Some proxy ->
     minProxyPort this <= port <= maxProxyPort this) ->
  keys_in_range (with_activeProxies this m).
Proof. intros H port proxy. cbn. apply H. Qed.

Lemma keys_in_range_delete (this : ProxBoardService) (port : Z) :
  keys_in_range this ->
  keys_in_range (with_activeProxies this (delete port (activeProxies this))).
Proof.
  intros H. apply keys_in_range_with. intros q proxy Hq.
  apply lookup_delete_Some in Hq as [_ Hq]. eapply H, Hq.
Qed.

Lemma keys_in_range_Map_delete (this : ProxBoardService) (key : js_value) :
  keys_in_range this ->
  keys_in_range (with_activeProxies this (Map_delete (activeProxies this) key)).
Proof.
  intros H. destruct key; try (apply keys_in_range_with; exact H).
  apply keys_in_range_delete, H.
Qed.

Lemma keys_in_range_insert (this : ProxBoardService) (port : Z)
    (proxy : ActiveProxy) :
  keys_in_range this -> minProxyPort this <= port <= maxProxyPort this ->
  keys_in_range
    (with_activeProxies this (<[port := proxy]> (activeProxies this))).
Proof.
  intros H Hport. apply keys_in_range_with. intros q proxy' Hq.
  apply lookup_insert_Some in Hq as [[<- _] | [_ Hq]]; [exact Hport|].
  eapply H, Hq.
Qed.

(** What [createProxy] returns and registers, case by case. *)
Lemma Bun_createProxy_cases (probe bind : Z -> BindResult)
    (proxyHostAddress proxyHostPort : js_value) (this : ProxBoardService) :
  let '(r, this', effects) :=
    Bun.createProxy probe bind proxyHostAddress proxyHostPort this in
  (r = InvalidInput /\ this' = this
   /\ (truthy proxyHostAddress = false \/ typeof proxyHostPort <> "number"%string))
  \/ (r = NoAvailablePort /\ this' = this
      /\ fst (Bun.findAvailablePort probe this) = None)
  \/ (exists p, fst (Bun.findAvailablePort probe this) = Some p
        /\ bind p <> Bound /\ this' = this
        /\ Response.status r = "error"%string /\ Response.proxyPort r = None)
  \/ (exists p, fst (Bun.findAvailablePort probe this) = Some p
        /\ bind p = Bound
        /\ Response.status r = "success"%string /\ Response.proxyPort r = Some p
        /\ this' = with_activeProxies this
                     (<[p := session p proxyHostAddress proxyHostPort]>
                        (activeProxies this))).
Proof.
  unfold Bun.createProxy.
  destruct (truthy proxyHostAddress) eqn:Ht; cbn [negb orb].
  2:{ left. auto. }
  destruct (String.eqb_spec (typeof proxyHostPort) "number") as [Hn|Hn];
    cbn [negb].
  2:{ left. auto. }
  destruct (Bun.findAvailablePort probe this) as [[p|] probes].
  2:{ right. left. auto. }
  destruct (bind p) as [|code message] eqn:Hb.
  - right. right. right. exists p. cbn. auto.
  - right. right. left. exists p. cbn. rewrite Hb. repeat split; congruence.
Qed.

Lemma Node_createProxy_cases (probe bind : Z -> BindResult)
    (proxyHostAddress proxyHostPort : js_value) (rt : Node.Runtime) :
  let '(r, rt', effects) :=
    Node.createProxy probe bind proxyHostAddress proxyHostPort rt in
  (r = Node.Fulfilled InvalidInput /\ rt' = rt
   /\ (truthy proxyHostAddress = false \/ typeof proxyHostPort <> "number"%string))
  \/ (r = Node.Fulfilled NoAvailablePort /\ rt' = rt
      /\ fst (Node.findAvailablePort probe (Node.this rt)) = None)
  \/ (exists p, fst (Node.findAvailablePort probe (Node.this rt)) = Some p
        /\ bind p <> Bound /\ r = Node.Pending
        /\ rt' = {| Node.this :=
                      with_activeProxies (Node.this rt)
                        (delete p (activeProxies (Node.this rt)));
                    Node.closing := Node.closing rt |})
  \/ (exists p r', fst (Node.findAvailablePort probe (Node.this rt)) = Some p
        /\ bind p = Bound /\ r = Node.Fulfilled r'
        /\ Response.status r' = "success"%string
        /\ Response.proxyPort r' = Some p
        /\ rt' = {| Node.this :=
                      with_activeProxies (Node.this rt)
                        (<[p := session p proxyHostAddress proxyHostPort]>
                           (activeProxies (Node.this rt)));
                    Node.closing := Node.closing rt |}).
Proof.
  unfold Node.createProxy.
  destruct (truthy proxyHostAddress) eqn:Ht; cbn [negb orb].
  2:{ left. auto. }
  destruct (String.eqb_spec (typeof proxyHostPort) "number") as [Hn|Hn];
    cbn [negb].
  2:{ left. auto. }
  destruct (Node.findAvailablePort probe (Node.this rt)) as [[p|] probes].
  2:{ right. left. auto. }
  destruct (bind p) as [|code message] eqn:Hb.
  - right. right. right. exists p. eexists. cbn.
    repeat split; reflexivity || assumption.
  - right. right. left. exists p. cbn. rewrite Hb. repeat split; congruence.
Qed.

Lemma close_callbacks_keys (this : ProxBoardService) (ports : list js_value) :
  forall m,
    (forall port proxy, m !! port = Some proxy ->
       minProxyPort this <= port <= maxProxyPort this) ->
    forall port proxy,
      fst (Node.close_callbacks ports m) !! port = Some proxy ->
      minProxyPort this <= port <= maxProxyPort this.
Proof.
  induction ports as [|key ports IH]; intros m Hm port proxy;
    cbn [Node.close_callbacks]; [apply Hm|].
  destruct (Node.close_callbacks ports (Map_delete m key)) as [m' effects] eqn:E.
  cbn [fst]. intros Hp.
  apply (IH (Map_delete m key)) with (proxy := proxy).
  - intros q proxy' Hq. destruct key; try (eapply Hm, Hq).
    cbn in Hq. apply lookup_delete_Some in Hq as [_ Hq]. eapply Hm, Hq.
  - rewrite E. exact Hp.
Qed.

Lemma Bun_shutdown_loop_keys (this : ProxBoardService)
    (entries : list (Z * ActiveProxy)) :
  forall m,
    (forall port proxy, m !! port = Some proxy ->
       minProxyPort this <= port <= maxProxyPort this) ->
    forall port proxy,
      fst (Bun.shutdown_loop entries m) !! port = Some proxy ->
      minProxyPort this <= port <= maxProxyPort this.
Proof.
  induction entries as [|[key entry] entries IH]; intros m Hm port proxy;
    cbn [Bun.shutdown_loop]; [apply Hm|].
  destruct (Bun.shutdown_loop entries (delete key m)) as [m' effects] eqn:E.
  cbn [fst]. intros Hp.
  apply (IH (delete key m)) with (proxy := proxy).
  - intros q proxy' Hq. apply lookup_delete_Some in Hq as [_ Hq].
    eapply Hm, Hq.
  - rewrite E. exact Hp.
Qed.

Lemma Node_shutdown_loop_keys (entries : list (Z * ActiveProxy)) :
  forall rt,
    keys_in_range (Node.this rt) ->
    keys_in_range (Node.this (fst (Node.shutdown_loop entries rt))).
Proof.
  induction entries as [|[key entry] entries IH]; intros rt Hrt;
    cbn [Node.shutdown_loop]; [exact Hrt|].
  destruct (Node.is_closing rt (localPort (proxySocket entry))); [exact Hrt|].
  match goal with
  | |- context [Node.shutdown_loop entries ?rt'] =>
      specialize (IH rt'); destruct (Node.shutdown_loop entries rt')
  end.
  cbn [fst] in *. apply IH. cbn [Node.this].
  apply keys_in_range_delete, Hrt.
Qed.

(** ** The keys of the registry *)

Lemma new_service_keys_in_range (wsApiPort lo hi : Z) (token : jsstring) :
  keys_in_range (new_ProxBoardService wsApiPort lo hi token).
Proof.
  intros port proxy. cbn [new_ProxBoardService activeProxies].
  rewrite lookup_empty. discriminate.
Qed.

Lemma Bun_operations_keep_keys (this : ProxBoardService) :
  keys_in_range this ->
  (forall probe bind address port,
     keys_in_range (snd (fst (Bun.createProxy probe bind address port this))))
  /\ (forall proxyPort,
        keys_in_range (snd (fst (Bun.stopProxy proxyPort this))))
  /\ (forall availablePort socket error,
        keys_in_range (fst (Bun.onError availablePort socket error this)))
  /\ keys_in_range (fst (Bun.shutdown this)).
Proof.
  intros Hin. split; [| split; [| split]].
  - intros probe bind address port.
    pose proof (Bun_createProxy_cases probe bind address port this) as Hc.
    pose proof (Bun_findAvailablePort_spec probe this) as Hf.
    destruct (Bun.createProxy probe bind address port this)
      as [[r this'] effects].
    cbn [fst snd].
    destruct Hc as [(_ & -> & _) | [(_ & -> & _)
                   | [(q & _ & _ & -> & _) | (q & Hq & _ & _ & _ & ->)]]];
      try exact Hin.
    destruct (Bun.findAvailablePort probe this) as [found probes].
    cbn [fst] in Hq. subst found.
    apply keys_in_range_insert; [exact Hin | apply Hf].
  - intros proxyPort. unfold Bun.stopProxy.
    destruct (Map_get (activeProxies this) proxyPort); cbn [fst snd];
      [apply keys_in_range_Map_delete, Hin | exact Hin].
  - intros availablePort socket error. cbn [Bun.onError fst].
    apply keys_in_range_delete, Hin.
  - unfold Bun.shutdown.
    pose proof (Bun_shutdown_loop_keys this
                  (map_to_list (activeProxies this)) (activeProxies this) Hin)
      as Hloop.
    destruct (Bun.shutdown_loop _ _) as [m effects]. cbn [fst] in *.
    apply keys_in_range_with, Hloop.
Qed.

Lemma Node_operations_keep_keys (rt : Node.Runtime) :
  keys_in_range (Node.this rt) ->
  (forall probe bind address port,
     keys_in_range
       (Node.this (snd (fst (Node.createProxy probe bind address port rt)))))
  /\ (forall proxyPort r rt' effects,
        Node.stopProxy proxyPort rt = Ok (r, rt', effects) ->
        keys_in_range (Node.this rt'))
  /\ (forall availablePort socket error rt' effects,
        Node.onError availablePort socket error rt = Ok (rt', effects) ->
        keys_in_range (Node.this rt'))
  /\ keys_in_range (Node.this (fst (Node.tick rt)))
  /\ keys_in_range (Node.this (fst (Node.shutdown rt))).
Proof.
  intros Hin. split; [| split; [| split; [| split]]].
  - intros probe bind address port.
    pose proof (Node_createProxy_cases probe bind address port rt) as Hc.
    destruct (Node.createProxy probe bind address port rt)
      as [[r rt'] effects] eqn:E.
    cbn [fst snd].
    destruct Hc as [(_ & -> & _) | [(_ & -> & _)
                   | [(q & _ & _ & _ & ->) | (q & r' & Hq & _ & _ & _ & _ & ->)]]];
      try exact Hin; cbn [Node.this].
    + apply keys_in_range_delete, Hin.
    + destruct (Node.findAvailablePort probe (Node.this rt))
        as [found probes] eqn:Ef.
      cbn [fst] in Hq. subst found.
      apply keys_in_range_insert; [exact Hin|].
      eapply Node_findAvailablePort_range, Ef.
  - intros proxyPort r rt' effects. unfold Node.stopProxy.
    destruct (Map_get (activeProxies (Node.this rt)) proxyPort);
      [| intros [= _ <- _]; exact Hin].
    destruct (Node.is_closing rt _); [discriminate|].
    intros [= _ <- _]. exact Hin.
  - intros availablePort socket error rt' effects. unfold Node.onError.
    destruct (Node.is_closing rt _); [discriminate|].
    intros [= <- _]. cbn [Node.this]. apply keys_in_range_delete, Hin.
  - unfold Node.tick.
    pose proof (close_callbacks_keys (Node.this rt) (Node.closing rt)
                  (activeProxies (Node.this rt)) Hin) as Hcb.
    destruct (Node.close_callbacks _ _) as [m effects].
    cbn [fst Node.this] in *. apply keys_in_range_with, Hcb.
  - unfold Node.shutdown.
    pose proof (Node_shutdown_loop_keys
                  (map_to_list (activeProxies (Node.this rt))) rt Hin)
      as Hloop.
    destruct (Node.shutdown_loop _ rt) as [rt' effects]. exact Hloop.
Qed.

(** The registry of every state that the operations reach from a new
    service has its keys in the range. *)
Lemma Bun_reachable_keys_in_range (wsApiPort lo hi : Z) (token : jsstring)
    (ops : list operation) :
  keys_in_range
    (fold_left Bun_apply ops (new_ProxBoardService wsApiPort lo hi token)).
Proof.
  generalize (new_service_keys_in_range wsApiPort lo hi token).
  generalize (new_ProxBoardService wsApiPort lo hi token).
  induction ops as [|op ops IH]; intros this Hin; [exact Hin|].
  cbn [fold_left]. apply IH.
  destruct (Bun_operations_keep_keys this Hin)
    as (Hcreate & Hstop & Herror & Hshutdown).
  destruct op; cbn [Bun_apply]; auto.
Qed.

Lemma Node_reachable_keys_in_range (wsApiPort lo hi : Z) (token : jsstring)
    (ops : list operation) :
  keys_in_range
    (Node.this
       (fold_left Node_apply ops
          (Node.started (new_ProxBoardService wsApiPort lo hi token)))).
Proof.
  assert (Hstart : keys_in_range
                     (Node.this
                        (Node.started
                           (new_ProxBoardService wsApiPort lo hi token))))
    by apply new_service_keys_in_range.
  revert Hstart.
  generalize (Node.started (new_ProxBoardService wsApiPort lo hi token)).
  induction ops as [|op ops IH]; intros rt Hin; [exact Hin|].
  cbn [fold_left]. apply IH.
  destruct (Node_operations_keep_keys rt Hin)
    as (Hcreate & Hstop & Herror & _ & Hshutdown).
  unfold Node_apply. apply Node_operations_keep_keys.
  destruct op.
  - apply Hcreate.
  - destruct (Node.stopProxy proxyPort rt) as [[[r rt'] effects]|] eqn:E;
      [eapply Hstop, E | exact Hin].
  - destruct (Node.onError availablePort socket error rt)
      as [[rt' effects]|] eqn:E; [eapply Herror, E | exact Hin].
  - exact Hshutdown.
Qed.

(** * The frame codec *)

(** C1 (as amended). A host that is a well-formed string (no unpaired
    surrogate), whose UTF-8 encoding has 1 to 255 bytes, with a port in
    [1, 65535] and any payload, comes back from [decodeProxyMessage] as it
    went into [encodeProxyMessage]: in the Bun service when the host does
    not begin with U+FEFF, in the Node service always. *)
Theorem roundtrip_well_formed (host : jsstring) (port : Z) (payload : list Z) :
  Utf8.well_formed host = true ->
  1 <= byteLength (TextEncoder_encode host) <= 255 ->
  1 <= port <= 65535 ->
  (head host <> Some 0xFEFF ->
   Bun.encodeProxyMessage host port payload ≫= Bun.decodeProxyMessage
   = Ok {| targetHost := host; targetPort := port; payload := payload |})
  /\ Node.encodeProxyMessage host port payload ≫= Node.decodeProxyMessage
     = Ok {| targetHost := host; targetPort := port; payload := payload |}.
Proof.
  intros Hwf Hlen Hport.
  pose proof (encode_nonempty host ltac:(lia)) as Hne.
  split.
  - intros Hbom.
    rewrite Bun_encode_frame by lia. cbn [mbind result_bind].
    rewrite Bun_decode_fields
      by (rewrite declared_length_frame; apply byteLength_nonneg).
    rewrite decode_fields_frame;
      rewrite ?TextDecoder_TextEncoder by assumption;
      try reflexivity; try lia; assumption.
  - rewrite Node_encode_frame by lia. cbn [mbind result_bind].
    rewrite Node_decode_fields
      by (rewrite declared_length_frame; apply byteLength_nonneg).
    unfold TextEncoder_encode in *.
    rewrite decode_fields_frame;
      rewrite ?decode_encode_code_points by assumption;
      try reflexivity; try lia; assumption.
Qed.

Lemma roundtrip_well_formed_witness :
  (Bun.encodeProxyMessage (js "8.8.8.8") 53 [1; 2; 3] ≫= Bun.decodeProxyMessage
   = Ok {| targetHost := js "8.8.8.8"; targetPort := 53; payload := [1; 2; 3] |})
  /\ Node.encodeProxyMessage (js "8.8.8.8") 53 [1; 2; 3]
       ≫= Node.decodeProxyMessage
     = Ok {| targetHost := js "8.8.8.8"; targetPort := 53; payload := [1; 2; 3] |}.
Proof.
  destruct (roundtrip_well_formed (js "8.8.8.8") 53 [1; 2; 3]) as [HB HN].
  - reflexivity.
  - vm_compute. split; discriminate.
  - lia.
  - split; [apply HB; discriminate | exact HN].
Defined.

(** C1, as stated, fails. The host U+D800, an unpaired surrogate, has a
    UTF-8 encoding of 3 bytes and comes back as U+FFFD in both services;
    the host U+FEFF has a UTF-8 encoding of 3 bytes and the Bun service
    does not decode its frame at all. *)
Lemma roundtrip_counterexample :
  (1 <= byteLength (TextEncoder_encode [0xD800]) <= 255
   /\ Bun.encodeProxyMessage [0xD800] 53 [1; 2; 3] ≫= Bun.decodeProxyMessage
      = Ok {| targetHost := [0xFFFD]; targetPort := 53; payload := [1; 2; 3] |}
   /\ Node.encodeProxyMessage [0xD800] 53 [1; 2; 3] ≫= Node.decodeProxyMessage
      = Ok {| targetHost := [0xFFFD]; targetPort := 53; payload := [1; 2; 3] |}
   /\ Ok {| targetHost := [0xFFFD]; targetPort := 53; payload := [1; 2; 3] |}
      <> Ok {| targetHost := [0xD800]; targetPort := 53; payload := [1; 2; 3] |})
  /\ (1 <= byteLength (TextEncoder_encode [0xFEFF]) <= 255
      /\ Bun.encodeProxyMessage [0xFEFF] 53 [1; 2; 3] ≫= Bun.decodeProxyMessage
         = Throw "Malformed message: Invalid host or port.").
Proof.
  repeat split; try (vm_compute; (reflexivity || discriminate)).
Qed.

(** C6. [decodeProxyMessage] fails exactly on a malformed buffer: fewer
    than 4 bytes, or a declared hostname length whose header exceeds the
    buffer, or a hostname that decodes to the empty string, or a port
    outside [1, 65535], which for the two bytes of the port means 0. When
    it succeeds, the payload is every byte after the header. *)
Theorem decode_fails_exactly_when_malformed (buf : list Z) :
  bytes_ok buf ->
  (is_ok (Bun.decodeProxyMessage buf) = false
   <-> malformed TextDecoder_decode buf)
  /\ (is_ok (Node.decodeProxyMessage buf) = false
      <-> malformed Utf8.decode buf)
  /\ (~ (1 <= declared_port buf <= 65535) <-> declared_port buf = 0)
  /\ (forall m,
        Bun.decodeProxyMessage buf = Ok m \/ Node.decodeProxyMessage buf = Ok m ->
        payload m = after_header buf).
Proof.
  intros Hb.
  pose proof (declared_length_byte buf Hb) as Hl.
  pose proof (declared_port_range buf Hb) as Hp.
  rewrite Bun_decode_fields, Node_decode_fields by lia.
  assert (Hspec : forall text,
             (is_ok (decode_fields text buf) = false <-> malformed text buf)
             /\ (forall m, decode_fields text buf = Ok m ->
                           payload m = after_header buf)).
  { intros text. unfold decode_fields, malformed.
    destruct (Z.ltb_spec (byteLength buf) 4);
      [split; [cbn; tauto | discriminate]|].
    destruct (Z.ltb_spec (byteLength buf) (1 + declared_length buf + 2));
      [split; [cbn; tauto | discriminate]|].
    destruct (text (declared_hostname buf)) as [|u s] eqn:Et;
      [split; [cbn; tauto | discriminate]|].
    cbn [truthy negb orb].
    destruct (Z.ltb_spec (declared_port buf) 1);
      [split; [cbn; split; [intros _; right; right; right; lia | reflexivity]
              | discriminate]|].
    destruct (Z.ltb_spec 65535 (declared_port buf)); [lia|].
    cbn [orb is_ok]. split.
    - split; [discriminate|].
      intros [?|[?|[?|?]]]; try lia; discriminate.
    - intros m [= <-]. reflexivity. }
  split; [apply Hspec|]. split; [apply Hspec|]. split; [lia|].
  intros m [H|H]; eapply Hspec; exact H.
Qed.

Lemma decode_fails_exactly_when_malformed_witness :
  (is_ok (Bun.decodeProxyMessage [3; 0xEF; 0xBB; 0xBF; 0; 53; 9]) = false
   <-> malformed TextDecoder_decode [3; 0xEF; 0xBB; 0xBF; 0; 53; 9])
  /\ (is_ok (Node.decodeProxyMessage [3; 0xEF; 0xBB; 0xBF; 0; 53; 9]) = false
      <-> malformed Utf8.decode [3; 0xEF; 0xBB; 0xBF; 0; 53; 9])
  /\ (~ (1 <= declared_port [3; 0xEF; 0xBB; 0xBF; 0; 53; 9] <= 65535)
      <-> declared_port [3; 0xEF; 0xBB; 0xBF; 0; 53; 9] = 0)
  /\ (forall m,
        Bun.decodeProxyMessage [3; 0xEF; 0xBB; 0xBF; 0; 53; 9] = Ok m
        \/ Node.decodeProxyMessage [3; 0xEF; 0xBB; 0xBF; 0; 53; 9] = Ok m ->
        payload m = after_header [3; 0xEF; 0xBB; 0xBF; 0; 53; 9]).
Proof.
  apply (decode_fails_exactly_when_malformed [3; 0xEF; 0xBB; 0xBF; 0; 53; 9]).
  unfold bytes_ok. repeat constructor.
Defined.

(** C7. [encodeProxyMessage] fails when the UTF-8 encoding of the host has
    more than 255 bytes, and fails when the port is outside [1, 65535];
    otherwise it returns the frame: 1 byte hostname length, the hostname,
    the port in 2 bytes, big-endian, and the payload, which is
    1 + hostnameLength + 2 + payload length bytes. It is a function of its
    arguments only. *)
Theorem encode_bounds_and_layout (host : jsstring) (port : Z) (payload : list Z) :
  (255 < byteLength (TextEncoder_encode host) ->
   Bun.encodeProxyMessage host port payload
   = Throw "Hostname is too long (max 255 bytes)."
   /\ Node.encodeProxyMessage host port payload
      = Throw "Hostname is too long (max 255 bytes).")
  /\ (port < 1 \/ 65535 < port ->
      is_ok (Bun.encodeProxyMessage host port payload) = false
      /\ is_ok (Node.encodeProxyMessage host port payload) = false)
  /\ (byteLength (TextEncoder_encode host) <= 255 -> 1 <= port <= 65535 ->
      Bun.encodeProxyMessage host port payload
      = Ok (frame (TextEncoder_encode host) port payload)
      /\ Node.encodeProxyMessage host port payload
         = Ok (frame (TextEncoder_encode host) port payload)
      /\ byteLength (frame (TextEncoder_encode host) port payload)
         = 1 + byteLength (TextEncoder_encode host) + 2 + byteLength payload).
Proof.
  split; [| split].
  - intros Hlong. unfold Bun.encodeProxyMessage, Node.encodeProxyMessage.
    change (Buffer.from_utf8 host) with (TextEncoder_encode host).
    destruct (Z.ltb_spec 255 (byteLength (TextEncoder_encode host))); [|lia].
    split; reflexivity.
  - intros Hport. unfold Bun.encodeProxyMessage, Node.encodeProxyMessage.
    change (Buffer.from_utf8 host) with (TextEncoder_encode host).
    destruct (Z.ltb_spec 255 (byteLength (TextEncoder_encode host)));
      [split; reflexivity|].
    destruct (Z.ltb_spec port 1); [split; reflexivity|].
    destruct (Z.ltb_spec 65535 port); [split; reflexivity | lia].
  - intros Hlen Hport.
    rewrite Bun_encode_frame, Node_encode_frame by assumption.
    rewrite byteLength_frame. auto.
Qed.

Lemma encode_bounds_and_layout_witness :
  (Bun.encodeProxyMessage (replicate 256 97) 53 [1; 2]
   = Throw "Hostname is too long (max 255 bytes)."
   /\ Node.encodeProxyMessage (replicate 256 97) 53 [1; 2]
      = Throw "Hostname is too long (max 255 bytes).")
  /\ (is_ok (Bun.encodeProxyMessage (js "8.8.8.8") 0 [1; 2]) = false
      /\ is_ok (Node.encodeProxyMessage (js "8.8.8.8") 0 [1; 2]) = false)
  /\ (Bun.encodeProxyMessage (js "8.8.8.8") 53 [1; 2]
      = Ok (frame (TextEncoder_encode (js "8.8.8.8")) 53 [1; 2])
      /\ Node.encodeProxyMessage (js "8.8.8.8") 53 [1; 2]
         = Ok (frame (TextEncoder_encode (js "8.8.8.8")) 53 [1; 2])
      /\ byteLength (frame (TextEncoder_encode (js "8.8.8.8")) 53 [1; 2])
         = 1 + byteLength (TextEncoder_encode (js "8.8.8.8")) + 2
           + byteLength [1; 2]).
Proof.
  split; [| split].
  - apply (encode_bounds_and_layout (replicate 256 97) 53 [1; 2]).
    vm_compute. reflexivity.
  - apply (encode_bounds_and_layout (js "8.8.8.8") 0 [1; 2]). left. lia.
  - apply (encode_bounds_and_layout (js "8.8.8.8") 53 [1; 2]).
    + vm_compute. discriminate.
    + lia.
Defined.

(** C10. [encodeProxyMessage] accepts the empty host: for a port in
    [1, 65535] and any payload it returns a frame whose first byte, the
    hostname length, is 0, and [decodeProxyMessage] rejects that frame. *)
Theorem empty_host_encodes_and_is_rejected (port : Z) (payload : list Z) :
  1 <= port <= 65535 ->
  Bun.encodeProxyMessage [] port payload
  = Ok (0 :: port / 256 :: port mod 256 :: payload)
  /\ Node.encodeProxyMessage [] port payload
     = Ok (0 :: port / 256 :: port mod 256 :: payload)
  /\ is_ok (Bun.decodeProxyMessage (0 :: port / 256 :: port mod 256 :: payload))
     = false
  /\ is_ok (Node.decodeProxyMessage (0 :: port / 256 :: port mod 256 :: payload))
     = false.
Proof.
  intros Hport.
  assert (Hempty : byteLength (TextEncoder_encode []) = 0) by reflexivity.
  rewrite Bun_encode_frame, Node_encode_frame by lia.
  change (frame (TextEncoder_encode []) port payload)
    with (0 :: port / 256 :: port mod 256 :: payload).
  rewrite Bun_decode_fields, Node_decode_fields
    by (change (declared_length (0 :: port / 256 :: port mod 256 :: payload))
          with 0; lia).
  unfold decode_fields.
  change (declared_length (0 :: port / 256 :: port mod 256 :: payload)) with 0.
  change (declared_hostname (0 :: port / 256 :: port mod 256 :: payload))
    with (@nil Z).
  change (TextDecoder_decode []) with (@nil Z).
  change (Utf8.decode []) with (@nil Z).
  cbn [truthy negb orb].
  repeat split;
    destruct (_ <? 4); try reflexivity; destruct (_ <? 1 + 0 + 2); reflexivity.
Qed.

Lemma empty_host_encodes_and_is_rejected_witness :
  Bun.encodeProxyMessage [] 53 [7] = Ok [0; 0; 53; 7]
  /\ Node.encodeProxyMessage [] 53 [7] = Ok [0; 0; 53; 7]
  /\ is_ok (Bun.decodeProxyMessage [0; 0; 53; 7]) = false
  /\ is_ok (Node.decodeProxyMessage [0; 0; 53; 7]) = false.
Proof.
  apply (empty_host_encodes_and_is_rejected 53 [7]). lia.
Defined.

(** * The relay session *)





(** * The port allocator and the registry *)

(** C3. In the Node service a bind that fails with [EADDRINUSE] resolves
    the promise of the probe, and [findAvailablePort] returns the port that
    is in use; the Bun service moves to the next candidate. Here the range
    is [10000, 10002], the registry is empty and port 10000 is held by
    another process. *)
Theorem Node_findAvailablePort_returns_port_in_use :
  let this := new_ProxBoardService 3000 10000 10002 (js "secret") in
  let bind := fun port =>
    if port =? 10000
    then BindError "EADDRINUSE" "bind EADDRINUSE 0.0.0.0:10000"
    else Bound in
  fst (Node.findAvailablePort bind this) = Some 10000
  /\ fst (Bun.findAvailablePort bind this) = Some 10001.
Proof. split; vm_compute; reflexivity. Qed.

(** The examples of the specification for the allocator, in both services:
    with 10000 and 10001 registered and the range [10000, 10002] the
    allocator returns 10002, and with the whole range registered it
    returns none. *)
Lemma findAvailablePort_examples :
  let this := new_ProxBoardService 3000 10000 10002 (js "secret") in
  let s := session 0 (JString (js "127.0.0.1")) (JNumber 9999) in
  let two := with_activeProxies this (<[10000 := s]> (<[10001 := s]> ∅)) in
  let full := with_activeProxies this
                (<[10000 := s]> (<[10001 := s]> (<[10002 := s]> ∅))) in
  fst (Bun.findAvailablePort (fun _ => Bound) two) = Some 10002
  /\ fst (Node.findAvailablePort (fun _ => Bound) two) = Some 10002
  /\ fst (Bun.findAvailablePort (fun _ => Bound) full) = None
  /\ fst (Node.findAvailablePort (fun _ => Bound) full) = None.
Proof. repeat split; vm_compute; reflexivity. Qed.




(** C5 (as amended). [createProxy] answers InvalidInput when
    [proxyHostAddress] is falsy (the empty string, or missing) or
    [proxyHostPort] is not of type number; it answers NoAvailablePort when
    the allocator returns none; otherwise, when the socket of the session
    binds on the allocated port, it registers the session on that port and
    returns the port in a success response. *)
Theorem create_validates_allocates_registers (probe bind : Z -> BindResult)
    (proxyHostAddress proxyHostPort : js_value)
    (this : ProxBoardService) (rt : Node.Runtime) :
  (truthy proxyHostAddress = false \/ typeof proxyHostPort <> "number"%string ->
   Bun.createProxy probe bind proxyHostAddress proxyHostPort this
   = (InvalidInput, this, [])
   /\ Node.createProxy probe bind proxyHostAddress proxyHostPort rt
      = (Node.Fulfilled InvalidInput, rt, []))
  /\ (truthy proxyHostAddress = true ->
      typeof proxyHostPort = "number"%string ->
      (fst (Bun.findAvailablePort probe this) = None ->
       fst (Bun.createProxy probe bind proxyHostAddress proxyHostPort this)
       = (NoAvailablePort, this))
      /\ (fst (Node.findAvailablePort probe (Node.this rt)) = None ->
          fst (Node.createProxy probe bind proxyHostAddress proxyHostPort rt)
          = (Node.Fulfilled NoAvailablePort, rt))
      /\ (forall p,
            fst (Bun.findAvailablePort probe this) = Some p ->
            bind p = Bound ->
            let '(r, this', _) :=
              Bun.createProxy probe bind proxyHostAddress proxyHostPort this in
            Response.status r = "success"%string
            /\ Response.proxyPort r = Some p
            /\ this' = with_activeProxies this
                         (<[p := session p proxyHostAddress proxyHostPort]>
                            (activeProxies this)))
      /\ (forall p,
            fst (Node.findAvailablePort probe (Node.this rt)) = Some p ->
            bind p = Bound ->
            exists r effects,
              Node.createProxy probe bind proxyHostAddress proxyHostPort rt
              = (Node.Fulfilled r,
                 {| Node.this :=
                      with_activeProxies (Node.this rt)
                        (<[p := session p proxyHostAddress proxyHostPort]>
                           (activeProxies (Node.this rt)));
                    Node.closing := Node.closing rt |}, effects)
              /\ Response.status r = "success"%string
              /\ Response.proxyPort r = Some p)).
Proof.
  split.
  - intros Hinvalid. unfold Bun.createProxy, Node.createProxy.
    destruct Hinvalid as [-> | Hn]; [split; reflexivity|].
    destruct (String.eqb_spec (typeof proxyHostPort) "number");
      [contradiction|].
    rewrite orb_true_r. split; reflexivity.
  - intros Ht Hn. unfold Bun.createProxy, Node.createProxy.
    rewrite Ht, Hn. cbn [negb orb String.eqb].
    change ("number" =? "number")%string with true. cbn [negb].
    split; [| split; [| split]].
    + destruct (Bun.findAvailablePort probe this) as [[p|] probes];
        [discriminate | reflexivity].
    + destruct (Node.findAvailablePort probe (Node.this rt)) as [[p|] probes];
        [discriminate | reflexivity].
    + intros p Hp Hb.
      destruct (Bun.findAvailablePort probe this) as [found probes].
      cbn [fst] in Hp. subst found. rewrite Hb. repeat split.
    + intros p Hp Hb.
      destruct (Node.findAvailablePort probe (Node.this rt)) as [found probes].
      cbn [fst] in Hp. subst found. rewrite Hb.
      eexists _, _. repeat split.
Qed.

Lemma create_validates_allocates_registers_witness :
  let this := new_ProxBoardService 3000 10000 10002 (js "secret") in
  let bound : Z -> BindResult := fun _ => Bound in
  let failing : Z -> BindResult := fun _ => BindError "EACCES" "bind EACCES" in
  let host := JString (js "127.0.0.1") in
  (Bun.createProxy bound bound (JString []) (JNumber 9999) this
   = (InvalidInput, this, [])
   /\ Node.createProxy bound bound (JString []) (JNumber 9999)
        (Node.started this)
      = (Node.Fulfilled InvalidInput, Node.started this, []))
  /\ (Bun.createProxy bound bound host (JString (js "9999")) this
      = (InvalidInput, this, [])
      /\ Node.createProxy bound bound host (JString (js "9999"))
           (Node.started this)
         = (Node.Fulfilled InvalidInput, Node.started this, []))
  /\ fst (Bun.createProxy failing bound host (JNumber 9999) this)
     = (NoAvailablePort, this)
  /\ fst (Node.createProxy failing bound host (JNumber 9999) (Node.started this))
     = (Node.Fulfilled NoAvailablePort, Node.started this)
  /\ (let '(r, this', _) := Bun.createProxy bound bound host (JNumber 9999) this in
      Response.status r = "success"%string
      /\ Response.proxyPort r = Some 10000
      /\ this' = with_activeProxies this
                   (<[10000 := session 10000 host (JNumber 9999)]>
                      (activeProxies this)))
  /\ (exists r effects,
        Node.createProxy bound bound host (JNumber 9999) (Node.started this)
        = (Node.Fulfilled r,
           {| Node.this :=
                with_activeProxies this
                  (<[10000 := session 10000 host (JNumber 9999)]>
                     (activeProxies this));
              Node.closing := [] |}, effects)
        /\ Response.status r = "success"%string
        /\ Response.proxyPort r = Some 10000).
Proof.
  intros this bound failing host.
  split; [| split; [| split; [| split; [| split]]]].
  - apply (create_validates_allocates_registers bound bound (JString [])
             (JNumber 9999) this (Node.started this)).
    left. reflexivity.
  - apply (create_validates_allocates_registers bound bound host
             (JString (js "9999")) this (Node.started this)).
    right. discriminate.
  - apply (create_validates_allocates_registers failing bound host
             (JNumber 9999) this (Node.started this)); reflexivity.
  - apply (create_validates_allocates_registers failing bound host
             (JNumber 9999) this (Node.started this)); reflexivity.
  - apply (create_validates_allocates_registers bound bound host
             (JNumber 9999) this (Node.started this)); reflexivity.
  - apply (create_validates_allocates_registers bound bound host
             (JNumber 9999) this (Node.started this)); reflexivity.
Defined.

(** C5, as stated, fails: 70000 is a number and not a port number, and
    [createProxy] registers a session for it and answers success, in both
    services. *)
Lemma create_accepts_port_out_of_range :
  let this := new_ProxBoardService 3000 10000 10002 (js "secret") in
  let bound : Z -> BindResult := fun _ => Bound in
  let host := JString (js "127.0.0.1") in
  (let '(r, this', _) := Bun.createProxy bound bound host (JNumber 70000) this in
   Response.status r = "success"%string
   /\ Response.proxyPort r = Some 10000
   /\ activeProxies this' !! 10000 = Some (session 10000 host (JNumber 70000)))
  /\ (exists r rt' effects,
        Node.createProxy bound bound host (JNumber 70000) (Node.started this)
        = (Node.Fulfilled r, rt', effects)
        /\ Response.status r = "success"%string
        /\ Response.proxyPort r = Some 10000
        /\ activeProxies (Node.this rt') !! 10000
           = Some (session 10000 host (JNumber 70000))).
Proof.
  split.
  - vm_compute. repeat split.
  - eexists _, _, _. split; [vm_compute; reflexivity|]. vm_compute. repeat split.
Qed.

(** C9. Every key of the registry lies within
    [minProxyPort, maxProxyPort]: the registry of a new service is empty,
    and create, stop, the removal on a socket error and shutdown keep the
    keys in the range, in both services; in the Node service so do the
    callbacks of [close] that [tick] runs. *)
Theorem registry_keys_stay_in_range :
  (forall wsApiPort minProxyPort maxProxyPort token,
     keys_in_range
       (new_ProxBoardService wsApiPort minProxyPort maxProxyPort token))
  /\ (forall this,
        keys_in_range this ->
        (forall probe bind address port,
           keys_in_range
             (snd (fst (Bun.createProxy probe bind address port this))))
        /\ (forall proxyPort,
              keys_in_range (snd (fst (Bun.stopProxy proxyPort this))))
        /\ (forall availablePort socket error,
              keys_in_range (fst (Bun.onError availablePort socket error this)))
        /\ keys_in_range (fst (Bun.shutdown this)))
  /\ (forall rt,
        keys_in_range (Node.this rt) ->
        (forall probe bind address port,
           keys_in_range
             (Node.this
                (snd (fst (Node.createProxy probe bind address port rt)))))
        /\ (forall proxyPort r rt' effects,
              Node.stopProxy proxyPort rt = Ok (r, rt', effects) ->
              keys_in_range (Node.this rt'))
        /\ (forall availablePort socket error rt' effects,
              Node.onError availablePort socket error rt = Ok (rt', effects) ->
              keys_in_range (Node.this rt'))
        /\ keys_in_range (Node.this (fst (Node.tick rt)))
        /\ keys_in_range (Node.this (fst (Node.shutdown rt)))).
Proof.
  split; [| split].
  - apply new_service_keys_in_range.
  - apply Bun_operations_keep_keys.
  - apply Node_operations_keep_keys.
Qed.

Lemma registry_keys_stay_in_range_witness :
  let this := new_ProxBoardService 3000 10000 10002 (js "secret") in
  let bound : Z -> BindResult := fun _ => Bound in
  let host := JString (js "127.0.0.1") in
  let created :=
    snd (fst (Bun.createProxy bound bound host (JNumber 9999) this)) in
  keys_in_range created
  /\ keys_in_range (snd (fst (Bun.stopProxy (JNumber 10000) created)))
  /\ keys_in_range
       (fst (Bun.onError 10000 {| localPort := 10000 |} "EIO" created))
  /\ keys_in_range (fst (Bun.shutdown created))
  /\ keys_in_range
       (Node.this
          (snd (fst (Node.createProxy bound bound host (JNumber 9999)
                       (Node.started created)))))
  /\ keys_in_range
       (Node.this
          {| Node.this := created; Node.closing := [JNumber 10000] |})
  /\ keys_in_range
       (Node.this
          {| Node.this :=
               with_activeProxies created (delete 10000 (activeProxies created));
             Node.closing := [] |})
  /\ keys_in_range (Node.this (fst (Node.tick (Node.started created))))
  /\ keys_in_range (Node.this (fst (Node.shutdown (Node.started created)))).
Proof.
  intros this bound host created.
  destruct registry_keys_stay_in_range as (Hnew & Hbun & Hnode).
  assert (Hcreated : keys_in_range created).
  { apply (Hbun this (Hnew 3000 10000 10002 (js "secret"))). }
  destruct (Hbun created Hcreated) as (_ & Hstop & Herror & Hshutdown).
  destruct (Hnode (Node.started created) Hcreated)
    as (HcreateN & HstopN & HerrorN & HtickN & HshutdownN).
  split; [exact Hcreated|].
  split; [apply Hstop|].
  split; [apply Herror|].
  split; [exact Hshutdown|].
  split; [apply HcreateN|].
  split.
  { apply (HstopN (JNumber 10000)
             (response "success" "stop"
                [Text "Proxy on port "; Hole (JNumber 10000); Text " stopped."])
             {| Node.this := created; Node.closing := [JNumber 10000] |}
             [udp_close {| localPort := 10000 |}]).
    vm_compute. reflexivity. }
  split.
  { apply (HerrorN 10000 {| localPort := 10000 |} "EIO"%string
             {| Node.this :=
                  with_activeProxies created
                    (delete 10000 (activeProxies created));
                Node.closing := [] |}
             [console_error [Text "Proxy "; Hole (JNumber 10000);
                             Text " error:"; Text "EIO"];
              udp_close {| localPort := 10000 |}]).
    reflexivity. }
  split; [exact HtickN | exact HshutdownN].
Defined.

(** * The control channel *)

Lemma strict_equals_to_string (v : js_value) (s : jsstring) :
  v <> JString s -> strict_equals v (JString s) = false.
Proof.
  intros Hne. destruct v; try reflexivity. cbn [strict_equals].
  apply bool_decide_eq_false. intros ->. apply Hne. reflexivity.
Qed.

Lemma strict_equals_refl_string (s : jsstring) :
  strict_equals (JString s) (JString s) = true.
Proof. apply strict_equals_string. reflexivity. Qed.

(** C8. On a connection that is not authenticated: when 5 seconds pass
    with no message the connection is closed with code 4001,
    "Authentication required"; an [auth] message with a wrong token closes
    it with 4003, "Invalid token"; a message that is not JSON closes it
    with 4002, "Malformed auth message"; the three codes and the three
    reasons are pairwise distinct. An [auth] message with the access token
    clears the timer and is answered with the success acknowledgement, and
    from then on a [list], [create] or [stop] command is answered with the
    response of the registry and leaves the connection as it is. *)
Theorem control_channel_authentication (probe bind : Z -> BindResult)
    (this : ProxBoardService) (rt : Node.Runtime) :
  let bun := fst (Bun.handleWebSocketOpen Bun.upgraded) in
  let node := fst Node.connection in
  let disconnected := console_log [Text "WebSocket client disconnected."] in
  let bun_closed reason :=
    {| Bun.data := {| Bun.authenticated := false; Bun.authTimeout := None |};
       Bun.closed := Some reason |} in
  let bun_authenticated :=
    {| Bun.data := {| Bun.authenticated := true; Bun.authTimeout := None |};
       Bun.closed := None |} in
  let node_authenticated :=
    {| Node.authenticated := true; Node.authTimeout := None;
       Node.listener := Node.Commands; Node.closed := None |} in
  (* no message before the deadline *)
  (forall ms,
     5000 <= ms ->
     Bun.elapse ms bun
     = (bun_closed auth_timeout,
        [console_log [Text "Authentication timeout: closing connection."];
         ws_close 4001 "Authentication required"; disconnected])
     /\ Node.elapse ms node
        = ({| Node.authenticated := false; Node.authTimeout := None;
              Node.listener := Node.FirstMessage;
              Node.closed := Some auth_timeout |},
           [console_log [Text "Authentication timeout: closing connection."];
            ws_close 4001 "Authentication required"; disconnected]))
  /\ (forall ms,
        ms < 5000 ->
        Bun.closed (fst (Bun.elapse ms bun)) = None
        /\ snd (Bun.elapse ms bun) = []
        /\ Node.closed (fst (Node.elapse ms node)) = None
        /\ snd (Node.elapse ms node) = [])
  (* a wrong token *)
  /\ (forall properties,
        own_property properties (js "action") = JString (js "auth") ->
        (own_property properties (js "token") <> JString (accessToken this) ->
         Bun.handleWebSocketMessage probe bind this bun
           (Json (JObject properties))
         = (this, bun_closed invalid_token,
            [ws_send (reply "error" [Text "Invalid token"]);
             ws_close 4003 "Invalid token"; disconnected]))
        /\ (own_property properties (js "token")
            <> JString (accessToken (Node.this rt)) ->
            Node.message_event probe bind rt node (Json (JObject properties))
            = (rt,
               {| Node.authenticated := false; Node.authTimeout := Some 5000;
                  Node.listener := Node.NoListener;
                  Node.closed := Some invalid_token |},
               [ws_send (reply "error" [Text "Invalid token"]);
                ws_close 4003 "Invalid token"; disconnected])))
  (* a message that does not parse *)
  /\ Bun.handleWebSocketMessage probe bind this bun NotJson
     = (this, bun_closed malformed_auth,
        [console_error [Text "WebSocket message error:";
                        Text "SyntaxError: JSON Parse error"];
         ws_send (reply "error" [Text "Malformed auth message"]);
         ws_close 4002 "Malformed auth message"; disconnected])
  /\ Node.message_event probe bind rt node NotJson
     = (rt,
        {| Node.authenticated := false; Node.authTimeout := Some 5000;
           Node.listener := Node.NoListener;
           Node.closed := Some malformed_auth |},
        [ws_send (reply "error" [Text "Malformed auth message"]);
         ws_close 4002 "Malformed auth message"; disconnected])
  (* the three reasons are distinct *)
  /\ NoDup (map fst [auth_timeout; malformed_auth; invalid_token])
  /\ NoDup (map snd [auth_timeout; malformed_auth; invalid_token])
  (* the access token *)
  /\ (forall properties,
        own_property properties (js "action") = JString (js "auth") ->
        (own_property properties (js "token") = JString (accessToken this) ->
         Bun.handleWebSocketMessage probe bind this bun
           (Json (JObject properties))
         = (this, bun_authenticated,
            [ws_send (reply "success" [Text "Authenticated"])]))
        /\ (own_property properties (js "token")
            = JString (accessToken (Node.this rt)) ->
            Node.message_event probe bind rt node (Json (JObject properties))
            = (rt, node_authenticated,
               [ws_send (reply "success" [Text "Authenticated"])])))
  /\ (forall ms,
        Bun.elapse ms bun_authenticated = (bun_authenticated, [])
        /\ Node.elapse ms node_authenticated = (node_authenticated, []))
  (* the commands of an authenticated connection *)
  /\ (forall ws properties,
        Bun.authenticated (Bun.data ws) = true ->
        (own_property properties (js "action") = JString (js "list") ->
         Bun.handleWebSocketMessage probe bind this ws
           (Json (JObject properties))
         = (this, ws, [ws_send (Bun.listProxies this)]))
        /\ (own_property properties (js "action") = JString (js "create") ->
            Bun.handleWebSocketMessage probe bind this ws
              (Json (JObject properties))
            = let '(r, this', effects) :=
                Bun.createProxy probe bind
                  (own_property properties (js "proxyHostAddress"))
                  (own_property properties (js "proxyHostPort")) this in
              (this', ws, effects ++ [ws_send r]))
        /\ (own_property properties (js "action") = JString (js "stop") ->
            Bun.handleWebSocketMessage probe bind this ws
              (Json (JObject properties))
            = let '(r, this', effects) :=
                Bun.stopProxy (own_property properties (js "proxyPort")) this in
              (this', ws, effects ++ [ws_send r])))
  /\ (forall ws msg,
        Node.listener ws = Node.Commands ->
        Node.message_event probe bind rt ws msg
        = let '(rt', effects) := Node.handleWebSocketMessage probe bind rt msg in
          let '(rt'', effects') := Node.tick rt' in
          (rt'', ws, effects ++ effects'))
  /\ (forall properties,
        (own_property properties (js "action") = JString (js "list") ->
         Node.handleWebSocketMessage probe bind rt (Json (JObject properties))
         = (rt, [ws_send (Node.listProxies (Node.this rt))]))
        /\ (own_property properties (js "action") = JString (js "create") ->
            forall r rt' effects,
              Node.createProxy probe bind
                (own_property properties (js "proxyHostAddress"))
                (own_property properties (js "proxyHostPort")) rt
              = (Node.Fulfilled r, rt', effects) ->
              Node.handleWebSocketMessage probe bind rt
                (Json (JObject properties))
              = (rt', effects ++ [ws_send r]))
        /\ (own_property properties (js "action") = JString (js "stop") ->
            forall r rt' effects,
              Node.stopProxy (own_property properties (js "proxyPort")) rt
              = Ok (r, rt', effects) ->
              Node.handleWebSocketMessage probe bind rt
                (Json (JObject properties))
              = (rt', effects ++ [ws_send r]))).
Proof.
  intros bun node disconnected bun_closed bun_authenticated node_authenticated.
  split; [| split; [| split; [| split; [| split; [| split; [| split;
    [| split; [| split; [| split; [| split]]]]]]]]]].
  - intros ms Hms. unfold Bun.elapse, Node.elapse.
    cbn [bun node Bun.handleWebSocketOpen Node.connection fst Bun.data
         Bun.authTimeout Node.authTimeout].
    destruct (Z.leb_spec 5000 ms); [| lia]. split; reflexivity.
  - intros ms Hms. unfold Bun.elapse, Node.elapse.
    cbn [bun node Bun.handleWebSocketOpen Node.connection fst Bun.data
         Bun.authTimeout Node.authTimeout].
    destruct (Z.leb_spec 5000 ms); [lia |]. repeat split.
  - intros properties Haction. split; intros Htoken.
    + unfold Bun.handleWebSocketMessage.
      cbn [JSON_parse mbind result_bind get bun Bun.handleWebSocketOpen fst
           Bun.data Bun.authenticated negb].
      rewrite Haction, strict_equals_refl_string.
      cbn [mbind result_bind mret result_ret].
      rewrite (strict_equals_to_string _ _ Htoken). reflexivity.
    + unfold Node.message_event, Node.firstMessage.
      cbn [node Node.connection fst Node.listener JSON_parse mbind result_bind
           get].
      rewrite Haction, strict_equals_refl_string.
      cbn [mbind result_bind mret result_ret].
      rewrite (strict_equals_to_string _ _ Htoken). reflexivity.
  - reflexivity.
  - reflexivity.
  - cbn. repeat constructor; cbn; intros H;
      repeat (apply elem_of_cons in H as [H|H]; [discriminate|]);
      apply elem_of_nil in H; exact H.
  - cbn. repeat constructor; cbn; intros H;
      repeat (apply elem_of_cons in H as [H|H]; [discriminate|]);
      apply elem_of_nil in H; exact H.
  - intros properties Haction. split; intros Htoken.
    + unfold Bun.handleWebSocketMessage.
      cbn [JSON_parse mbind result_bind get bun Bun.handleWebSocketOpen fst
           Bun.data Bun.authenticated negb].
      rewrite Haction, strict_equals_refl_string.
      cbn [mbind result_bind mret result_ret].
      rewrite Htoken, strict_equals_refl_string. reflexivity.
    + unfold Node.message_event, Node.firstMessage.
      cbn [node Node.connection fst Node.listener JSON_parse mbind result_bind
           get].
      rewrite Haction, strict_equals_refl_string.
      cbn [mbind result_bind mret result_ret].
      rewrite Htoken, strict_equals_refl_string. reflexivity.
  - intros ms. split; reflexivity.
  - intros ws properties Hauth.
    unfold Bun.handleWebSocketMessage, Bun.handleAuthenticatedMessage.
    cbn [JSON_parse mbind result_bind get]. rewrite Hauth. cbn [negb].
    split; [| split]; intros ->.
    + reflexivity.
    + change (strict_equals (JString (js "create")) (JString (js "list")))
        with false.
      rewrite strict_equals_refl_string.
      cbn [mbind result_bind mret result_ret].
      destruct (Bun.createProxy probe bind _ _ this) as [[r this'] effects].
      reflexivity.
    + change (strict_equals (JString (js "stop")) (JString (js "list")))
        with false.
      change (strict_equals (JString (js "stop")) (JString (js "create")))
        with false.
      rewrite strict_equals_refl_string.
      cbn [mbind result_bind mret result_ret].
      destruct (Bun.stopProxy _ this) as [[r this'] effects].
      reflexivity.
  - intros ws msg Hl. unfold Node.message_event. rewrite Hl. reflexivity.
  - intros properties. unfold Node.handleWebSocketMessage.
    cbn [JSON_parse mbind result_bind get].
    split; [| split]; intros ->.
    + reflexivity.
    + change (strict_equals (JString (js "create")) (JString (js "list")))
        with false.
      rewrite strict_equals_refl_string.
      intros r rt' effects ->. reflexivity.
    + change (strict_equals (JString (js "stop")) (JString (js "list")))
        with false.
      change (strict_equals (JString (js "stop")) (JString (js "create")))
        with false.
      rewrite strict_equals_refl_string.
      intros r rt' effects ->. reflexivity.
Qed.

Lemma control_channel_authentication_witness :
  let this := new_ProxBoardService 3000 10000 10002 (js "secret") in
  let bound : Z -> BindResult := fun _ => Bound in
  let bun := fst (Bun.handleWebSocketOpen Bun.upgraded) in
  let node := fst Node.connection in
  let auth (token : jsstring) :=
    [(js "action", JString (js "auth")); (js "token", JString token)] in
  let authenticated :=
    {| Bun.data := {| Bun.authenticated := true; Bun.authTimeout := None |};
       Bun.closed := None |} in
  let create :=
    [(js "action", JString (js "create"));
     (js "proxyHostAddress", JString (js "127.0.0.1"));
     (js "proxyHostPort", JNumber 9999)] in
  let stop := [(js "action", JString (js "stop")); (js "proxyPort", JNumber 10000)] in
  Bun.closed (fst (Bun.elapse 5000 bun)) = Some auth_timeout
  /\ Node.closed (fst (Node.elapse 5000 node)) = Some auth_timeout
  /\ Bun.closed (fst (Bun.elapse 4999 bun)) = None
  /\ Bun.closed
       (snd (fst (Bun.handleWebSocketMessage bound bound this bun
                    (Json (JObject (auth (js "wrong")))))))
     = Some invalid_token
  /\ Node.closed
       (snd (fst (Node.message_event bound bound (Node.started this) node
                    (Json (JObject (auth (js "wrong")))))))
     = Some invalid_token
  /\ Bun.handleWebSocketMessage bound bound this bun
       (Json (JObject (auth (js "secret"))))
     = (this, authenticated, [ws_send (reply "success" [Text "Authenticated"])])
  /\ Node.listener
       (snd (fst (Node.message_event bound bound (Node.started this) node
                    (Json (JObject (auth (js "secret")))))))
     = Node.Commands
  /\ snd (Bun.handleWebSocketMessage bound bound this authenticated
            (Json (JObject [(js "action", JString (js "list"))])))
     = [ws_send (Bun.listProxies this)]
  /\ snd (fst (Bun.handleWebSocketMessage bound bound this authenticated
                 (Json (JObject create))))
     = authenticated
  /\ snd (Bun.handleWebSocketMessage bound bound this authenticated
            (Json (JObject stop)))
     = [ws_send NotFound]
  /\ snd (Node.handleWebSocketMessage bound bound (Node.started this)
            (Json (JObject [(js "action", JString (js "list"))])))
     = [ws_send (Node.listProxies this)]
  /\ snd (Node.handleWebSocketMessage bound bound (Node.started this)
            (Json (JObject stop)))
     = [ws_send NotFound]
  /\ (exists r, last (snd (Node.handleWebSocketMessage bound bound
                             (Node.started this) (Json (JObject create))))
                = Some (ws_send r)
                /\ Response.proxyPort r = Some 10000).
Proof.
  intros this bound bun node auth authenticated create stop.
  subst bun node.
  destruct (control_channel_authentication bound bound this (Node.started this))
    as (Hdeadline & Hearly & Hwrong & _ & _ & _ & _ & Hright & _ & Hcmd
        & Hevent & Hnode).
  destruct (Hdeadline 5000 ltac:(lia)) as [HdB HdN].
  destruct (Hearly 4999 ltac:(lia)) as (HeB & _).
  destruct (Hwrong (auth (js "wrong")) eq_refl) as [HwB HwN].
  destruct (Hright (auth (js "secret")) eq_refl) as [HrB HrN].
  destruct (Hcmd authenticated [(js "action", JString (js "list"))] eq_refl)
    as (Hlist & _).
  destruct (Hcmd authenticated create eq_refl) as (_ & Hcreate & _).
  destruct (Hcmd authenticated stop eq_refl) as (_ & _ & Hstop).
  destruct (Hnode [(js "action", JString (js "list"))]) as (HlistN & _).
  destruct (Hnode create) as (_ & HcreateN & _).
  destruct (Hnode stop) as (_ & _ & HstopN).
  split; [rewrite HdB; reflexivity|].
  split; [rewrite HdN; reflexivity|].
  split; [exact HeB|].
  split; [rewrite HwB; [reflexivity | vm_compute; discriminate]|].
  split; [rewrite HwN; [reflexivity | vm_compute; discriminate]|].
  split; [apply HrB; reflexivity|].
  split; [rewrite HrN; reflexivity|].
  split; [rewrite Hlist; reflexivity|].
  split; [rewrite Hcreate; [vm_compute | ]; reflexivity|].
  split; [rewrite Hstop; reflexivity|].
  split; [rewrite HlistN; reflexivity|].
  split; [rewrite (HstopN eq_refl NotFound (Node.started this) [] eq_refl);
          reflexivity|].
  destruct (Node.createProxy bound bound
              (own_property create (js "proxyHostAddress"))
              (own_property create (js "proxyHostPort")) (Node.started this))
    as [[r rt'] effects] eqn:E.
  destruct r as [r|]; [| vm_compute in E; discriminate].
  exists r. rewrite (HcreateN eq_refl r rt' effects eq_refl).
  split; [cbn [snd]; apply last_snoc|].
  vm_compute in E. injection E as <- _ _. reflexivity.
Defined.

(** * More of the frame codec *)

Lemma Bun_encode_Ok_inv (host : jsstring) (port : Z) (payload f : list Z) :
  Bun.encodeProxyMessage host port payload = Ok f ->
  byteLength (TextEncoder_encode host) <= 255 /\ 1 <= port <= 65535
  /\ f = frame (TextEncoder_encode host) port payload.
Proof.
  intros H.
  assert (Hg : byteLength (TextEncoder_encode host) <= 255 /\ 1 <= port <= 65535).
  { unfold Bun.encodeProxyMessage in H.
    destruct (Z.ltb_spec 255 (byteLength (TextEncoder_encode host)));
      [discriminate|].
    destruct (Z.ltb_spec port 1); [discriminate|].
    destruct (Z.ltb_spec 65535 port); [discriminate|]. lia. }
  destruct Hg as [Hl Hp]. rewrite Bun_encode_frame in H by assumption.
  injection H as <-. auto.
Qed.

Lemma Node_encode_Ok_inv (host : jsstring) (port : Z) (payload f : list Z) :
  Node.encodeProxyMessage host port payload = Ok f ->
  byteLength (TextEncoder_encode host) <= 255 /\ 1 <= port <= 65535
  /\ f = frame (TextEncoder_encode host) port payload.
Proof.
  intros H.
  assert (Hg : byteLength (TextEncoder_encode host) <= 255 /\ 1 <= port <= 65535).
  { unfold Node.encodeProxyMessage in H.
    change (Buffer.from_utf8 host) with (TextEncoder_encode host) in H.
    destruct (Z.ltb_spec 255 (byteLength (TextEncoder_encode host)));
      [discriminate|].
    destruct (Z.ltb_spec port 1); [discriminate|].
    destruct (Z.ltb_spec 65535 port); [discriminate|]. lia. }
  destruct Hg as [Hl Hp]. rewrite Node_encode_frame in H by assumption.
  injection H as <-. auto.
Qed.

Lemma frame_inj (h h' : list Z) (p p' : Z) (pl pl' : list Z) :
  0 <= p <= 65535 -> 0 <= p' <= 65535 ->
  frame h p pl = frame h' p' pl' -> h = h' /\ p = p' /\ pl = pl'.
Proof.
  intros Hp Hp' H. split; [| split].
  - apply (f_equal declared_hostname) in H.
    rewrite !declared_hostname_frame in H. exact H.
  - apply (f_equal declared_port) in H.
    rewrite !declared_port_frame in H by assumption. exact H.
  - apply (f_equal after_header) in H.
    rewrite !after_header_frame in H. exact H.
Qed.

Lemma TextEncoder_inj (s s' : jsstring) :
  Utf8.well_formed s = true -> Utf8.well_formed s' = true ->
  TextEncoder_encode s = TextEncoder_encode s' -> s = s'.
Proof.
  intros Hs Hs' H. apply (f_equal Utf8.decode) in H.
  unfold TextEncoder_encode in H.
  rewrite !decode_encode_code_points in H by assumption. exact H.
Qed.

(** A buffer with a complete header is the frame of the fields that its
    header declares. *)
Lemma buffer_is_frame (buf : list Z) :
  bytes_ok buf -> 1 + declared_length buf + 2 <= byteLength buf ->
  buf = frame (declared_hostname buf) (declared_port buf) (after_header buf)
  /\ byteLength (declared_hostname buf) = declared_length buf.
Proof.
  intros Hb Hlen.
  pose proof (declared_length_byte buf Hb) as Hl.
  pose proof (nth_byte buf (Z.to_nat (1 + declared_length buf)) Hb) as Hhi.
  pose proof (nth_byte buf (Z.to_nat (2 + declared_length buf)) Hb) as Hlo.
  destruct buf as [|x l];
    [change (1 + 0 + 2 <= 0) in Hlen; lia|].
  unfold frame, declared_hostname, declared_port, after_header in *.
  change (declared_length (x :: l)) with x in *.
  rewrite byteLength_cons in Hlen. unfold byteLength in *.
  set (n := Z.to_nat x) in *.
  assert (Hn : (n + 2 <= length l)%nat) by lia.
  replace (Z.to_nat (1 + x)) with (S n) in * by lia.
  replace (Z.to_nat (2 + x)) with (S (S n)) in * by lia.
  replace (Z.to_nat (1 + x + 2)) with (S (n + 2)) by lia.
  cbn [drop nth] in *. change (drop 0 l) with l.
  assert (Htake : length (take n l) = n) by (rewrite length_take; lia).
  split; [| rewrite Htake; lia].
  rewrite Htake. replace (Z.of_nat n) with x by lia. cbn [app]. f_equal.
  rewrite <- (take_drop n l) at 1. f_equal.
  assert (H1 : l !! n = Some (nth n l 0)) by (apply lookup_in_range; lia).
  assert (H2 : l !! S n = Some (nth (S n) l 0))
    by (apply lookup_in_range; lia).
  rewrite (drop_S l _ n H1), (drop_S l _ (S n) H2).
  replace (n + 2)%nat with (S (S n)) by lia.
  f_equal; [div_mod_lia | f_equal; div_mod_lia].
Qed.

Lemma decode_fields_Ok_inv (text : list Z -> jsstring) (buf : list Z)
    (m : ProxyMessage) :
  decode_fields text buf = Ok m ->
  1 + declared_length buf + 2 <= byteLength buf
  /\ m = {| targetHost := text (declared_hostname buf);
            targetPort := declared_port buf;
            payload := after_header buf |}
  /\ text (declared_hostname buf) <> []
  /\ 1 <= declared_port buf <= 65535.
Proof.
  unfold decode_fields.
  destruct (Z.ltb_spec (byteLength buf) 4); [discriminate|].
  destruct (Z.ltb_spec (byteLength buf) (1 + declared_length buf + 2));
    [discriminate|].
  destruct (text (declared_hostname buf)) eqn:Et; [discriminate|].
  cbn [truthy negb orb].
  destruct (Z.ltb_spec (declared_port buf) 1); [discriminate|].
  destruct (Z.ltb_spec 65535 (declared_port buf)); [discriminate|].
  cbn [orb]. intros [= <-]. repeat split; try lia. discriminate.
Qed.

(** X1. No two messages share a frame: when [encodeProxyMessage] returns
    the same buffer for two well-formed hosts with their ports and
    payloads, the hosts, the ports and the payloads are the same. *)
Theorem encode_injective (host host' : jsstring) (port port' : Z)
    (payload payload' f : list Z) :
  Utf8.well_formed host = true -> Utf8.well_formed host' = true ->
  (Bun.encodeProxyMessage host port payload = Ok f
   /\ Bun.encodeProxyMessage host' port' payload' = Ok f)
  \/ (Node.encodeProxyMessage host port payload = Ok f
      /\ Node.encodeProxyMessage host' port' payload' = Ok f) ->
  host = host' /\ port = port' /\ payload = payload'.
Proof.
  intros Hwf Hwf' H.
  assert (Hf : (1 <= port <= 65535 /\ 1 <= port' <= 65535)
               /\ frame (TextEncoder_encode host) port payload
                  = frame (TextEncoder_encode host') port' payload').
  { destruct H as [[H1 H2] | [H1 H2]].
    - apply Bun_encode_Ok_inv in H1 as (_ & ? & ->).
      apply Bun_encode_Ok_inv in H2 as (_ & ? & H2). auto.
    - apply Node_encode_Ok_inv in H1 as (_ & ? & ->).
      apply Node_encode_Ok_inv in H2 as (_ & ? & H2). auto. }
  destruct Hf as [[Hp Hp'] Hf].
  apply frame_inj in Hf as (Hh & -> & ->); [| lia | lia].
  apply TextEncoder_inj in Hh; auto.
Qed.

Lemma encode_injective_witness :
  js "8.8.8.8" = js "8.8.8.8" /\ 53 = 53 /\ [1; 2] = [1; 2].
Proof.
  apply (encode_injective (js "8.8.8.8") (js "8.8.8.8") 53 53 [1; 2] [1; 2]
           [7; 56; 46; 56; 46; 56; 46; 56; 0; 53; 1; 2]).
  - reflexivity.
  - reflexivity.
  - left. split; vm_compute; reflexivity.
Defined.

(** X2. Decoding and then encoding. Let [decodeProxyMessage] accept a
    buffer whose hostname bytes are the UTF-8 encoding of a well-formed
    string (for the Bun decoder: one that does not begin with U+FEFF).
    Then the host that it returns is that string, and the buffer is
    exactly what [encodeProxyMessage] returns for the host, the port and
    the payload that it returns; the port lies in [1, 65535] and the host
    is not empty. *)
Theorem decode_returns_the_fields_of_the_frame (buf : list Z)
    (m : ProxyMessage) (s : jsstring) :
  bytes_ok buf ->
  Utf8.well_formed s = true ->
  declared_hostname buf = TextEncoder_encode s ->
  (Bun.decodeProxyMessage buf = Ok m /\ head s <> Some 0xFEFF)
  \/ Node.decodeProxyMessage buf = Ok m ->
  targetHost m = s
  /\ buf = frame (TextEncoder_encode (targetHost m)) (targetPort m) (payload m)
  /\ Bun.encodeProxyMessage (targetHost m) (targetPort m) (payload m) = Ok buf
  /\ Node.encodeProxyMessage (targetHost m) (targetPort m) (payload m)
     = Ok buf
  /\ 1 <= targetPort m <= 65535
  /\ targetHost m <> [].
Proof.
  intros Hb Hwf Hs Hm.
  pose proof (declared_length_byte buf Hb) as Hl.
  rewrite Bun_decode_fields, Node_decode_fields in Hm by lia.
  assert (H : exists text,
             decode_fields text buf = Ok m
             /\ text (declared_hostname buf) = s).
  { destruct Hm as [[Hm Hhead] | Hm].
    - exists TextDecoder_decode. split; [exact Hm|].
      rewrite Hs. apply TextDecoder_TextEncoder; assumption.
    - exists Utf8.decode. split; [exact Hm|].
      rewrite Hs. apply decode_encode_code_points, Hwf. }
  destruct H as (text & Hd & Htext).
  apply decode_fields_Ok_inv in Hd as (Hlen & -> & Hne & Hp).
  destruct (buffer_is_frame buf Hb Hlen) as [Hframe Hbytes].
  cbn [targetHost targetPort payload]. rewrite Htext in Hne |- *.
  assert (Hhost : byteLength (TextEncoder_encode s) <= 255)
    by (rewrite <- Hs; lia).
  rewrite <- Hs.
  split; [reflexivity|]. split; [exact Hframe|].
  rewrite Bun_encode_frame, Node_encode_frame by assumption.
  rewrite <- Hs, <- Hframe. auto.
Qed.

Lemma decode_returns_the_fields_of_the_frame_witness :
  let buf := [7; 56; 46; 56; 46; 56; 46; 56; 0; 53; 1; 2] in
  let m := {| targetHost := js "8.8.8.8"; targetPort := 53;
              payload := [1; 2] |} in
  targetHost m = js "8.8.8.8"
  /\ buf = frame (TextEncoder_encode (targetHost m)) (targetPort m) (payload m)
  /\ Bun.encodeProxyMessage (targetHost m) (targetPort m) (payload m) = Ok buf
  /\ Node.encodeProxyMessage (targetHost m) (targetPort m) (payload m)
     = Ok buf
  /\ 1 <= targetPort m <= 65535
  /\ targetHost m <> [].
Proof.
  intros buf m.
  apply (decode_returns_the_fields_of_the_frame buf m (js "8.8.8.8")).
  - unfold bytes_ok. repeat constructor.
  - reflexivity.
  - reflexivity.
  - right. vm_compute. reflexivity.
Defined.

(** * The demonstration client *)

Lemma Client_encode_frame (host : jsstring) (port : Z) (payload : list Z) :
  byteLength (TextEncoder_encode host) <= 255 -> 0 <= port <= 65535 ->
  Client.encodeProxyMessage host port payload
  = Ok (frame (TextEncoder_encode host) port payload).
Proof.
  intros Hh Hp. unfold Client.encodeProxyMessage, frame.
  change (Buffer.from_utf8 host) with (TextEncoder_encode host).
  set (hostname := TextEncoder_encode host) in *.
  pose proof (byteLength_nonneg hostname) as Hn.
  change Buffer.alloc with ArrayBuffer.
  rewrite ArrayBuffer_frame. cbn [app].
  rewrite writeUInt8_head by lia. cbn [mbind result_bind].
  rewrite (copy_at _ [byteLength hostname]
             (replicate (length hostname) 0)
             (0 :: 0 :: replicate (length payload) 0) hostname);
    [| reflexivity | reflexivity | apply length_replicate ].
  cbn [mbind result_bind].
  rewrite (writeUInt16BE_at _ ([byteLength hostname] ++ hostname)
             (replicate (length payload) 0) 0 0 port);
    [| rewrite <- app_assoc; reflexivity
     | rewrite byteLength_app; reflexivity | lia ].
  cbn [mbind result_bind].
  rewrite (copy_at _
             (([byteLength hostname] ++ hostname)
                ++ [port / 256; port mod 256])
             (replicate (length payload) 0) [] payload);
    [| rewrite app_nil_r, <- !app_assoc; reflexivity
     | rewrite !byteLength_app; reflexivity | apply length_replicate ].
  cbn [mbind result_bind mret result_ret].
  rewrite app_nil_r, <- !app_assoc. reflexivity.
Qed.

Lemma Client_encode_throws (host : jsstring) (port : Z) (payload : list Z) :
  255 < byteLength (TextEncoder_encode host) \/ port < 0 \/ 65535 < port ->
  Client.encodeProxyMessage host port payload = Throw Buffer.out_of_range.
Proof.
  intros H. unfold Client.encodeProxyMessage.
  change (Buffer.from_utf8 host) with (TextEncoder_encode host).
  set (hostname := TextEncoder_encode host) in *.
  pose proof (byteLength_nonneg hostname) as Hn.
  destruct (Z.le_gt_cases (byteLength hostname) 255) as [Hle | Hgt].
  - destruct H as [H | H]; [lia|].
    change Buffer.alloc with ArrayBuffer.
    rewrite ArrayBuffer_frame. cbn [app].
    rewrite writeUInt8_head by lia. cbn [mbind result_bind].
    rewrite (copy_at _ [byteLength hostname]
               (replicate (length hostname) 0)
               (0 :: 0 :: replicate (length payload) 0) hostname);
      [| reflexivity | reflexivity | apply length_replicate ].
    cbn [mbind result_bind]. unfold Buffer.writeUInt16BE.
    destruct (Z.ltb_spec port 0); [reflexivity|].
    destruct (Z.ltb_spec 65535 port); [reflexivity | lia].
  - unfold Buffer.writeUInt8 at 1.
    destruct (Z.ltb_spec (byteLength hostname) 0); [lia|].
    destruct (Z.ltb_spec 255 (byteLength hostname)); [reflexivity | lia].
Qed.

Lemma Client_decode_fields (buf : list Z) :
  0 <= declared_length buf ->
  Client.decodeProxyMessage buf
  = if byteLength buf <? 1 + declared_length buf + 2
    then Throw Buffer.out_of_range
    else Ok {| targetHost := Utf8.decode (declared_hostname buf);
               targetPort := declared_port buf;
               payload := after_header buf |}.
Proof.
  intros Hl. unfold Client.decodeProxyMessage.
  destruct (Z.ltb_spec (byteLength buf) (1 + declared_length buf + 2))
    as [Hshort | Hlong].
  - destruct buf as [|x l]; [reflexivity|].
    rewrite readUInt8_nth
      by (rewrite ?byteLength_cons; pose proof (byteLength_nonneg l); lia).
    cbn [mbind result_bind].
    change (nth (Z.to_nat 0) (x :: l) 0) with (declared_length (x :: l)).
    unfold Buffer.readUInt16BE, in_bounds.
    destruct (Z.leb_spec (1 + declared_length (x :: l) + 2)
                (byteLength (x :: l))); [lia|].
    rewrite andb_false_r. reflexivity.
  - rewrite readUInt8_nth by lia. cbn [mbind result_bind].
    change (nth (Z.to_nat 0) buf 0) with (declared_length buf).
    rewrite readUInt16BE_nth by lia. cbn [mbind result_bind].
    replace (1 + (1 + declared_length buf)) with (2 + declared_length buf)
      by lia.
    fold (declared_port buf).
    unfold Buffer.toString_utf8.
    rewrite Z.max_l, Z.min_l by lia.
    replace (Z.to_nat (1 + declared_length buf - 1))
      with (Z.to_nat (declared_length buf)) by lia.
    change (Z.to_nat 1) with 1%nat. fold (declared_hostname buf).
    rewrite slice_from_drop by lia. fold (after_header buf).
    reflexivity.
Qed.

Lemma Client_decode_frame (host : jsstring) (port : Z) (payload : list Z) :
  Utf8.well_formed host = true -> 0 <= port <= 65535 ->
  Client.decodeProxyMessage (frame (TextEncoder_encode host) port payload)
  = Ok {| targetHost := host; targetPort := port; payload := payload |}.
Proof.
  intros Hwf Hport.
  rewrite Client_decode_fields
    by (rewrite declared_length_frame; apply byteLength_nonneg).
  rewrite byteLength_frame, declared_length_frame, declared_hostname_frame,
    declared_port_frame, after_header_frame by lia.
  pose proof (byteLength_nonneg payload).
  destruct (Z.ltb_spec
              (1 + byteLength (TextEncoder_encode host) + 2 + byteLength payload)
              (1 + byteLength (TextEncoder_encode host) + 2)); [lia|].
  unfold TextEncoder_encode.
  rewrite decode_encode_code_points by assumption. reflexivity.
Qed.

(** X3. The encoder of the client writes the same frame as the encoders
    of the service whenever they succeed; beyond them it accepts the port
    0, and it throws exactly when the hostname has more than 255 bytes or
    the port is outside [0, 65535]. *)
Theorem client_encoder_agrees_with_the_service (host : jsstring) (port : Z)
    (payload : list Z) :
  (forall f,
     Bun.encodeProxyMessage host port payload = Ok f
     \/ Node.encodeProxyMessage host port payload = Ok f ->
     Client.encodeProxyMessage host port payload = Ok f)
  /\ (byteLength (TextEncoder_encode host) <= 255 -> 0 <= port <= 65535 ->
      Client.encodeProxyMessage host port payload
      = Ok (frame (TextEncoder_encode host) port payload))
  /\ (255 < byteLength (TextEncoder_encode host) \/ port < 0 \/ 65535 < port ->
      Client.encodeProxyMessage host port payload = Throw Buffer.out_of_range).
Proof.
  split; [| split].
  - intros f [H | H].
    + apply Bun_encode_Ok_inv in H as (Hl & Hp & ->).
      apply Client_encode_frame; lia.
    + apply Node_encode_Ok_inv in H as (Hl & Hp & ->).
      apply Client_encode_frame; lia.
  - apply Client_encode_frame.
  - apply Client_encode_throws.
Qed.

Lemma client_encoder_agrees_with_the_service_witness :
  Client.encodeProxyMessage (js "8.8.8.8") 53 [1; 2]
  = Ok [7; 56; 46; 56; 46; 56; 46; 56; 0; 53; 1; 2]
  /\ Client.encodeProxyMessage (js "8.8.8.8") 0 [1; 2]
     = Ok (frame (TextEncoder_encode (js "8.8.8.8")) 0 [1; 2])
  /\ Client.encodeProxyMessage (js "8.8.8.8") 65536 [1; 2]
     = Throw Buffer.out_of_range.
Proof.
  split; [| split].
  - apply (proj1 (client_encoder_agrees_with_the_service (js "8.8.8.8") 53
                    [1; 2])).
    left. vm_compute. reflexivity.
  - apply (client_encoder_agrees_with_the_service (js "8.8.8.8") 0 [1; 2]).
    + vm_compute. discriminate.
    + lia.
  - apply (client_encoder_agrees_with_the_service (js "8.8.8.8") 65536 [1; 2]).
    right. right. lia.
Defined.

(** X4. The decoder of the client returns what the decoder of the Node
    service returns whenever that succeeds. It succeeds on every buffer
    that holds the header that its first byte declares, also when the
    hostname is empty or the port is 0, and throws on every other
    buffer. *)
Theorem client_decoder_agrees_with_the_service (buf : list Z) :
  bytes_ok buf ->
  (forall m,
     Node.decodeProxyMessage buf = Ok m ->
     Client.decodeProxyMessage buf = Ok m)
  /\ (1 + declared_length buf + 2 <= byteLength buf ->
      Client.decodeProxyMessage buf
      = Ok {| targetHost := Utf8.decode (declared_hostname buf);
              targetPort := declared_port buf;
              payload := after_header buf |})
  /\ (byteLength buf < 1 + declared_length buf + 2 ->
      exists error, Client.decodeProxyMessage buf = Throw error).
Proof.
  intros Hb. pose proof (declared_length_byte buf Hb) as Hl.
  rewrite Client_decode_fields, Node_decode_fields by lia.
  split; [| split].
  - intros m Hm.
    apply decode_fields_Ok_inv in Hm as (Hlen & -> & _).
    destruct (Z.ltb_spec (byteLength buf) (1 + declared_length buf + 2));
      [lia | reflexivity].
  - intros Hlen.
    destruct (Z.ltb_spec (byteLength buf) (1 + declared_length buf + 2));
      [lia | reflexivity].
  - intros Hlen. eexists.
    destruct (Z.ltb_spec (byteLength buf) (1 + declared_length buf + 2));
      [reflexivity | lia].
Qed.

Lemma client_decoder_agrees_with_the_service_witness :
  Client.decodeProxyMessage [7; 56; 46; 56; 46; 56; 46; 56; 0; 53; 1; 2]
  = Ok {| targetHost := js "8.8.8.8"; targetPort := 53; payload := [1; 2] |}
  /\ Client.decodeProxyMessage [0; 0; 0]
     = Ok {| targetHost := Utf8.decode (declared_hostname [0; 0; 0]);
             targetPort := declared_port [0; 0; 0];
             payload := after_header [0; 0; 0] |}
  /\ exists error, Client.decodeProxyMessage [5; 1; 2] = Throw error.
Proof.
  split; [| split].
  - apply (proj1 (client_decoder_agrees_with_the_service
                    [7; 56; 46; 56; 46; 56; 46; 56; 0; 53; 1; 2]
                    ltac:(unfold bytes_ok; repeat constructor))).
    vm_compute. reflexivity.
  - apply (client_decoder_agrees_with_the_service [0; 0; 0]).
    + unfold bytes_ok. repeat constructor.
    + vm_compute. discriminate.
  - apply (client_decoder_agrees_with_the_service [5; 1; 2]).
    + unfold bytes_ok. repeat constructor.
    + vm_compute. reflexivity.
Defined.

(** X5. The client's own round trip has no hole at the empty host or at
    the port 0: for a well-formed host of at most 255 bytes in UTF-8, a
    port in [0, 65535] and any payload, the decoder of the client returns
    what went into its encoder. *)
Theorem client_roundtrip (host : jsstring) (port : Z) (payload : list Z) :
  Utf8.well_formed host = true ->
  byteLength (TextEncoder_encode host) <= 255 ->
  0 <= port <= 65535 ->
  Client.encodeProxyMessage host port payload ≫= Client.decodeProxyMessage
  = Ok {| targetHost := host; targetPort := port; payload := payload |}.
Proof.
  intros Hwf Hlen Hport.
  rewrite Client_encode_frame by assumption. cbn [mbind result_bind].
  apply Client_decode_frame; assumption.
Qed.

Lemma client_roundtrip_witness :
  Client.encodeProxyMessage [] 0 [] ≫= Client.decodeProxyMessage
  = Ok {| targetHost := []; targetPort := 0; payload := [] |}.
Proof.
  apply (client_roundtrip [] 0 []).
  - reflexivity.
  - vm_compute. discriminate.
  - lia.
Defined.



(** * More of the port allocator *)

(** X7. The Bun allocator returns a port exactly when that port is the
    least port of the range that the registry does not hold and that
    binds, and returns none exactly when the range has no such port; it
    attempts a bind, in ascending order, on the ports up to the one it
    returns that the registry does not hold, and on no other port. *)
Theorem Bun_findAvailablePort_least_free (bind : Z -> BindResult)
    (this : ProxBoardService) :
  (forall p,
     fst (Bun.findAvailablePort bind this) = Some p
     <-> minProxyPort this <= p <= maxProxyPort this
         /\ free bind this p
         /\ forall q, minProxyPort this <= q < p -> ~ free bind this q)
  /\ (fst (Bun.findAvailablePort bind this) = None
      <-> forall q, minProxyPort this <= q <= maxProxyPort this ->
                    ~ free bind this q)
  /\ bind_attempts (snd (Bun.findAvailablePort bind this))
     = List.filter (unregistered this)
         (seqZ (minProxyPort this)
            (match fst (Bun.findAvailablePort bind this) with
             | Some p => p
             | None => maxProxyPort this
             end - minProxyPort this + 1)).
Proof.
  pose proof (Bun_findAvailablePort_spec bind this) as H.
  assert (Hnot : forall q,
             Map_has (activeProxies this) q = true \/ bind q <> Bound ->
             ~ free bind this q).
  { intros q [Hq | Hq] [Hf Hb]; congruence. }
  destruct (Bun.findAvailablePort bind this) as [[p0|] effects]; cbn [fst snd].
  - destruct H as (Hr & Hp & Hb & Hq & Ha).
    split; [| split; [| exact Ha]].
    + intros p. split.
      * intros [= <-]. split; [exact Hr|]. split; [split; assumption|].
        intros q Hrange. apply Hnot, Hq, Hrange.
      * intros (Hr' & Hf & Hleast).
        destruct (Z.lt_trichotomy p p0) as [Hlt | [-> | Hgt]];
          [| reflexivity |].
        -- exfalso. apply (Hnot p); [apply Hq; lia | exact Hf].
        -- exfalso. apply (Hleast p0); [lia | split; assumption].
    + split; [discriminate|].
      intros Hnone. exfalso. apply (Hnone p0 Hr). split; assumption.
  - destruct H as (Hq & Ha). split; [| split; [| exact Ha]].
    + intros p. split; [discriminate|].
      intros (Hr & Hf & _). exfalso. apply (Hnot p); auto.
    + split; [| reflexivity]. intros _ q Hr. apply Hnot, Hq, Hr.
Qed.

Lemma Bun_findAvailablePort_least_free_witness :
  let this := new_ProxBoardService 3000 10000 10002 (js "secret") in
  let bind := fun port =>
    if port =? 10000 then BindError "EACCES" "bind EACCES" else Bound in
  fst (Bun.findAvailablePort bind this) = Some 10001.
Proof.
  intros this bind.
  apply (proj1 (Bun_findAvailablePort_least_free bind this)).
  split; [cbn; lia|]. split; [split; reflexivity|].
  intros q Hq [_ Hb]. cbn in Hq. assert (q = 10000) as -> by lia.
  discriminate.
Defined.

(** X8. The Node allocator returns a port exactly when that port is the
    least port of the range that the registry does not hold and whose bind
    either succeeds or fails with [EADDRINUSE], and returns none exactly
    when the range has no such port. *)
Theorem Node_findAvailablePort_least_taken (bind : Z -> BindResult)
    (this : ProxBoardService) :
  let taken q :=
    Map_has (activeProxies this) q = false /\ Node_takes (bind q) = true in
  (forall p,
     fst (Node.findAvailablePort bind this) = Some p
     <-> minProxyPort this <= p <= maxProxyPort this
         /\ taken p
         /\ forall q, minProxyPort this <= q < p -> ~ taken q)
  /\ (fst (Node.findAvailablePort bind this) = None
      <-> forall q, minProxyPort this <= q <= maxProxyPort this -> ~ taken q).
Proof.
  intros taken.
  pose proof (Node_findAvailablePort_spec bind this) as H.
  assert (Hnot : forall q,
             Map_has (activeProxies this) q = true
             \/ Node_takes (bind q) = false ->
             ~ taken q).
  { intros q [Hq | Hq] [Hf Hb]; congruence. }
  destruct (Node.findAvailablePort bind this) as [[p0|] effects]; cbn [fst].
  - destruct H as (Hr & Hp & Hb & Hq & Ha). split.
    + intros p. split.
      * intros [= <-]. split; [exact Hr|]. split; [split; assumption|].
        intros q Hrange. apply Hnot, Hq, Hrange.
      * intros (Hr' & Hf & Hleast).
        destruct (Z.lt_trichotomy p p0) as [Hlt | [-> | Hgt]];
          [| reflexivity |].
        -- exfalso. apply (Hnot p); [apply Hq; lia | exact Hf].
        -- exfalso. apply (Hleast p0); [lia | split; assumption].
    + split; [discriminate|].
      intros Hnone. exfalso. apply (Hnone p0 Hr). split; assumption.
  - destruct H as (Hq & Ha). split.
    + intros p. split; [discriminate|].
      intros (Hr & Hf & _). exfalso. apply (Hnot p); auto.
    + split; [| reflexivity]. intros _ q Hr. apply Hnot, Hq, Hr.
Qed.

Lemma Node_findAvailablePort_least_taken_witness :
  let this := new_ProxBoardService 3000 10000 10002 (js "secret") in
  let bind := fun port =>
    if port =? 10000 then BindError "EACCES" "bind EACCES"
    else BindError "EADDRINUSE" "bind EADDRINUSE" in
  fst (Node.findAvailablePort bind this) = Some 10001.
Proof.
  intros this bind.
  apply (proj1 (Node_findAvailablePort_least_taken bind this)).
  split; [cbn; lia|]. split; [split; reflexivity|].
  intros q Hq [_ Hb]. cbn in Hq. assert (q = 10000) as -> by lia.
  discriminate.
Defined.

(** X9. The two allocators return the same port whenever no bind fails
    with [EADDRINUSE]. *)
Theorem allocators_agree_without_EADDRINUSE (bind : Z -> BindResult)
    (this : ProxBoardService) :
  (forall q code message, bind q = BindError code message ->
                          code <> "EADDRINUSE"%string) ->
  fst (Node.findAvailablePort bind this) = fst (Bun.findAvailablePort bind this).
Proof.
  intros Hno. unfold Node.findAvailablePort, Bun.findAvailablePort.
  generalize (Z.to_nat (maxProxyPort this - minProxyPort this + 1)) as n.
  generalize (minProxyPort this) as port. intros port n. revert port.
  induction n as [|n IH]; intros port;
    cbn [Node.findAvailablePort_from Bun.findAvailablePort_from];
    [reflexivity|].
  destruct (Map_has (activeProxies this) port); [apply IH|].
  destruct (bind port) as [|code message] eqn:E; [reflexivity|].
  destruct (String.eqb_spec code "EADDRINUSE") as [Hc | Hc].
  - exfalso. eapply Hno; eauto.
  - specialize (IH (port + 1)).
    destruct (Node.findAvailablePort_from bind this (port + 1) n).
    destruct (Bun.findAvailablePort_from bind this (port + 1) n).
    exact IH.
Qed.

Lemma allocators_agree_without_EADDRINUSE_witness :
  let this := new_ProxBoardService 3000 10000 10002 (js "secret") in
  let bind := fun port =>
    if port =? 10000 then BindError "EACCES" "bind EACCES" else Bound in
  fst (Node.findAvailablePort bind this) = fst (Bun.findAvailablePort bind this).
Proof.
  intros this bind.
  apply (allocators_agree_without_EADDRINUSE bind this).
  intros q code message. unfold bind.
  destruct (q =? 10000); [| discriminate].
  intros [= <- _]. discriminate.
Defined.

(** * More of the registry *)

Lemma with_activeProxies_id (this : ProxBoardService) :
  with_activeProxies this (activeProxies this) = this.
Proof. destruct this; reflexivity. Qed.

Lemma with_activeProxies_twice (this : ProxBoardService)
    (m m' : gmap Z ActiveProxy) :
  with_activeProxies (with_activeProxies this m) m' = with_activeProxies this m'.
Proof. reflexivity. Qed.

Lemma Bun_allocated_unregistered (probe : Z -> BindResult)
    (this : ProxBoardService) (p : Z) :
  fst (Bun.findAvailablePort probe this) = Some p ->
  activeProxies this !! p = None
  /\ minProxyPort this <= p <= maxProxyPort this.
Proof.
  intros Hp. pose proof (Bun_findAvailablePort_spec probe this) as H.
  destruct (Bun.findAvailablePort probe this) as [found probes].
  cbn [fst] in Hp. subst found. destruct H as (Hr & Hf & _).
  split; [apply Map_has_false, Hf | exact Hr].
Qed.

Lemma Node_allocated_unregistered (probe : Z -> BindResult)
    (this : ProxBoardService) (p : Z) :
  fst (Node.findAvailablePort probe this) = Some p ->
  activeProxies this !! p = None
  /\ minProxyPort this <= p <= maxProxyPort this.
Proof.
  intros Hp. pose proof (Node_findAvailablePort_spec probe this) as H.
  destruct (Node.findAvailablePort probe this) as [found probes].
  cbn [fst] in Hp. subst found. destruct H as (Hr & Hf & _).
  split; [apply Map_has_false, Hf | exact Hr].
Qed.

(** A create that returns a port registers the session on a port that the
    registry did not hold; one that returns none leaves the service as it
    is. *)
Lemma Bun_createProxy_registry (probe bind : Z -> BindResult)
    (proxyHostAddress proxyHostPort : js_value) (this : ProxBoardService) :
  match Response.proxyPort
          (fst (fst (Bun.createProxy probe bind proxyHostAddress
                       proxyHostPort this))) with
  | Some p =>
      activeProxies this !! p = None
      /\ minProxyPort this <= p <= maxProxyPort this
      /\ snd (fst (Bun.createProxy probe bind proxyHostAddress
                     proxyHostPort this))
         = with_activeProxies this
             (<[p := session p proxyHostAddress proxyHostPort]>
                (activeProxies this))
  | None =>
      snd (fst (Bun.createProxy probe bind proxyHostAddress
                  proxyHostPort this)) = this
  end.
Proof.
  pose proof (Bun_createProxy_cases probe bind proxyHostAddress
                proxyHostPort this) as Hc.
  destruct (Bun.createProxy probe bind proxyHostAddress proxyHostPort this)
    as [[r this'] effects].
  cbn [fst snd].
  destruct Hc as [(-> & -> & _) | [(-> & -> & _)
                 | [(q & _ & _ & -> & _ & ->)
                   | (q & Hq & _ & _ & -> & ->)]]];
    try reflexivity.
  destruct (Bun_allocated_unregistered probe this q Hq) as [Hnone Hrange].
  auto.
Qed.

(** The same in the Node service for a create that runs with no other
    handler between its awaits. A create whose socket does not bind stays
    pending: its [error] listener deletes the key that the allocator has
    just found unregistered. *)
Lemma Node_createProxy_registry (probe bind : Z -> BindResult)
    (proxyHostAddress proxyHostPort : js_value) (rt : Node.Runtime) :
  match fst (fst (Node.createProxy probe bind proxyHostAddress
                    proxyHostPort rt)) with
  | Node.Fulfilled r =>
      match Response.proxyPort r with
      | Some p =>
          activeProxies (Node.this rt) !! p = None
          /\ minProxyPort (Node.this rt) <= p <= maxProxyPort (Node.this rt)
          /\ snd (fst (Node.createProxy probe bind proxyHostAddress
                         proxyHostPort rt))
             = {| Node.this :=
                    with_activeProxies (Node.this rt)
                      (<[p := session p proxyHostAddress proxyHostPort]>
                         (activeProxies (Node.this rt)));
                  Node.closing := Node.closing rt |}
      | None =>
          snd (fst (Node.createProxy probe bind proxyHostAddress
                      proxyHostPort rt)) = rt
      end
  | Node.Pending =>
      snd (fst (Node.createProxy probe bind proxyHostAddress
                  proxyHostPort rt)) = rt
  end.
Proof.
  pose proof (Node_createProxy_cases probe bind proxyHostAddress
                proxyHostPort rt) as Hc.
  destruct (Node.createProxy probe bind proxyHostAddress proxyHostPort rt)
    as [[r rt'] effects].
  cbn [fst snd].
  destruct Hc as [(-> & -> & _) | [(-> & -> & _)
                 | [(q & Hq & _ & -> & ->)
                   | (q & r' & Hq & _ & -> & _ & -> & ->)]]];
    try reflexivity.
  - destruct (Node_allocated_unregistered probe (Node.this rt) q Hq)
      as [Hnone _].
    rewrite (delete_id _ _ Hnone), with_activeProxies_id.
    destruct rt; reflexivity.
  - destruct (Node_allocated_unregistered probe (Node.this rt) q Hq)
      as [Hnone Hrange].
    auto.
Qed.

(** X10. A create that runs from its start to its end with no other
    handler in between never replaces or removes a session: every session
    of the registry is there afterwards, unchanged. When it returns a
    port, the registry did not hold that port and has one session more;
    when it returns none, the service is as it was; in the Node service a
    create whose socket fails to bind stays pending and leaves the service
    as it was. The Node service gives this up when two creates overlap:
    [createProxy] awaits the allocator and then the bind, so both
    allocators can choose the same port before either socket is bound;
    the create that binds registers its session, and the [error] listener
    of the other then deletes that session while its promise stays
    pending. *)
Theorem create_alone_keeps_the_sessions (probe bind : Z -> BindResult)
    (proxyHostAddress proxyHostPort : js_value)
    (this : ProxBoardService) (rt : Node.Runtime) :
  (forall q proxy,
     activeProxies this !! q = Some proxy ->
     activeProxies
       (snd (fst (Bun.createProxy probe bind proxyHostAddress
                    proxyHostPort this))) !! q = Some proxy)
  /\ (forall p,
        Response.proxyPort
          (fst (fst (Bun.createProxy probe bind proxyHostAddress
                       proxyHostPort this))) = Some p ->
        activeProxies this !! p = None
        /\ size (activeProxies
                   (snd (fst (Bun.createProxy probe bind proxyHostAddress
                                proxyHostPort this))))
           = S (size (activeProxies this)))
  /\ (Response.proxyPort
        (fst (fst (Bun.createProxy probe bind proxyHostAddress
                     proxyHostPort this))) = None ->
      snd (fst (Bun.createProxy probe bind proxyHostAddress
                  proxyHostPort this)) = this)
  /\ (forall q proxy,
        activeProxies (Node.this rt) !! q = Some proxy ->
        activeProxies
          (Node.this
             (snd (fst (Node.createProxy probe bind proxyHostAddress
                          proxyHostPort rt)))) !! q = Some proxy)
  /\ (forall r p,
        fst (fst (Node.createProxy probe bind proxyHostAddress
                    proxyHostPort rt)) = Node.Fulfilled r ->
        Response.proxyPort r = Some p ->
        activeProxies (Node.this rt) !! p = None
        /\ size (activeProxies
                   (Node.this
                      (snd (fst (Node.createProxy probe bind proxyHostAddress
                                   proxyHostPort rt)))))
           = S (size (activeProxies (Node.this rt))))
  /\ (fst (fst (Node.createProxy probe bind proxyHostAddress
                  proxyHostPort rt)) = Node.Pending ->
      snd (fst (Node.createProxy probe bind proxyHostAddress
                  proxyHostPort rt)) = rt)
  (* the two awaits of the Node [createProxy] *)
  /\ (forall p,
        truthy proxyHostAddress = true ->
        typeof proxyHostPort = "number"%string ->
        fst (Node.findAvailablePort probe (Node.this rt)) = Some p ->
        fst (Node.createProxy probe bind proxyHostAddress proxyHostPort rt)
        = fst (Node.createProxy_bind bind p proxyHostAddress proxyHostPort
                 rt))
  (* two creates that overlap *)
  /\ (forall p bind' address' port' code text,
        fst (Node.findAvailablePort probe (Node.this rt)) = Some p ->
        bind p = Bound ->
        bind' p = BindError code text ->
        activeProxies
          (Node.this
             (snd (fst (Node.createProxy_bind bind p proxyHostAddress
                          proxyHostPort rt)))) !! p
        = Some (session p proxyHostAddress proxyHostPort)
        /\ fst (fst (Node.createProxy_bind bind' p address' port'
                       (snd (fst (Node.createProxy_bind bind p
                                    proxyHostAddress proxyHostPort rt)))))
           = Node.Pending
        /\ activeProxies
             (Node.this
                (snd (fst (Node.createProxy_bind bind' p address' port'
                             (snd (fst (Node.createProxy_bind bind p
                                          proxyHostAddress proxyHostPort
                                          rt))))))) !! p
           = None).
Proof.
  split; [| split; [| split; [| split; [| split; [| split; [| split]]]]]].
  8:{ intros p bind' address' port' code text _ Hb Hb'.
      unfold Node.createProxy_bind. rewrite Hb. cbn [fst snd Node.this].
      rewrite Hb'.
      cbn [fst snd Node.this with_activeProxies activeProxies].
      rewrite lookup_insert_eq, lookup_delete_eq. auto. }
  7:{ intros p Ht Hn Hp. unfold Node.createProxy, Node.createProxy_bind.
      rewrite Ht, Hn.
      change (negb true || negb ("number" =? "number")%string) with false.
      cbn match.
      destruct (Node.findAvailablePort probe (Node.this rt))
        as [found probes].
      cbn [fst] in Hp. subst found.
      destruct (bind p); reflexivity. }
  all: pose proof (Bun_createProxy_registry probe bind proxyHostAddress
                     proxyHostPort this) as Hb;
    pose proof (Node_createProxy_registry probe bind proxyHostAddress
                  proxyHostPort rt) as Hn;
    destruct (Bun.createProxy probe bind proxyHostAddress proxyHostPort this)
      as [[rb this'] effects];
    destruct (Node.createProxy probe bind proxyHostAddress proxyHostPort rt)
      as [[rn rt'] effects'];
    cbn [fst snd] in *.
  - intros q proxy Hq. destruct (Response.proxyPort rb) as [p|].
    + destruct Hb as (Hnone & _ & ->). cbn [with_activeProxies activeProxies].
      rewrite lookup_insert_ne; [exact Hq | congruence].
    + rewrite Hb. exact Hq.
  - intros p Hp. rewrite Hp in Hb. destruct Hb as (Hnone & _ & ->).
    split; [exact Hnone|]. cbn [with_activeProxies activeProxies].
    apply map_size_insert_None, Hnone.
  - intros Hp. rewrite Hp in Hb. exact Hb.
  - intros q proxy Hq. destruct rn as [r|]; [| rewrite Hn; exact Hq].
    destruct (Response.proxyPort r) as [p|]; [| rewrite Hn; exact Hq].
    destruct Hn as (Hnone & _ & ->).
    cbn [Node.this with_activeProxies activeProxies].
    rewrite lookup_insert_ne; [exact Hq | congruence].
  - intros r p -> Hp. rewrite Hp in Hn. destruct Hn as (Hnone & _ & ->).
    split; [exact Hnone|].
    cbn [Node.this with_activeProxies activeProxies].
    apply map_size_insert_None, Hnone.
  - intros ->. exact Hn.
Qed.

Lemma create_alone_keeps_the_sessions_witness :
  let this := new_ProxBoardService 3000 10000 10002 (js "secret") in
  let bound : Z -> BindResult := fun _ => Bound in
  let failing : Z -> BindResult := fun _ => BindError "EACCES" "bind EACCES" in
  let in_use : Z -> BindResult :=
    fun _ => BindError "EADDRINUSE" "bind EADDRINUSE" in
  let host := JString (js "127.0.0.1") in
  let s := session 10000 host (JNumber 9999) in
  let one := with_activeProxies this (<[10000 := s]> ∅) in
  let won :=
    snd (fst (Node.createProxy_bind bound 10000 host (JNumber 9999)
                (Node.started this))) in
  activeProxies
    (snd (fst (Bun.createProxy bound bound host (JNumber 7) one))) !! 10000
  = Some s
  /\ (activeProxies one !! 10001 = None
      /\ size (activeProxies
                 (snd (fst (Bun.createProxy bound bound host (JNumber 7) one))))
         = S (size (activeProxies one)))
  /\ snd (fst (Bun.createProxy bound failing host (JNumber 7) one)) = one
  /\ activeProxies
       (Node.this
          (snd (fst (Node.createProxy bound bound host (JNumber 7)
                       (Node.started one))))) !! 10000 = Some s
  /\ (activeProxies (Node.this (Node.started one)) !! 10001 = None
      /\ size (activeProxies
                 (Node.this
                    (snd (fst (Node.createProxy bound bound host (JNumber 7)
                                 (Node.started one))))))
         = S (size (activeProxies (Node.this (Node.started one)))))
  /\ snd (fst (Node.createProxy bound failing host (JNumber 7)
                 (Node.started one))) = Node.started one
  /\ fst (Node.createProxy bound bound host (JNumber 9999)
            (Node.started this))
     = fst (Node.createProxy_bind bound 10000 host (JNumber 9999)
              (Node.started this))
  /\ (activeProxies (Node.this won) !! 10000 = Some s
      /\ fst (fst (Node.createProxy_bind in_use 10000 host (JNumber 7) won))
         = Node.Pending
      /\ activeProxies
           (Node.this
              (snd (fst (Node.createProxy_bind in_use 10000 host (JNumber 7)
                           won)))) !! 10000
         = None).
Proof.
  intros this bound failing in_use host s one won.
  split; [| split; [| split; [| split; [| split; [| split; [| split]]]]]].
  - apply (create_alone_keeps_the_sessions bound bound host (JNumber 7) one
             (Node.started one)).
    reflexivity.
  - apply (create_alone_keeps_the_sessions bound bound host (JNumber 7) one
             (Node.started one)).
    vm_compute. reflexivity.
  - apply (create_alone_keeps_the_sessions bound failing host (JNumber 7) one
             (Node.started one)).
    vm_compute. reflexivity.
  - apply (create_alone_keeps_the_sessions bound bound host (JNumber 7) one
             (Node.started one)).
    reflexivity.
  - eapply (proj1 (proj2 (proj2 (proj2 (proj2
              (create_alone_keeps_the_sessions bound bound host (JNumber 7)
                 one (Node.started one))))))).
    + vm_compute. reflexivity.
    + reflexivity.
  - apply (create_alone_keeps_the_sessions bound failing host (JNumber 7) one
             (Node.started one)).
    vm_compute. reflexivity.
  - apply (proj1 (proj2 (proj2 (proj2 (proj2 (proj2 (proj2
              (create_alone_keeps_the_sessions bound bound host (JNumber 9999)
                 this (Node.started this)))))))) 10000);
      reflexivity.
  - apply (proj2 (proj2 (proj2 (proj2 (proj2 (proj2 (proj2
              (create_alone_keeps_the_sessions bound bound host (JNumber 9999)
                 this (Node.started this)))))))) 10000 in_use host (JNumber 7)
             "EADDRINUSE"%string "bind EADDRINUSE"%string);
      reflexivity.
Defined.

(** X11. A create that returns a port, followed by a stop on that port,
    leaves the service exactly as it was before the create; in the Node
    service, once the callback of [close] has run. *)
Theorem create_then_stop_restores (probe bind : Z -> BindResult)
    (proxyHostAddress proxyHostPort : js_value)
    (this : ProxBoardService) (rt : Node.Runtime) :
  (forall p,
     Response.proxyPort
       (fst (fst (Bun.createProxy probe bind proxyHostAddress
                    proxyHostPort this))) = Some p ->
     snd (fst (Bun.stopProxy (JNumber p)
                 (snd (fst (Bun.createProxy probe bind proxyHostAddress
                              proxyHostPort this))))) = this)
  /\ (forall r p,
        Node.closing rt = [] ->
        fst (fst (Node.createProxy probe bind proxyHostAddress
                    proxyHostPort rt)) = Node.Fulfilled r ->
        Response.proxyPort r = Some p ->
        exists r' rt' effects,
          Node.stopProxy (JNumber p)
            (snd (fst (Node.createProxy probe bind proxyHostAddress
                         proxyHostPort rt)))
          = Ok (r', rt', effects)
          /\ fst (Node.tick rt') = rt).
Proof.
  pose proof (Bun_createProxy_registry probe bind proxyHostAddress
                proxyHostPort this) as Hb.
  pose proof (Node_createProxy_registry probe bind proxyHostAddress
                proxyHostPort rt) as Hn.
  destruct (Bun.createProxy probe bind proxyHostAddress proxyHostPort this)
    as [[rb this'] effects].
  destruct (Node.createProxy probe bind proxyHostAddress proxyHostPort rt)
    as [[rn rt'] effects'].
  cbn [fst snd] in *. split.
  - intros p Hp. rewrite Hp in Hb. destruct Hb as (Hnone & _ & ->).
    unfold Bun.stopProxy.
    cbn [Map_get Map_delete with_activeProxies activeProxies].
    rewrite lookup_insert_eq. cbn [fst snd].
    rewrite with_activeProxies_twice, (delete_insert_id _ _ _ Hnone).
    apply with_activeProxies_id.
  - intros r p Hclosing -> Hp. rewrite Hp in Hn.
    destruct Hn as (Hnone & _ & ->).
    unfold Node.stopProxy, Node.is_closing.
    cbn [Map_get Node.this Node.closing with_activeProxies activeProxies].
    rewrite lookup_insert_eq, Hclosing. cbn [existsb app].
    eexists _, _, _. split; [reflexivity|].
    unfold Node.tick.
    cbn [Node.closing Node.this Node.close_callbacks Map_delete
           with_activeProxies activeProxies fst].
    rewrite (delete_insert_id _ _ _ Hnone).
    destruct rt as [service closing]. cbn in Hclosing |- *. subst closing.
    f_equal. destruct service; reflexivity.
Qed.

Lemma create_then_stop_restores_witness :
  let this := new_ProxBoardService 3000 10000 10002 (js "secret") in
  let bound : Z -> BindResult := fun _ => Bound in
  let host := JString (js "127.0.0.1") in
  snd (fst (Bun.stopProxy (JNumber 10000)
              (snd (fst (Bun.createProxy bound bound host (JNumber 9999)
                           this))))) = this
  /\ exists r' rt' effects,
       Node.stopProxy (JNumber 10000)
         (snd (fst (Node.createProxy bound bound host (JNumber 9999)
                      (Node.started this))))
       = Ok (r', rt', effects)
       /\ fst (Node.tick rt') = Node.started this.
Proof.
  intros this bound host. split.
  - apply (create_then_stop_restores bound bound host (JNumber 9999) this
             (Node.started this)).
    vm_compute. reflexivity.
  - eapply (proj2 (create_then_stop_restores bound bound host (JNumber 9999)
                     this (Node.started this))).
    + reflexivity.
    + vm_compute. reflexivity.
    + reflexivity.
Defined.

(** X12. A stop whose [proxyPort] is not a number (a string of digits, or
    a field that is missing) answers NotFound and changes nothing, whatever
    the registry holds; and a stop changes no session other than the one
    at its port. *)
Theorem stop_touches_one_session (proxyPort : js_value)
    (this : ProxBoardService) (rt : Node.Runtime) :
  ((forall n, proxyPort <> JNumber n) ->
   Bun.stopProxy proxyPort this = (NotFound, this, [])
   /\ Node.stopProxy proxyPort rt = Ok (NotFound, rt, []))
  /\ (forall q,
        proxyPort <> JNumber q ->
        activeProxies (snd (fst (Bun.stopProxy proxyPort this))) !! q
        = activeProxies this !! q)
  /\ (forall q r rt' effects,
        proxyPort <> JNumber q ->
        Node.closing rt = [] ->
        Node.stopProxy proxyPort rt = Ok (r, rt', effects) ->
        activeProxies (Node.this (fst (Node.tick rt'))) !! q
        = activeProxies (Node.this rt) !! q).
Proof.
  split; [| split].
  - intros Hn. unfold Bun.stopProxy, Node.stopProxy.
    destruct proxyPort; try (split; reflexivity).
    exfalso. eapply Hn. reflexivity.
  - intros q Hq. unfold Bun.stopProxy.
    destruct (Map_get (activeProxies this) proxyPort); [| reflexivity].
    cbn [fst snd with_activeProxies activeProxies].
    destruct proxyPort; try reflexivity.
    cbn [Map_delete]. apply lookup_delete_ne. congruence.
  - intros q r rt' effects Hq Hclosing. unfold Node.stopProxy.
    destruct (Map_get (activeProxies (Node.this rt)) proxyPort);
      [| intros [= _ <- _]; unfold Node.tick; rewrite Hclosing; reflexivity].
    destruct (Node.is_closing rt _); [discriminate|].
    intros [= _ <- _]. unfold Node.tick. cbn [Node.closing Node.this].
    rewrite Hclosing. cbn [app Node.close_callbacks fst Node.this
                             with_activeProxies activeProxies].
    destruct proxyPort; try reflexivity.
    cbn [Map_delete]. apply lookup_delete_ne. congruence.
Qed.

Lemma stop_touches_one_session_witness :
  let this := new_ProxBoardService 3000 10000 10002 (js "secret") in
  let host := JString (js "127.0.0.1") in
  let two :=
    with_activeProxies this
      (<[10000 := session 10000 host (JNumber 9999)]>
         (<[10001 := session 10001 host (JNumber 9998)]> ∅)) in
  (Bun.stopProxy (JString (js "10000")) two = (NotFound, two, [])
   /\ Node.stopProxy (JString (js "10000")) (Node.started two)
      = Ok (NotFound, Node.started two, []))
  /\ activeProxies (snd (fst (Bun.stopProxy (JNumber 10000) two))) !! 10001
     = activeProxies two !! 10001
  /\ activeProxies
       (Node.this
          (fst (Node.tick
                  {| Node.this := two; Node.closing := [JNumber 10000] |})))
       !! 10001
     = activeProxies (Node.this (Node.started two)) !! 10001.
Proof.
  intros this host two. split; [| split].
  - apply (stop_touches_one_session (JString (js "10000")) two
             (Node.started two)).
    discriminate.
  - apply (stop_touches_one_session (JNumber 10000) two (Node.started two)).
    discriminate.
  - apply (proj2 (proj2 (stop_touches_one_session (JNumber 10000) two
                           (Node.started two)))
             10001
             (response "success" "stop"
                [Text "Proxy on port "; Hole (JNumber 10000); Text " stopped."])
             {| Node.this := two; Node.closing := [JNumber 10000] |}
             [udp_close {| localPort := 10000 |}]).
    + discriminate.
    + reflexivity.
    + vm_compute. reflexivity.
Defined.

(** X13. Two creates in a row that both return a port return two different
    ports, and both sessions are registered afterwards. *)
Theorem successive_creates_return_distinct_ports
    (probe1 bind1 probe2 bind2 : Z -> BindResult)
    (address1 port1 address2 port2 : js_value)
    (this : ProxBoardService) (rt : Node.Runtime) :
  (forall p1 p2,
     Response.proxyPort
       (fst (fst (Bun.createProxy probe1 bind1 address1 port1 this)))
     = Some p1 ->
     Response.proxyPort
       (fst (fst (Bun.createProxy probe2 bind2 address2 port2
                    (snd (fst (Bun.createProxy probe1 bind1 address1 port1
                                 this))))))
     = Some p2 ->
     p1 <> p2
     /\ activeProxies
          (snd (fst (Bun.createProxy probe2 bind2 address2 port2
                       (snd (fst (Bun.createProxy probe1 bind1 address1 port1
                                    this)))))) !! p1
        = Some (session p1 address1 port1)
     /\ activeProxies
          (snd (fst (Bun.createProxy probe2 bind2 address2 port2
                       (snd (fst (Bun.createProxy probe1 bind1 address1 port1
                                    this)))))) !! p2
        = Some (session p2 address2 port2))
  /\ (forall r1 r2 p1 p2,
        fst (fst (Node.createProxy probe1 bind1 address1 port1 rt))
        = Node.Fulfilled r1 ->
        Response.proxyPort r1 = Some p1 ->
        fst (fst (Node.createProxy probe2 bind2 address2 port2
                    (snd (fst (Node.createProxy probe1 bind1 address1 port1
                                 rt)))))
        = Node.Fulfilled r2 ->
        Response.proxyPort r2 = Some p2 ->
        p1 <> p2
        /\ activeProxies
             (Node.this
                (snd (fst (Node.createProxy probe2 bind2 address2 port2
                             (snd (fst (Node.createProxy probe1 bind1 address1
                                          port1 rt))))))) !! p1
           = Some (session p1 address1 port1)
        /\ activeProxies
             (Node.this
                (snd (fst (Node.createProxy probe2 bind2 address2 port2
                             (snd (fst (Node.createProxy probe1 bind1 address1
                                          port1 rt))))))) !! p2
           = Some (session p2 address2 port2)).
Proof.
  split.
  - intros p1 p2 H1 H2.
    pose proof (Bun_createProxy_registry probe1 bind1 address1 port1 this)
      as Ha.
    rewrite H1 in Ha. destruct Ha as (_ & _ & Ha).
    pose proof (Bun_createProxy_registry probe2 bind2 address2 port2
                  (snd (fst (Bun.createProxy probe1 bind1 address1 port1
                               this)))) as Hb.
    rewrite H2 in Hb. destruct Hb as (Hnone & _ & Hb).
    rewrite Hb. rewrite Ha in Hnone |- *.
    cbn [with_activeProxies activeProxies] in Hnone |- *.
    assert (Hne : p1 <> p2).
    { intros ->. rewrite lookup_insert_eq in Hnone. discriminate. }
    split; [exact Hne|]. split.
    + rewrite lookup_insert_ne by congruence. apply lookup_insert_eq.
    + apply lookup_insert_eq.
  - intros r1 r2 p1 p2 H1 Hp1 H2 Hp2.
    pose proof (Node_createProxy_registry probe1 bind1 address1 port1 rt)
      as Ha.
    rewrite H1, Hp1 in Ha. destruct Ha as (_ & _ & Ha).
    pose proof (Node_createProxy_registry probe2 bind2 address2 port2
                  (snd (fst (Node.createProxy probe1 bind1 address1 port1
                               rt)))) as Hb.
    rewrite H2, Hp2 in Hb. destruct Hb as (Hnone & _ & Hb).
    rewrite Hb. rewrite Ha in Hnone |- *.
    cbn [Node.this with_activeProxies activeProxies] in Hnone |- *.
    assert (Hne : p1 <> p2).
    { intros ->. rewrite lookup_insert_eq in Hnone. discriminate. }
    split; [exact Hne|]. split.
    + rewrite lookup_insert_ne by congruence. apply lookup_insert_eq.
    + apply lookup_insert_eq.
Qed.

Lemma successive_creates_return_distinct_ports_witness :
  let this := new_ProxBoardService 3000 10000 10002 (js "secret") in
  let bound : Z -> BindResult := fun _ => Bound in
  let host := JString (js "127.0.0.1") in
  let bun :=
    snd (fst (Bun.createProxy bound bound host (JNumber 9998)
                (snd (fst (Bun.createProxy bound bound host (JNumber 9999)
                             this))))) in
  let node :=
    snd (fst (Node.createProxy bound bound host (JNumber 9998)
                (snd (fst (Node.createProxy bound bound host (JNumber 9999)
                             (Node.started this)))))) in
  (10000 <> 10001
   /\ activeProxies bun !! 10000 = Some (session 10000 host (JNumber 9999))
   /\ activeProxies bun !! 10001 = Some (session 10001 host (JNumber 9998)))
  /\ (10000 <> 10001
      /\ activeProxies (Node.this node) !! 10000
         = Some (session 10000 host (JNumber 9999))
      /\ activeProxies (Node.this node) !! 10001
         = Some (session 10001 host (JNumber 9998))).
Proof.
  intros this bound host bun node. split.
  - apply (successive_creates_return_distinct_ports bound bound bound bound
             host (JNumber 9999) host (JNumber 9998) this (Node.started this));
      vm_compute; reflexivity.
  - eapply (proj2 (successive_creates_return_distinct_ports bound bound bound
                     bound host (JNumber 9999) host (JNumber 9998) this
                     (Node.started this)));
      vm_compute; reflexivity.
Defined.

(** * Listing and shutting down *)

(** X14. [listProxies] lists the registry: a port and a proxy host are in
    the list exactly when the registry holds a session of that proxy host
    on that port, no port is listed twice, and the list has as many
    entries as the registry; the two services list alike. After a create
    that returns a port, the list holds that port with the proxy host of
    the request. *)
Theorem listProxies_lists_the_registry (this : ProxBoardService) :
  exists proxies,
    Response.proxies (Bun.listProxies this) = Some proxies
    /\ Node.listProxies this = Bun.listProxies this
    /\ (forall port host,
          In (port, host) proxies
          <-> exists proxy, activeProxies this !! port = Some proxy
                            /\ proxyHost proxy = host)
    /\ NoDup (map fst proxies)
    /\ length proxies = size (activeProxies this)
    /\ (forall probe bind address port p,
          Response.proxyPort
            (fst (fst (Bun.createProxy probe bind address port this)))
          = Some p ->
          exists listed,
            Response.proxies
              (Bun.listProxies
                 (snd (fst (Bun.createProxy probe bind address port this))))
            = Some listed
            /\ In (p, {| Endpoint.address := address;
                         Endpoint.port := port |}) listed).
Proof.
  eexists. split; [reflexivity|]. split; [reflexivity|].
  assert (Hin : forall (m : gmap Z ActiveProxy) port host,
             In (port, host)
                (map (fun '(port, proxy) => (port, proxyHost proxy))
                     (map_to_list m))
             <-> exists proxy, m !! port = Some proxy
                               /\ proxyHost proxy = host).
  { intros m port host. rewrite in_map_iff. split.
    - intros ([q proxy] & [= <- <-] & Hin).
      exists proxy. split; [| reflexivity].
      apply elem_of_map_to_list, list_elem_of_In, Hin.
    - intros (proxy & Hp & <-). exists (port, proxy).
      split; [reflexivity|].
      apply list_elem_of_In, elem_of_map_to_list, Hp. }
  split; [apply Hin|]. split; [| split].
  - rewrite map_map.
    rewrite (map_ext _ fst) by (intros [q proxy]; reflexivity).
    apply NoDup_fst_map_to_list.
  - rewrite length_map. apply length_map_to_list.
  - intros probe bind address port p Hp.
    pose proof (Bun_createProxy_registry probe bind address port this) as Hc.
    rewrite Hp in Hc. destruct Hc as (_ & _ & ->).
    eexists. split; [reflexivity|].
    apply Hin. exists (session p address port). split; [| reflexivity].
    cbn [with_activeProxies activeProxies]. apply lookup_insert_eq.
Qed.

Lemma listProxies_lists_the_registry_witness :
  let this := new_ProxBoardService 3000 10000 10002 (js "secret") in
  let bound : Z -> BindResult := fun _ => Bound in
  let host := JString (js "127.0.0.1") in
  exists listed,
    Response.proxies
      (Bun.listProxies
         (snd (fst (Bun.createProxy bound bound host (JNumber 9999) this))))
    = Some listed
    /\ In (10000, {| Endpoint.address := host;
                     Endpoint.port := JNumber 9999 |}) listed.
Proof.
  intros this bound host.
  destruct (listProxies_lists_the_registry this)
    as (proxies & _ & _ & _ & _ & _ & Hcreated).
  apply (Hcreated bound bound host (JNumber 9999) 10000).
  vm_compute. reflexivity.
Defined.

Lemma Bun_shutdown_loop_lookup (entries : list (Z * ActiveProxy)) :
  forall (m : gmap Z ActiveProxy) (k : Z),
    fst (Bun.shutdown_loop entries m) !! k
    = if bool_decide (k ∈ map fst entries) then None else m !! k.
Proof.
  induction entries as [|[port proxy] entries IH]; intros m k;
    cbn [Bun.shutdown_loop map fst].
  - rewrite bool_decide_eq_false_2 by apply not_elem_of_nil. reflexivity.
  - specialize (IH (delete port m) k).
    destruct (Bun.shutdown_loop entries (delete port m)) as [m' effects].
    cbn [fst] in *. rewrite IH.
    destruct (decide (k ∈ map fst entries)) as [Hk | Hk].
    + rewrite !bool_decide_eq_true_2; [reflexivity | | exact Hk].
      apply elem_of_cons. right. exact Hk.
    + rewrite (bool_decide_eq_false_2 _ Hk).
      destruct (decide (k = port)) as [-> | Hne].
      * rewrite bool_decide_eq_true_2 by (apply elem_of_cons; auto).
        apply lookup_delete_eq.
      * rewrite bool_decide_eq_false_2.
        -- apply lookup_delete_ne. congruence.
        -- intros [? | ?]%elem_of_cons; contradiction.
Qed.

Lemma Bun_shutdown_loop_closes (entries : list (Z * ActiveProxy)) :
  forall m : gmap Z ActiveProxy,
    socket_closes (snd (Bun.shutdown_loop entries m))
    = map (fun entry => proxySocket (snd entry)) entries.
Proof.
  induction entries as [|[port proxy] entries IH]; intros m;
    cbn [Bun.shutdown_loop]; [reflexivity|].
  specialize (IH (delete port m)).
  destruct (Bun.shutdown_loop entries (delete port m)) as [m' effects].
  cbn [snd] in *. cbn. rewrite <- IH. reflexivity.
Qed.

Lemma Node_shutdown_loop_lookup (entries : list (Z * ActiveProxy)) :
  forall (rt : Node.Runtime) (k : Z),
    Node.closing rt = [] ->
    Node.closing (fst (Node.shutdown_loop entries rt)) = []
    /\ activeProxies (Node.this (fst (Node.shutdown_loop entries rt))) !! k
       = (if bool_decide (k ∈ map fst entries) then None
          else activeProxies (Node.this rt) !! k)
    /\ socket_closes (snd (Node.shutdown_loop entries rt))
       = map (fun entry => proxySocket (snd entry)) entries.
Proof.
  induction entries as [|[port proxy] entries IH]; intros rt k Hclosing;
    cbn [Node.shutdown_loop map fst].
  - rewrite bool_decide_eq_false_2 by apply not_elem_of_nil. auto.
  - unfold Node.is_closing. rewrite Hclosing. cbn [existsb].
    match goal with
    | |- context [Node.shutdown_loop entries ?rt'] =>
        specialize (IH rt' k eq_refl);
        destruct (Node.shutdown_loop entries rt') as [rt'' effects]
    end.
    cbn [fst snd Node.this Node.closing with_activeProxies activeProxies] in *.
    destruct IH as (Hc & Hl & Hs). split; [exact Hc|]. split.
    + rewrite Hl.
      destruct (decide (k ∈ map fst entries)) as [Hk | Hk].
      * rewrite !bool_decide_eq_true_2; [reflexivity | | exact Hk].
        apply elem_of_cons. right. exact Hk.
      * rewrite (bool_decide_eq_false_2 _ Hk).
        destruct (decide (k = port)) as [-> | Hne].
        -- rewrite bool_decide_eq_true_2 by (apply elem_of_cons; auto).
           apply lookup_delete_eq.
        -- rewrite bool_decide_eq_false_2.
           ++ apply lookup_delete_ne. congruence.
           ++ intros [? | ?]%elem_of_cons; contradiction.
    + cbn. rewrite <- Hs. reflexivity.
Qed.

Lemma keys_of_map_to_list (m : gmap Z ActiveProxy) (k : Z) :
  (if bool_decide (k ∈ map fst (map_to_list m)) then None else m !! k)
  = (∅ : gmap Z ActiveProxy) !! k.
Proof.
  rewrite lookup_empty.
  destruct (decide (k ∈ map fst (map_to_list m))) as [Hk | Hk].
  - rewrite bool_decide_eq_true_2 by exact Hk. reflexivity.
  - rewrite bool_decide_eq_false_2 by exact Hk.
    destruct (m !! k) as [proxy|] eqn:E; [| reflexivity].
    exfalso. apply Hk. apply list_elem_of_fmap. exists (k, proxy).
    split; [reflexivity | apply elem_of_map_to_list, E].
Qed.

(** X15. [shutdown] closes the socket of every session of the registry,
    each once, and leaves the registry empty; in the Node service, when no
    [close] is under way. *)
Theorem shutdown_closes_every_session (this : ProxBoardService)
    (rt : Node.Runtime) :
  activeProxies (fst (Bun.shutdown this)) = ∅
  /\ socket_closes (snd (Bun.shutdown this))
     = map (fun entry => proxySocket (snd entry))
           (map_to_list (activeProxies this))
  /\ (forall port proxy,
        activeProxies this !! port = Some proxy ->
        In (proxySocket proxy) (socket_closes (snd (Bun.shutdown this))))
  /\ (Node.closing rt = [] ->
      activeProxies (Node.this (fst (Node.shutdown rt))) = ∅
      /\ socket_closes (snd (Node.shutdown rt))
         = map (fun entry => proxySocket (snd entry))
               (map_to_list (activeProxies (Node.this rt)))).
Proof.
  assert (Hb : socket_closes (snd (Bun.shutdown this))
               = map (fun entry => proxySocket (snd entry))
                     (map_to_list (activeProxies this))).
  { unfold Bun.shutdown.
    pose proof (Bun_shutdown_loop_closes (map_to_list (activeProxies this))
                  (activeProxies this)) as Hs.
    destruct (Bun.shutdown_loop _ _) as [m effects]. cbn [snd] in *.
    rewrite <- Hs.
    change (socket_closes (effects ++ [console_log [Text "Server stopped."]])
            = socket_closes effects).
    unfold socket_closes. rewrite omap_app. apply app_nil_r. }
  split; [| split; [exact Hb | split]].
  - unfold Bun.shutdown.
    pose proof (Bun_shutdown_loop_lookup (map_to_list (activeProxies this))
                  (activeProxies this)) as Hl.
    destruct (Bun.shutdown_loop _ _) as [m effects].
    cbn [fst with_activeProxies activeProxies] in *.
    apply map_eq. intros k. rewrite Hl. apply keys_of_map_to_list.
  - intros port proxy Hp. rewrite Hb. apply in_map_iff.
    exists (port, proxy). split; [reflexivity|].
    apply list_elem_of_In, elem_of_map_to_list, Hp.
  - intros Hclosing. unfold Node.shutdown.
    pose proof (fun k =>
                  Node_shutdown_loop_lookup
                    (map_to_list (activeProxies (Node.this rt))) rt k Hclosing)
      as Hl.
    destruct (Node.shutdown_loop _ rt) as [rt' effects].
    cbn [fst snd] in *. split.
    + apply map_eq. intros k. destruct (Hl k) as (_ & -> & _).
      apply keys_of_map_to_list.
    + destruct (Hl 0) as (_ & _ & <-). reflexivity.
Qed.

Lemma shutdown_closes_every_session_witness :
  let this := new_ProxBoardService 3000 10000 10002 (js "secret") in
  let host := JString (js "127.0.0.1") in
  let two :=
    with_activeProxies this
      (<[10000 := session 10000 host (JNumber 9999)]>
         (<[10001 := session 10001 host (JNumber 9998)]> ∅)) in
  In {| localPort := 10001 |} (socket_closes (snd (Bun.shutdown two)))
  /\ activeProxies (Node.this (fst (Node.shutdown (Node.started two)))) = ∅.
Proof.
  intros this host two. split.
  - apply (proj1 (proj2 (proj2 (shutdown_closes_every_session two
                                   (Node.started two))))
             10001 (session 10001 host (JNumber 9998))).
    reflexivity.
  - apply (shutdown_closes_every_session two (Node.started two)).
    reflexivity.
Defined.

(** * More of the control channel *)

Lemma strict_equals_string_r (v : js_value) (s : jsstring) :
  strict_equals v (JString s) = true <-> v = JString s.
Proof.
  destruct v; cbn [strict_equals]; try (split; discriminate).
  rewrite bool_decide_eq_true.
  split; [intros ->; reflexivity | intros [= ->]; reflexivity].
Qed.

(** The three outcomes of the test of the first message. *)
Lemma accepted_cases (token : jsstring) (message : ws_message) :
  (auth_message token message /\ accepted token message = Ok true)
  \/ (unreadable message /\ exists text, accepted token message = Throw text)
  \/ (~ auth_message token message /\ ~ unreadable message
      /\ accepted token message = Ok false).
Proof.
  assert (Hno : forall v,
             (forall properties, v <> JObject properties) ->
             ~ auth_message token (Json v)).
  { intros v Hv (properties & [= ->] & _). eapply Hv. reflexivity. }
  assert (Hread : forall v,
             v <> JNull -> v <> JUndefined -> ~ unreadable (Json v)).
  { intros v H1 H2 [H | [[= ->] | [= ->]]]; [discriminate | | ]; congruence. }
  unfold accepted. destruct message as [|v].
  - right. left. split; [left; reflexivity|]. eexists. reflexivity.
  - destruct v;
      try (right; left; split;
           [right; auto | eexists; reflexivity]);
      try (right; right; split; [apply Hno; discriminate|];
           split; [apply Hread; discriminate | reflexivity]).
    cbn [JSON_parse get mbind result_bind].
    destruct (strict_equals (own_property properties (js "action"))
                (JString (js "auth"))) eqn:Ea.
    + apply strict_equals_string_r in Ea.
      cbn [mbind result_bind mret result_ret].
      destruct (strict_equals (own_property properties (js "token"))
                  (JString token)) eqn:Et.
      * apply strict_equals_string_r in Et. left. split; [| reflexivity].
        exists properties. auto.
      * right. right. split; [| split; [apply Hread; discriminate
                                       | reflexivity]].
        intros (properties' & [= <-] & _ & Ht).
        apply strict_equals_string_r in Ht. congruence.
    + right. right. split; [| split; [apply Hread; discriminate
                                     | reflexivity]].
      intros (properties' & [= <-] & Ha & _).
      apply strict_equals_string_r in Ha. congruence.
Qed.

Lemma auth_message_readable (token : jsstring) (message : ws_message) :
  auth_message token message -> ~ unreadable message.
Proof.
  intros (properties & -> & _) [H | [H | H]]; discriminate.
Qed.

(** What the Bun service does with a message on a connection that is not
    authenticated, by the outcome of the test. *)
Lemma Bun_unauthenticated_message (probe bind : Z -> BindResult)
    (this : ProxBoardService) (ws : Bun.ServerWebSocket)
    (message : ws_message) :
  Bun.authenticated (Bun.data ws) = false ->
  Bun.handleWebSocketMessage probe bind this ws message
  = match accepted (accessToken this) message with
    | Ok true =>
        (this,
         {| Bun.data := {| Bun.authenticated := true;
                           Bun.authTimeout := None |};
            Bun.closed := Bun.closed ws |},
         [ws_send (reply "success" [Text "Authenticated"])])
    | Ok false =>
        (this,
         fst (Bun.close (fst invalid_token) (snd invalid_token) ws),
         ws_send (reply "error" [Text "Invalid token"])
         :: snd (Bun.close (fst invalid_token) (snd invalid_token) ws))
    | Throw text =>
        (this,
         fst (Bun.close (fst malformed_auth) (snd malformed_auth) ws),
         console_error [Text "WebSocket message error:"; Text text]
         :: ws_send (reply "error" [Text "Malformed auth message"])
         :: snd (Bun.close (fst malformed_auth) (snd malformed_auth) ws))
    end.
Proof.
  intros Hun. unfold Bun.handleWebSocketMessage, accepted. rewrite Hun.
  cbn [negb].
  destruct message as [|v]; cbn [JSON_parse mbind result_bind].
  { destruct (Bun.close _ _ ws). reflexivity. }
  destruct (get v "action") as [action|text]; cbn [mbind result_bind].
  2:{ destruct (Bun.close _ _ ws). reflexivity. }
  destruct (strict_equals action (JString (js "auth"))).
  - destruct (get v "token") as [tok|text];
      cbn [mbind result_bind mret result_ret].
    2:{ destruct (Bun.close _ _ ws). reflexivity. }
    destruct (strict_equals tok (JString (accessToken this))).
    + reflexivity.
    + destruct (Bun.close _ _ ws). reflexivity.
  - cbn [mbind result_bind mret result_ret].
    destruct (Bun.close _ _ ws). reflexivity.
Qed.

Lemma Bun_close_open (code : Z) (reason : string) (ws : Bun.ServerWebSocket) :
  Bun.closed ws = None ->
  Bun.close code reason ws
  = ({| Bun.data := {| Bun.authenticated := Bun.authenticated (Bun.data ws);
                       Bun.authTimeout := None |};
        Bun.closed := Some (code, reason) |},
     [ws_close code reason;
      console_log [Text "WebSocket client disconnected."]]).
Proof. intros H. unfold Bun.close. rewrite H. reflexivity. Qed.

Lemma Node_close_open (code : Z) (reason : string) (ws : Node.WebSocket) :
  Node.closed ws = None ->
  Node.close code reason ws
  = ({| Node.authenticated := Node.authenticated ws;
        Node.authTimeout := Node.authTimeout ws;
        Node.listener := Node.listener ws;
        Node.closed := Some (code, reason) |},
     [ws_close code reason;
      console_log [Text "WebSocket client disconnected."]]).
Proof. intros H. unfold Node.close. rewrite H. reflexivity. Qed.

(** X17. The first message on a connection decides its authentication, in
    both services: an [auth] message with the access token authenticates
    the connection and is acknowledged; a message that is not JSON, or is
    the JSON [null], closes it as malformed (4002); every other message (a
    wrong or missing token, another action, a value that is no object)
    closes it with an invalid token (4003). In no case does the message
    change the service or touch a UDP socket. *)
Theorem first_message_decides_authentication (probe bind : Z -> BindResult)
    (this : ProxBoardService) (rt : Node.Runtime)
    (ws : Bun.ServerWebSocket) (nws : Node.WebSocket)
    (message : ws_message) :
  Bun.authenticated (Bun.data ws) = false -> Bun.closed ws = None ->
  Node.authenticated nws = false -> Node.closed nws = None ->
  Node.listener nws = Node.FirstMessage ->
  let '(this', ws', effects) :=
    Bun.handleWebSocketMessage probe bind this ws message in
  let '(rt', nws', neffects) :=
    Node.message_event probe bind rt nws message in
  this' = this /\ rt' = rt
  /\ List.filter is_udp effects = [] /\ List.filter is_udp neffects = []
  /\ (auth_message (accessToken this) message ->
      (Bun.authenticated (Bun.data ws'), Bun.closed ws',
       replies effects, closes effects)
      = (true, None, [reply "success" [Text "Authenticated"]], []))
  /\ (unreadable message ->
      (Bun.authenticated (Bun.data ws'), Bun.closed ws',
       replies effects, closes effects)
      = (false, Some malformed_auth,
         [reply "error" [Text "Malformed auth message"]], [malformed_auth]))
  /\ (~ auth_message (accessToken this) message -> ~ unreadable message ->
      (Bun.authenticated (Bun.data ws'), Bun.closed ws',
       replies effects, closes effects)
      = (false, Some invalid_token,
         [reply "error" [Text "Invalid token"]], [invalid_token]))
  /\ (auth_message (accessToken (Node.this rt)) message ->
      (Node.authenticated nws', Node.closed nws', Node.listener nws',
       replies neffects, closes neffects)
      = (true, None, Node.Commands,
         [reply "success" [Text "Authenticated"]], []))
  /\ (unreadable message ->
      (Node.authenticated nws', Node.closed nws', Node.listener nws',
       replies neffects, closes neffects)
      = (false, Some malformed_auth, Node.NoListener,
         [reply "error" [Text "Malformed auth message"]], [malformed_auth]))
  /\ (~ auth_message (accessToken (Node.this rt)) message ->
      ~ unreadable message ->
      (Node.authenticated nws', Node.closed nws', Node.listener nws',
       replies neffects, closes neffects)
      = (false, Some invalid_token, Node.NoListener,
         [reply "error" [Text "Invalid token"]], [invalid_token])).
Proof.
  intros Hun Hopen Hnun Hnopen Hfirst.
  rewrite (Bun_unauthenticated_message probe bind this ws message Hun).
  rewrite !Bun_close_open by exact Hopen. rewrite Hun.
  unfold Node.message_event, Node.firstMessage. rewrite Hfirst.
  change (data ← JSON_parse message;
          action ← get data "action";
          if strict_equals action (JString (js "auth"))
          then token ← get data "token";
               mret (strict_equals token (JString (accessToken (Node.this rt))))
          else mret false)
    with (accepted (accessToken (Node.this rt)) message).
  rewrite !Node_close_open by exact Hnopen.
  cbn [Node.authenticated Node.authTimeout Node.listener Node.closed].
  rewrite Hnun.
  pose proof (auth_message_readable (accessToken this) message) as Hr.
  pose proof (auth_message_readable (accessToken (Node.this rt)) message)
    as Hr'.
  destruct (accepted_cases (accessToken this) message)
    as [[Hb ->] | [[Hb [text ->]] | (Hb1 & Hb2 & ->)]];
    destruct (accepted_cases (accessToken (Node.this rt)) message)
      as [[Hn ->] | [[Hn [text' ->]] | (Hn1 & Hn2 & ->)]];
    cbn [fst snd Bun.data Bun.authenticated Bun.closed Node.authenticated
           Node.closed Node.listener];
    rewrite ?Hopen, ?Hnopen;
    repeat split; intros;
    try reflexivity;
    exfalso; tauto.
Qed.

Lemma first_message_decides_authentication_witness :
  let this := new_ProxBoardService 3000 10000 10002 (js "secret") in
  let bound : Z -> BindResult := fun _ => Bound in
  let ws := fst (Bun.handleWebSocketOpen Bun.upgraded) in
  let nws := fst Node.connection in
  Bun.closed
    (snd (fst (Bun.handleWebSocketMessage bound bound this ws
                 (Json (JNumber 5))))) = Some invalid_token
  /\ Node.closed
       (snd (fst (Node.message_event bound bound (Node.started this) nws
                    (Json JNull)))) = Some malformed_auth.
Proof.
  intros this bound ws nws.
  pose proof (first_message_decides_authentication bound bound this
                (Node.started this) ws nws (Json (JNumber 5))
                eq_refl eq_refl eq_refl eq_refl eq_refl) as H5.
  pose proof (first_message_decides_authentication bound bound this
                (Node.started this) ws nws (Json JNull)
                eq_refl eq_refl eq_refl eq_refl eq_refl) as Hnull.
  destruct (Bun.handleWebSocketMessage bound bound this ws (Json (JNumber 5)))
    as [[this5 ws5] effects5].
  destruct (Node.message_event bound bound (Node.started this) nws
              (Json (JNumber 5))) as [[rt5 nws5] neffects5].
  destruct (Bun.handleWebSocketMessage bound bound this ws (Json JNull))
    as [[this0 ws0] effects0].
  destruct (Node.message_event bound bound (Node.started this) nws
              (Json JNull)) as [[rt0 nws0] neffects0].
  cbn [fst snd]. split.
  - destruct H5 as (_ & _ & _ & _ & _ & _ & H & _).
    assert (Hclosed : (Bun.authenticated (Bun.data ws5), Bun.closed ws5,
                       replies effects5, closes effects5)
                      = (false, Some invalid_token,
                         [reply "error" [Text "Invalid token"]],
                         [invalid_token])).
    { apply H.
      - intros (properties & Hm & _). discriminate.
      - intros [Hm | [Hm | Hm]]; discriminate. }
    congruence.
  - destruct Hnull as (_ & _ & _ & _ & _ & _ & _ & _ & H & _).
    assert (Hclosed : (Node.authenticated nws0, Node.closed nws0,
                       Node.listener nws0, replies neffects0,
                       closes neffects0)
                      = (false, Some malformed_auth, Node.NoListener,
                         [reply "error" [Text "Malformed auth message"]],
                         [malformed_auth])).
    { apply H. right. left. reflexivity. }
    congruence.
Defined.

(** ** The commands of an authenticated connection *)

Lemma replies_app (a b : list effect) :
  replies (a ++ b) = replies a ++ replies b.
Proof. apply omap_app. Qed.

Lemma closes_app (a b : list effect) : closes (a ++ b) = closes a ++ closes b.
Proof. apply omap_app. Qed.

Lemma rejections_app (a b : list effect) :
  rejections (a ++ b) = rejections a ++ rejections b.
Proof. apply omap_app. Qed.

Lemma silent_app (a b : list effect) : silent a -> silent b -> silent (a ++ b).
Proof.
  intros (Ha & Ha' & Ha'') (Hb & Hb' & Hb''). split; [| split].
  - rewrite replies_app, Ha, Hb. reflexivity.
  - rewrite closes_app, Ha', Hb'. reflexivity.
  - rewrite rejections_app, Ha'', Hb''. reflexivity.
Qed.

Lemma silent_nil : silent [].
Proof. repeat split. Qed.

Lemma Bun_findAvailablePort_silent (bind : Z -> BindResult)
    (this : ProxBoardService) :
  silent (snd (Bun.findAvailablePort bind this)).
Proof.
  unfold Bun.findAvailablePort.
  generalize (Z.to_nat (maxProxyPort this - minProxyPort this + 1)) as n.
  generalize (minProxyPort this) as port. intros port n. revert port.
  induction n as [|n IH]; intros port; cbn [Bun.findAvailablePort_from];
    [apply silent_nil|].
  destruct (Map_has (activeProxies this) port); [apply IH|].
  destruct (bind port); [repeat split|].
  specialize (IH (port + 1)).
  destruct (Bun.findAvailablePort_from bind this (port + 1) n).
  exact IH.
Qed.

Lemma Node_findAvailablePort_silent (bind : Z -> BindResult)
    (this : ProxBoardService) :
  silent (snd (Node.findAvailablePort bind this)).
Proof.
  unfold Node.findAvailablePort.
  generalize (Z.to_nat (maxProxyPort this - minProxyPort this + 1)) as n.
  generalize (minProxyPort this) as port. intros port n. revert port.
  induction n as [|n IH]; intros port; cbn [Node.findAvailablePort_from];
    [apply silent_nil|].
  destruct (Map_has (activeProxies this) port); [apply IH|].
  destruct (bind port) as [|code text]; [repeat split|].
  destruct (String.eqb code "EADDRINUSE"); [repeat split|].
  specialize (IH (port + 1)).
  destruct (Node.findAvailablePort_from bind this (port + 1) n).
  exact IH.
Qed.

Lemma Bun_createProxy_silent (probe bind : Z -> BindResult)
    (proxyHostAddress proxyHostPort : js_value) (this : ProxBoardService) :
  silent (snd (Bun.createProxy probe bind proxyHostAddress proxyHostPort this)).
Proof.
  unfold Bun.createProxy.
  destruct (negb (truthy proxyHostAddress) || _); [apply silent_nil|].
  pose proof (Bun_findAvailablePort_silent probe this) as Hs.
  destruct (Bun.findAvailablePort probe this) as [[p|] probes];
    cbn [snd] in *; [| exact Hs].
  destruct (bind p); cbn [snd]; apply silent_app;
    try exact Hs; repeat split.
Qed.

Lemma Node_createProxy_silent (probe bind : Z -> BindResult)
    (proxyHostAddress proxyHostPort : js_value) (rt : Node.Runtime) :
  silent (snd (Node.createProxy probe bind proxyHostAddress proxyHostPort rt)).
Proof.
  unfold Node.createProxy.
  destruct (negb (truthy proxyHostAddress) || _); [apply silent_nil|].
  pose proof (Node_findAvailablePort_silent probe (Node.this rt)) as Hs.
  destruct (Node.findAvailablePort probe (Node.this rt)) as [[p|] probes];
    cbn [snd] in *; [| exact Hs].
  destruct (bind p); cbn [snd]; apply silent_app;
    try exact Hs; repeat split.
Qed.

Lemma Bun_stopProxy_silent (proxyPort : js_value) (this : ProxBoardService) :
  silent (snd (Bun.stopProxy proxyPort this)).
Proof.
  unfold Bun.stopProxy.
  destruct (Map_get (activeProxies this) proxyPort); repeat split.
Qed.

Lemma Node_stopProxy_silent (proxyPort : js_value) (rt rt' : Node.Runtime)
    (r : Response.t) (effects : list effect) :
  Node.stopProxy proxyPort rt = Ok (r, rt', effects) -> silent effects.
Proof.
  unfold Node.stopProxy.
  destruct (Map_get (activeProxies (Node.this rt)) proxyPort);
    [| intros [= _ _ <-]; apply silent_nil].
  destruct (Node.is_closing rt _); [discriminate|].
  intros [= _ _ <-]. repeat split.
Qed.

Lemma Node_tick_silent (rt : Node.Runtime) : silent (snd (Node.tick rt)).
Proof.
  unfold Node.tick. generalize (activeProxies (Node.this rt)).
  induction (Node.closing rt) as [|key ports IH]; intros m;
    cbn [Node.close_callbacks]; [apply silent_nil|].
  specialize (IH (Map_delete m key)).
  destruct (Node.close_callbacks ports (Map_delete m key)) as [m' effects].
  exact IH.
Qed.

Lemma get_throws (v : js_value) (key : string) :
  (exists text, get v key = Throw text) <-> v = JNull \/ v = JUndefined.
Proof.
  destruct v; cbn [get]; split;
    try (intros [text H]; discriminate);
    try (intros [H | H]; discriminate);
    eauto.
Qed.

Lemma get_same (v : js_value) (key key' : string) (x : js_value) :
  get v key = Ok x -> exists y, get v key' = Ok y.
Proof. destruct v; cbn [get]; try discriminate; eauto. Qed.

(** The response of the Bun service to the value of a message on an
    authenticated connection. *)
Lemma Bun_handleAuthenticatedMessage_cases (probe bind : Z -> BindResult)
    (this : ProxBoardService) (v : js_value) :
  ((v = JNull \/ v = JUndefined)
   /\ exists text,
        Bun.handleAuthenticatedMessage probe bind this v = Throw text)
  \/ (exists action r this' effects,
        get v "action" = Ok action
        /\ Bun.handleAuthenticatedMessage probe bind this v
           = Ok (this', effects ++ [ws_send r])
        /\ silent effects
        /\ (action <> JString (js "list") ->
            action <> JString (js "create") ->
            action <> JString (js "stop") ->
            this' = this /\ effects = []
            /\ r = reply "error" [Text "Unknown action."])).
Proof.
  unfold Bun.handleAuthenticatedMessage.
  destruct (get v "action") as [action|text] eqn:Ea.
  2:{ left. split; [| eexists; reflexivity].
      apply (get_throws v "action"). eauto. }
  right. exists action. cbn [mbind result_bind].
  destruct (strict_equals action (JString (js "list"))) eqn:El.
  { apply strict_equals_string_r in El.
    eexists _, _, []. split; [reflexivity|]. split; [reflexivity|].
    split; [apply silent_nil|]. intros; contradiction. }
  destruct (strict_equals action (JString (js "create"))) eqn:Ec.
  { apply strict_equals_string_r in Ec.
    destruct (get_same v "action" "proxyHostAddress" action Ea) as [a ->].
    destruct (get_same v "action" "proxyHostPort" action Ea) as [p ->].
    cbn [mbind result_bind mret result_ret].
    pose proof (Bun_createProxy_silent probe bind a p this) as Hs.
    destruct (Bun.createProxy probe bind a p this) as [[r this'] effects].
    exists r, this', effects. split; [reflexivity|]. split; [reflexivity|].
    split; [exact Hs|]. intros; contradiction. }
  destruct (strict_equals action (JString (js "stop"))) eqn:Es.
  { apply strict_equals_string_r in Es.
    destruct (get_same v "action" "proxyPort" action Ea) as [p ->].
    cbn [mbind result_bind mret result_ret].
    pose proof (Bun_stopProxy_silent p this) as Hs.
    destruct (Bun.stopProxy p this) as [[r this'] effects].
    exists r, this', effects. split; [reflexivity|]. split; [reflexivity|].
    split; [exact Hs|]. intros; contradiction. }
  eexists _, _, []. split; [reflexivity|]. split; [reflexivity|].
  split; [apply silent_nil|]. auto.
Qed.

(** The same for the Node service, whose handler catches what is thrown
    and does not answer while a create is pending. *)
Lemma Node_handleWebSocketMessage_cases (probe bind : Z -> BindResult)
    (rt : Node.Runtime) (message : ws_message) :
  closes (snd (Node.handleWebSocketMessage probe bind rt message)) = []
  /\ rejections (snd (Node.handleWebSocketMessage probe bind rt message)) = []
  /\ (length (replies (snd (Node.handleWebSocketMessage probe bind rt
                             message))) <= 1)%nat
  /\ (unreadable message ->
      exists text,
        replies (snd (Node.handleWebSocketMessage probe bind rt message))
        = [reply "error" [Text text]])
  /\ (forall v action,
        message = Json v -> get v "action" = Ok action ->
        action <> JString (js "list") ->
        action <> JString (js "create") ->
        action <> JString (js "stop") ->
        replies (snd (Node.handleWebSocketMessage probe bind rt message))
        = [reply "error" [Text "Unknown action."]]).
Proof.
  unfold Node.handleWebSocketMessage.
  destruct message as [|v]; cbn [JSON_parse mbind result_bind].
  { cbn. split; [reflexivity|]. split; [reflexivity|]. split; [lia|].
    split; [eauto | discriminate]. }
  destruct (get v "action") as [action|text] eqn:Ea; cbn [mbind result_bind].
  2:{ cbn. split; [reflexivity|]. split; [reflexivity|]. split; [lia|].
      split; [eauto|].
      intros v' action' [= <-]. rewrite Ea. discriminate. }
  assert (Hreadable : ~ unreadable (Json v)).
  { intros [H | [[= ->] | [= ->]]];
      [discriminate H | discriminate Ea | discriminate Ea]. }
  assert (Hknown : forall (known : jsstring) (P : Prop),
             action = JString known ->
             (known = js "list" \/ known = js "create" \/ known = js "stop") ->
             forall v' action',
               Json v = Json v' -> get v' "action" = Ok action' ->
               action' <> JString (js "list") ->
               action' <> JString (js "create") ->
               action' <> JString (js "stop") -> P).
  { intros known P -> Hk v' action' [= <-]. rewrite Ea. intros [= <-].
    destruct Hk as [-> | [-> | ->]]; intros; contradiction. }
  destruct (strict_equals action (JString (js "list"))) eqn:El.
  { apply strict_equals_string_r in El. cbn.
    split; [reflexivity|]. split; [reflexivity|]. split; [lia|].
    split; [intros Hu; destruct (Hreadable Hu)|].
    apply (Hknown (js "list")); auto. }
  destruct (strict_equals action (JString (js "create"))) eqn:Ec.
  { apply strict_equals_string_r in Ec.
    destruct (get_same v "action" "proxyHostAddress" action Ea) as [a ->].
    destruct (get_same v "action" "proxyHostPort" action Ea) as [p ->].
    cbn [mbind result_bind mret result_ret].
    pose proof (Node_createProxy_silent probe bind a p rt) as (Hr & Hc & Hj).
    destruct (Node.createProxy probe bind a p rt) as [[[r|] rt'] effects];
      cbn [snd] in Hr, Hc, Hj; cbn [mret result_ret snd];
      rewrite ?replies_app, ?closes_app, ?rejections_app, ?Hr, ?Hc, ?Hj;
      (split; [reflexivity|]); (split; [reflexivity|]);
      (split; [cbn; lia|]);
      (split; [intros Hu; destruct (Hreadable Hu)|]);
      apply (Hknown (js "create")); auto. }
  destruct (strict_equals action (JString (js "stop"))) eqn:Es.
  { apply strict_equals_string_r in Es.
    destruct (get_same v "action" "proxyPort" action Ea) as [p ->].
    cbn [mbind result_bind mret result_ret].
    destruct (Node.stopProxy p rt) as [[[r rt'] effects]|text] eqn:Estop;
      cbn [mbind result_bind mret result_ret snd].
    - destruct (Node_stopProxy_silent p rt rt' r effects Estop)
        as (Hr & Hc & Hj).
      rewrite ?replies_app, ?closes_app, ?rejections_app, ?Hr, ?Hc, ?Hj.
      split; [reflexivity|]. split; [reflexivity|]. split; [cbn; lia|].
      split; [intros Hu; destruct (Hreadable Hu)|].
      apply (Hknown (js "stop")); auto.
    - split; [reflexivity|]. split; [reflexivity|]. split; [cbn; lia|].
      split; [intros Hu; destruct (Hreadable Hu)|].
      apply (Hknown (js "stop")); auto. }
  cbn. split; [reflexivity|]. split; [reflexivity|]. split; [lia|].
  split; [intros Hu; destruct (Hreadable Hu)|].
  intros; reflexivity.
Qed.

Lemma Bun_authenticated_message_cases (probe bind : Z -> BindResult)
    (this : ProxBoardService) (ws : Bun.ServerWebSocket)
    (message : ws_message) :
  Bun.authenticated (Bun.data ws) = true ->
  snd (fst (Bun.handleWebSocketMessage probe bind this ws message)) = ws
  /\ closes (snd (Bun.handleWebSocketMessage probe bind this ws message)) = []
  /\ (message = Json JNull \/ message = Json JUndefined ->
      exists reason,
        snd (Bun.handleWebSocketMessage probe bind this ws message)
        = [unhandled_rejection reason])
  /\ (message <> Json JNull -> message <> Json JUndefined ->
      rejections (snd (Bun.handleWebSocketMessage probe bind this ws
                         message)) = []
      /\ length (replies (snd (Bun.handleWebSocketMessage probe bind this ws
                                 message))) = 1%nat)
  /\ (message = NotJson ->
      fst (fst (Bun.handleWebSocketMessage probe bind this ws message)) = this
      /\ exists text,
           replies (snd (Bun.handleWebSocketMessage probe bind this ws
                           message))
           = [reply "error" [Text text]])
  /\ (forall v action,
        message = Json v -> get v "action" = Ok action ->
        action <> JString (js "list") ->
        action <> JString (js "create") ->
        action <> JString (js "stop") ->
        fst (fst (Bun.handleWebSocketMessage probe bind this ws message))
        = this
        /\ replies (snd (Bun.handleWebSocketMessage probe bind this ws
                           message))
           = [reply "error" [Text "Unknown action."]]).
Proof.
  intros Hauth. unfold Bun.handleWebSocketMessage. rewrite Hauth.
  cbn [negb].
  destruct message as [|v]; cbn [JSON_parse mbind result_bind].
  { cbn. split; [reflexivity|]. split; [reflexivity|].
    split; [intros [H | H]; discriminate H|].
    split; [split; reflexivity|].
    split; [eauto | discriminate]. }
  destruct (Bun_handleAuthenticatedMessage_cases probe bind this v)
    as [[Hv [text ->]]
       | (action & r & this' & effects & Ha & -> & (Hr & Hc & Hj) & Hk)];
    cbn [mbind result_bind mret result_ret fst snd].
  - split; [reflexivity|]. split; [reflexivity|].
    split; [eauto|].
    split; [intros H1 H2; destruct Hv as [-> | ->]; contradiction|].
    split; [discriminate|].
    intros v' action' [= <-] Ha. exfalso.
    destruct Hv as [-> | ->]; discriminate Ha.
  - rewrite replies_app, closes_app, rejections_app, Hr, Hc, Hj.
    split; [reflexivity|]. split; [reflexivity|].
    split; [intros [[= ->] | [= ->]]; discriminate Ha|].
    split; [split; reflexivity|]. split; [discriminate|].
    intros v' action' [= <-]. rewrite Ha. intros [= <-] H1 H2 H3.
    destruct (Hk H1 H2 H3) as (-> & _ & ->). split; reflexivity.
Qed.

(** X18. A message on an authenticated connection. The Node service
    never closes the connection for it and leaves the connection as it
    is; it answers with at most one response, and answers text that is
    not JSON and the JSON [null] with an error. The Bun service does the
    same for every message but the JSON [null], with exactly one
    response; for [null] the promise of [handleAuthenticatedMessage] is
    rejected and nothing handles the rejection, which ends the Bun
    process: no response is sent. In both services a message whose
    [action] is none of [list], [create] and [stop] is answered with
    "Unknown action."; the Bun service is then unchanged. *)
Theorem authenticated_connection_is_answered (probe bind : Z -> BindResult)
    (this : ProxBoardService) (rt : Node.Runtime)
    (ws : Bun.ServerWebSocket) (nws : Node.WebSocket)
    (message : ws_message) :
  Bun.authenticated (Bun.data ws) = true ->
  Node.listener nws = Node.Commands ->
  let '(this', ws', effects) :=
    Bun.handleWebSocketMessage probe bind this ws message in
  let '(rt', nws', neffects) :=
    Node.message_event probe bind rt nws message in
  nws' = nws /\ closes neffects = [] /\ rejections neffects = []
  /\ (length (replies neffects) <= 1)%nat
  /\ (unreadable message ->
      exists text, replies neffects = [reply "error" [Text text]])
  /\ (message = Json JNull \/ message = Json JUndefined ->
      exists reason, effects = [unhandled_rejection reason])
  /\ (message <> Json JNull -> message <> Json JUndefined ->
      ws' = ws /\ closes effects = [] /\ rejections effects = []
      /\ length (replies effects) = 1%nat)
  /\ (message = NotJson ->
      this' = this
      /\ exists text, replies effects = [reply "error" [Text text]])
  /\ (forall v action,
        message = Json v -> get v "action" = Ok action ->
        action <> JString (js "list") ->
        action <> JString (js "create") ->
        action <> JString (js "stop") ->
        this' = this
        /\ replies effects = [reply "error" [Text "Unknown action."]]
        /\ replies neffects = [reply "error" [Text "Unknown action."]]).
Proof.
  intros Hauth Hcmd.
  pose proof (Bun_authenticated_message_cases probe bind this ws message
                Hauth) as (Hws & Hbc & Hbn & Hb1 & Hbj & Hbk).
  destruct (Bun.handleWebSocketMessage probe bind this ws message)
    as [[this' ws'] effects].
  cbn [fst snd] in *.
  unfold Node.message_event. rewrite Hcmd.
  pose proof (Node_handleWebSocketMessage_cases probe bind rt message)
    as (Hnc & Hnj & Hnl & Hnu & Hnk).
  destruct (Node.handleWebSocketMessage probe bind rt message)
    as [rt1 neffects].
  pose proof (Node_tick_silent rt1) as (Htr & Htc & Htj).
  destruct (Node.tick rt1) as [rt2 teffects].
  cbn [snd] in *.
  assert (Hreplies : replies (neffects ++ teffects) = replies neffects)
    by (rewrite replies_app, Htr; apply app_nil_r).
  assert (Hcloses : closes (neffects ++ teffects) = [])
    by (rewrite closes_app, Htc, Hnc; reflexivity).
  assert (Hrejections : rejections (neffects ++ teffects) = [])
    by (rewrite rejections_app, Htj, Hnj; reflexivity).
  rewrite Hreplies, Hcloses, Hrejections.
  split; [reflexivity|]. split; [reflexivity|]. split; [reflexivity|].
  split; [exact Hnl|]. split; [exact Hnu|]. split; [exact Hbn|].
  split.
  { intros H1 H2. destruct (Hb1 H1 H2) as [Hj Hl]. auto. }
  split; [exact Hbj|].
  intros v action Hm Ha H1 H2 H3.
  destruct (Hbk v action Hm Ha H1 H2 H3) as [Hthis Hreply].
  split; [exact Hthis|]. split; [exact Hreply|]. eapply Hnk; eassumption.
Qed.

Lemma authenticated_connection_is_answered_witness :
  let this := new_ProxBoardService 3000 10000 10002 (js "secret") in
  let bound : Z -> BindResult := fun _ => Bound in
  let ws :=
    {| Bun.data := {| Bun.authenticated := true; Bun.authTimeout := None |};
       Bun.closed := None |} in
  let nws :=
    {| Node.authenticated := true; Node.authTimeout := None;
       Node.listener := Node.Commands; Node.closed := None |} in
  let ping := Json (JObject [(js "action", JString (js "ping"))]) in
  (let '(this', ws', effects) :=
     Bun.handleWebSocketMessage bound bound this ws ping in
   let '(rt', nws', neffects) :=
     Node.message_event bound bound (Node.started this) nws ping in
   this' = this
   /\ replies effects = [reply "error" [Text "Unknown action."]]
   /\ replies neffects = [reply "error" [Text "Unknown action."]])
  /\ (exists reason,
        snd (Bun.handleWebSocketMessage bound bound this ws (Json JNull))
        = [unhandled_rejection reason]).
Proof.
  intros this bound ws nws ping. split.
  - pose proof (authenticated_connection_is_answered bound bound this
                  (Node.started this) ws nws ping eq_refl eq_refl) as H.
    destruct (Bun.handleWebSocketMessage bound bound this ws ping)
      as [[this' ws'] effects].
    destruct (Node.message_event bound bound (Node.started this) nws ping)
      as [[rt' nws'] neffects].
    destruct H as (_ & _ & _ & _ & _ & _ & _ & _ & H).
    apply (H (JObject [(js "action", JString (js "ping"))])
             (JString (js "ping")));
      [reflexivity | reflexivity | | |]; intros [= H']; vm_compute in H';
      discriminate H'.
  - pose proof (authenticated_connection_is_answered bound bound this
                  (Node.started this) ws nws (Json JNull) eq_refl eq_refl)
      as H.
    destruct (Bun.handleWebSocketMessage bound bound this ws (Json JNull))
      as [[this' ws'] effects].
    destruct (Node.message_event bound bound (Node.started this) nws
                (Json JNull)) as [[rt' nws'] neffects].
    destruct H as (_ & _ & _ & _ & _ & H & _).
    apply H. left. reflexivity.
Defined.



(** X20. A connection is closed at most once. After a first message that
    does not authenticate, the timer of the Bun service is cleared and
    nothing happens when time passes; the timer of the Node service is
    still set, and when its five seconds are over it logs the
    authentication timeout without closing the connection again. The Node
    service ignores every later message on that connection. *)
Theorem failed_authentication_closes_once (probe bind : Z -> BindResult)
    (this : ProxBoardService) (rt : Node.Runtime) (message : ws_message)
    (ms : Z) :
  (~ auth_message (accessToken this) message ->
   Bun.elapse ms
     (snd (fst (Bun.handleWebSocketMessage probe bind this
                  (fst (Bun.handleWebSocketOpen Bun.upgraded)) message)))
   = (snd (fst (Bun.handleWebSocketMessage probe bind this
                  (fst (Bun.handleWebSocketOpen Bun.upgraded)) message)),
      []))
  /\ (~ auth_message (accessToken (Node.this rt)) message ->
      (5000 <= ms ->
       Node.elapse ms
         (snd (fst (Node.message_event probe bind rt (fst Node.connection)
                      message)))
       = ({| Node.authenticated := false; Node.authTimeout := None;
             Node.listener := Node.NoListener;
             Node.closed :=
               Node.closed
                 (snd (fst (Node.message_event probe bind rt
                              (fst Node.connection) message))) |},
          [console_log [Text "Authentication timeout: closing connection."]]))
      /\ Node.closed
           (snd (fst (Node.message_event probe bind rt (fst Node.connection)
                        message))) <> None
      /\ forall probe' bind' rt' message',
           Node.message_event probe' bind' rt'
             (snd (fst (Node.message_event probe bind rt
                          (fst Node.connection) message))) message'
           = (rt',
              snd (fst (Node.message_event probe bind rt
                          (fst Node.connection) message)),
              [])).
Proof.
  split.
  - intros Hno.
    rewrite (Bun_unauthenticated_message probe bind this
               (fst (Bun.handleWebSocketOpen Bun.upgraded)) message eq_refl).
    destruct (accepted_cases (accessToken this) message)
      as [[Hb _] | [[_ [text ->]] | (_ & _ & ->)]];
      [contradiction | reflexivity | reflexivity].
  - intros Hno.
    assert (Hev : exists reason,
               snd (fst (Node.message_event probe bind rt
                           (fst Node.connection) message))
               = {| Node.authenticated := false;
                    Node.authTimeout := Some 5000;
                    Node.listener := Node.NoListener;
                    Node.closed := Some reason |}).
    { unfold Node.message_event.
      cbn [Node.connection fst Node.listener Node.authenticated
             Node.authTimeout Node.closed].
      unfold Node.firstMessage.
      change (data ← JSON_parse message;
              action ← get data "action";
              if strict_equals action (JString (js "auth"))
              then token ← get data "token";
                   mret (strict_equals token
                           (JString (accessToken (Node.this rt))))
              else mret false)
        with (accepted (accessToken (Node.this rt)) message).
      destruct (accepted_cases (accessToken (Node.this rt)) message)
        as [[Hb _] | [[_ [text ->]] | (_ & _ & ->)]];
        [contradiction | |]; eexists; reflexivity. }
    destruct Hev as [reason ->]. cbn [Node.closed].
    split; [| split; [discriminate | reflexivity]].
    intros Hms. unfold Node.elapse. cbn [Node.authTimeout].
    destruct (Z.leb_spec 5000 ms); [reflexivity | lia].
Qed.

Lemma failed_authentication_closes_once_witness :
  let this := new_ProxBoardService 3000 10000 10002 (js "secret") in
  let bound : Z -> BindResult := fun _ => Bound in
  let bun :=
    snd (fst (Bun.handleWebSocketMessage bound bound this
                (fst (Bun.handleWebSocketOpen Bun.upgraded)) NotJson)) in
  let node :=
    snd (fst (Node.message_event bound bound (Node.started this)
                (fst Node.connection) NotJson)) in
  Bun.elapse 5000 bun = (bun, [])
  /\ Node.elapse 5000 node
     = ({| Node.authenticated := false; Node.authTimeout := None;
           Node.listener := Node.NoListener;
           Node.closed := Node.closed node |},
        [console_log [Text "Authentication timeout: closing connection."]]).
Proof.
  intros this bound bun node. split.
  - apply (proj1 (failed_authentication_closes_once bound bound this
                    (Node.started this) NotJson 5000)).
    intros (properties & H & _). discriminate H.
  - apply (proj2 (failed_authentication_closes_once bound bound this
                    (Node.started this) NotJson 5000)).
    + intros (properties & H & _). discriminate H.
    + lia.
Defined.

(** * The error of a session's socket *)

(** X21. An error on the socket of a session closes the socket and
    removes the session: a stop on its port then answers NotFound, and
    every other session is as it was. *)
Theorem socket_error_removes_the_session (availablePort : Z) (socket : Socket)
    (error : string) (this : ProxBoardService) (rt : Node.Runtime) :
  Bun.stopProxy (JNumber availablePort)
    (fst (Bun.onError availablePort socket error this))
  = (NotFound, fst (Bun.onError availablePort socket error this), [])
  /\ socket_closes (snd (Bun.onError availablePort socket error this))
     = [socket]
  /\ (forall q,
        q <> availablePort ->
        activeProxies (fst (Bun.onError availablePort socket error this)) !! q
        = activeProxies this !! q)
  /\ (Node.closing rt = [] ->
      exists rt' effects,
        Node.onError availablePort socket error rt = Ok (rt', effects)
        /\ Node.stopProxy (JNumber availablePort) rt' = Ok (NotFound, rt', [])
        /\ socket_closes effects = [socket]
        /\ forall q,
             q <> availablePort ->
             activeProxies (Node.this rt') !! q
             = activeProxies (Node.this rt) !! q).
Proof.
  split; [| split; [| split]].
  - unfold Bun.stopProxy, Bun.onError.
    cbn [fst Map_get with_activeProxies activeProxies].
    rewrite lookup_delete_eq. reflexivity.
  - reflexivity.
  - intros q Hq. cbn [Bun.onError fst with_activeProxies activeProxies].
    apply lookup_delete_ne. congruence.
  - intros Hclosing. unfold Node.onError, Node.is_closing.
    rewrite Hclosing. cbn [existsb]. eexists _, _.
    split; [reflexivity|]. split; [| split; [reflexivity|]].
    + unfold Node.stopProxy.
      cbn [Node.this Map_get with_activeProxies activeProxies].
      rewrite lookup_delete_eq. reflexivity.
    + intros q Hq. cbn [Node.this with_activeProxies activeProxies].
      apply lookup_delete_ne. congruence.
Qed.

Lemma socket_error_removes_the_session_witness :
  let this := new_ProxBoardService 3000 10000 10002 (js "secret") in
  let host := JString (js "127.0.0.1") in
  let two :=
    with_activeProxies this
      (<[10000 := session 10000 host (JNumber 9999)]>
         (<[10001 := session 10001 host (JNumber 9998)]> ∅)) in
  activeProxies
    (fst (Bun.onError 10000 {| localPort := 10000 |} "EIO" two)) !! 10001
  = activeProxies two !! 10001
  /\ exists rt' effects,
       Node.onError 10000 {| localPort := 10000 |} "EIO" (Node.started two)
       = Ok (rt', effects)
       /\ Node.stopProxy (JNumber 10000) rt' = Ok (NotFound, rt', [])
       /\ socket_closes effects = [{| localPort := 10000 |}]
       /\ forall q,
            q <> 10000 ->
            activeProxies (Node.this rt') !! q
            = activeProxies (Node.this (Node.started two)) !! q.
Proof.
  intros this host two. split.
  - apply (socket_error_removes_the_session 10000 {| localPort := 10000 |}
             "EIO" two (Node.started two)).
    lia.
  - apply (socket_error_removes_the_session 10000 {| localPort := 10000 |}
             "EIO" two (Node.started two)).
    reflexivity.
Defined.
